(** * Universal MCP client: the conversation normalisation engine

    A shallow embedding of the provider adapters ([anthropic.js], [openai.js],
    [deepseek.js], [huggingface.js], [google.js]) and of the orchestrator
    ([mcp-client.js]), followed by the properties of the specification that
    were checked against it.

    Conventions of the embedding.
    - JavaScript values that travel through the history (message contents,
      tool results, wire messages) are terms of [Js.value]; [undefined] is the
      [None] of a property lookup.
    - Content parts and tool-result blocks are objects, as the MCP result
      schema and the canonical history have them: reading a property of a
      value that is not an object gives [undefined]. Reading a property of
      [null] throws instead; the conversions of the string adapters are
      also given with that exception ([ToolResultText]).
    - An object written [{}] and used as a table answers for the names it
      inherits as well as for its own keys ([ObjectLiteral]).
    - [JSON.parse], [JSON.stringify] and the string conversion of a template
      literal are language built-ins; they are the fields of [Builtins].
    - Logger and console output is kept as a list of structured events. *)

From Stdlib Require Import String Ascii List ZArith Lia Bool DecimalString.
From stdpp Require Import base option list strings gmap.
Import ListNotations.
Local Open Scope string_scope.
Local Open Scope list_scope.
Local Open Scope Z_scope.
Set Warnings "-register-all".

(* ===================================================================== *)
(** * JavaScript values                                                    *)
(* ===================================================================== *)

Module Js.

Inductive value : Type :=
| Null
| Bool (b : bool)
| Num (n : Z)
| Str (s : string)
| Arr (xs : list value)
| Obj (fields : list (string * value)).

(** [o[k]] for an own property of a plain object. *)
Fixpoint assoc (k : string) (fields : list (string * value)) : option value :=
  match fields with
  | [] => None
  | (k', v) :: rest => if String.eqb k k' then Some v else assoc k rest
  end.

(** [v.k] for a value [v] that can be read: the own property of a plain
    object, [undefined] for a primitive or an array (the adapters read no
    index and no [length] through it). Reading a property of [null] throws
    a [TypeError]; [get] stands for the read where the code has tested the
    value, or where the value is a part of a list that holds objects. *)
Definition get (k : string) (v : value) : option value :=
  match v with
  | Obj fields => assoc k fields
  | _ => None
  end.

(** [o.a.b] *)
Definition get2 (a b : string) (v : value) : option value :=
  match get a v with
  | Some w => get b w
  | None => None
  end.

(** ToBoolean. *)
Definition truthy (v : value) : bool :=
  match v with
  | Null => false
  | Bool b => b
  | Num n => negb (n =? 0)
  | Str s => negb (String.eqb s "")
  | Arr _ => true
  | Obj _ => true
  end.

Definition otruthy (o : option value) : bool :=
  match o with
  | Some v => truthy v
  | None => false
  end.

(** [typeof v === 'string'] with the string at hand. *)
Definition as_string (o : option value) : option string :=
  match o with
  | Some (Str s) => Some s
  | _ => None
  end.

(** [Array.isArray(v)] with the elements at hand. *)
Definition as_array (o : option value) : option (list value) :=
  match o with
  | Some (Arr xs) => Some xs
  | _ => None
  end.

(** [typeof v === 'object' && v !== null] (arrays included). *)
Definition is_object (v : value) : bool :=
  match v with
  | Arr _ | Obj _ => true
  | _ => false
  end.

(** [o.k === s] for a string literal [s]. *)
Definition field_is (k s : string) (v : value) : bool :=
  match get k v with
  | Some (Str s') => String.eqb s' s
  | _ => false
  end.

Definition str_truthy (s : string) : bool := negb (String.eqb s "").

Definition ostr_truthy (o : option string) : bool :=
  match o with
  | Some s => str_truthy s
  | None => false
  end.

(** Language built-ins used by the adapters. [JSON_parse] is [None] where
    [JSON.parse] throws a [SyntaxError]; [JSON_stringify] is total on the
    values above (no cycles, no [undefined]); [ToString] is the conversion
    a template literal applies; [Array_prototype name] says whether the
    runtime's [Array.prototype] has a property of that name (its methods:
    the set grows with the language version). *)
Class Builtins := {
  JSON_parse : string -> option value;
  JSON_stringify : value -> string;
  ToString : value -> string;
  Array_prototype : string -> bool;
}.

(** [`${v}`] *)
Definition template `{Builtins} (v : value) : string :=
  match v with
  | Str s => s
  | _ => ToString v
  end.

End Js.
Import Js.

(* ===================================================================== *)
(** * Strings as the adapters use them                                     *)
(* ===================================================================== *)

Module Text.

(** [s.startsWith(p)], giving the rest of [s] after [p]. *)
Fixpoint strip_prefix (p s : string) : option string :=
  match p, s with
  | EmptyString, _ => Some s
  | String a p', String b s' =>
      if Ascii.eqb a b then strip_prefix p' s' else None
  | String _ _, EmptyString => None
  end.

Definition startsWith (p s : string) : bool :=
  match strip_prefix p s with Some _ => true | None => false end.

(** [s.substring(s.indexOf(c) + 1)]: the text after the first [c], and the
    whole of [s] when [c] does not occur ([indexOf] is -1 then). *)
Fixpoint after_first (c : ascii) (s : string) : option string :=
  match s with
  | EmptyString => None
  | String a s' => if Ascii.eqb a c then Some s' else after_first c s'
  end.

Definition substring_after_indexOf (c : ascii) (s : string) : string :=
  match after_first c s with
  | Some rest => rest
  | None => s
  end.

(** The longest prefix of [s] made of characters of the class [cls], and
    the rest: what a greedy [[...]+] consumes when the character that
    must follow is outside the class. *)
Fixpoint span (cls : ascii -> bool) (s : string) : string * string :=
  match s with
  | EmptyString => (EmptyString, EmptyString)
  | String a s' =>
      if cls a then let '(run, rest) := span cls s' in (String a run, rest)
      else (EmptyString, s)
  end.

Definition between (lo hi : nat) (a : ascii) : bool :=
  (Nat.leb lo (nat_of_ascii a) && Nat.leb (nat_of_ascii a) hi)%bool.

Definition alnum (a : ascii) : bool :=
  (between 97 122 a || between 65 90 a || between 48 57 a)%bool.

Definition is_char (c : string) (a : ascii) : bool :=
  match c with
  | String b EmptyString => Ascii.eqb a b
  | _ => false
  end.

(** [s.trim() !== ''] *)
Definition is_space (a : ascii) : bool :=
  let n := nat_of_ascii a in
  (Nat.eqb n 32 || (Nat.leb 9 n && Nat.leb n 13))%bool.

Fixpoint blank (s : string) : bool :=
  match s with
  | EmptyString => true
  | String a s' => (is_space a && blank s')%bool
  end.

(** Characters that are awkward inside a literal. *)
Definition dquote : string := String (ascii_of_nat 34) EmptyString.
Definition newline : string := String (ascii_of_nat 10) EmptyString.
Definition backslash : string := String (ascii_of_nat 92) EmptyString.

(** [parts.join(sep)] *)
Fixpoint join (sep : string) (parts : list string) : string :=
  match parts with
  | [] => ""
  | [p] => p
  | p :: rest => p +:+ sep +:+ join sep rest
  end.

(** [parseInt(s, 10)]: leading white space, an optional sign, then the
    longest run of decimal digits; [None] is NaN. *)
Definition digit (a : ascii) : option Z :=
  if between 48 57 a then Some (Z.of_nat (nat_of_ascii a) - 48) else None.

Fixpoint digits (acc : Z) (s : string) : Z :=
  match s with
  | EmptyString => acc
  | String a s' =>
      match digit a with
      | Some d => digits (10 * acc + d) s'
      | None => acc
      end
  end.

Definition unsigned (s : string) : option Z :=
  match s with
  | EmptyString => None
  | String a _ =>
      match digit a with
      | Some _ => Some (digits 0 s)
      | None => None
      end
  end.

Fixpoint skip_space (s : string) : string :=
  match s with
  | EmptyString => EmptyString
  | String a s' => if is_space a then skip_space s' else s
  end.

(** [s.trim()] *)
Fixpoint trim_end (s : string) : string :=
  match s with
  | EmptyString => EmptyString
  | String a s' =>
      match trim_end s' with
      | EmptyString => if is_space a then EmptyString else String a EmptyString
      | t => String a t
      end
  end.

Definition trim (s : string) : string := trim_end (skip_space s).

(** [s.toLowerCase()] on ASCII letters. *)
Definition lower (a : ascii) : ascii :=
  if between 65 90 a then ascii_of_nat (nat_of_ascii a + 32) else a.

Fixpoint toLowerCase (s : string) : string :=
  match s with
  | EmptyString => EmptyString
  | String a s' => String (lower a) (toLowerCase s')
  end.

Definition parseInt10 (s : string) : option Z :=
  match skip_space s with
  | String "-" s' => Z.opp <$> unsigned s'
  | String "+" s' => unsigned s'
  | s' => unsigned s'
  end.

(** [s.endsWith(p)] *)
Definition endsWith (p s : string) : bool :=
  let n := String.length s in
  let m := String.length p in
  (Nat.leb m n && String.eqb (String.substring (n - m) m s) p)%bool.

(** [s.slice(2, -1)] *)
Definition slice_2_minus_1 (s : string) : string :=
  String.substring 2 (String.length s - 3) s.

(** [s.split(c)] for a one-character separator: the pieces between the
    occurrences of [c]; never an empty list. *)
Fixpoint split (c : ascii) (s : string) : list string :=
  match s with
  | EmptyString => [EmptyString]
  | String a s' =>
      if Ascii.eqb a c then EmptyString :: split c s'
      else
        match split c s' with
        | piece :: rest => String a piece :: rest
        | [] => [String a EmptyString]
        end
  end.

End Text.

(* ===================================================================== *)
(** * Canonical history                                                    *)
(* ===================================================================== *)

Inductive Role := user | assistant | tool | system.

Definition Role_eqb (a b : Role) : bool :=
  match a, b with
  | user, user | assistant, assistant | tool, tool | system, system => true
  | _, _ => false
  end.

(** [{id, name, args}] as [extractToolCalls] returns it. *)
Record ToolCall := mkToolCall {
  tc_id : string;
  tc_name : string;
  tc_args : value;
}.

(** A message of [MCPClient.conversation]. [tool_calls] is [null] or a
    list; [tool_call_id] and [name] are set on tool messages. *)
Record Message := mkMessage {
  role : Role;
  content : value;
  tool_calls : option (list ToolCall);
  tool_call_id : option string;
  name : option string;
}.

Definition userMessage (c : value) : Message :=
  mkMessage user c None None None.
Definition assistantMessage (text : string) (calls : option (list ToolCall)) : Message :=
  mkMessage assistant (Str text) calls None None.
Definition toolMessage (id nm : string) (result : value) : Message :=
  mkMessage tool result None (Some id) (Some nm).

(** [message.tool_calls && message.tool_calls.length > 0], with the calls. *)
Definition calls_of (m : Message) : list ToolCall :=
  match tool_calls m with
  | Some cs => cs
  | None => []
  end.

(** [message.content && typeof message.content === 'string' &&
    message.content.trim() !== ''], with the text. *)
Definition nonblank_text (m : Message) : option string :=
  match content m with
  | Str s => if Text.blank s then None else Some s
  | _ => None
  end.

(** What the logger and the console receive. *)
Inductive Event :=
| LogInfo (msg : string)
| LogWarn (msg : string)
| LogError (msg : string)
| ConsoleLog (msg : string)
| ConsoleError (msg : string)
| LogTrimmed (numToRemove maxLength : Z).

(* ===================================================================== *)
(** * Wire shapes shared by the adapters                                   *)
(* ===================================================================== *)

Module Wire.

(** [{ type: 'text', text }] *)
Definition text_part (s : string) : value :=
  Obj [("type", Str "text"); ("text", Str s)].

(** [{ type: 'image', source: { type: 'base64', media_type, data } }] *)
Definition image_block (media_type data : value) : value :=
  Obj [("type", Str "image");
       ("source", Obj [("type", Str "base64");
                       ("media_type", media_type);
                       ("data", data)])].

(** [{ type: 'image_url', image_url: { url } }] *)
Definition image_url_part (url : string) : value :=
  Obj [("type", Str "image_url"); ("image_url", Obj [("url", Str url)])].

(** [`data:${mime};base64,${data}`] *)
Definition data_url `{Builtins} (mime data : value) : string :=
  "data:" +:+ template mime +:+ ";base64," +:+ template data.

(** [{ type: 'image_mcp', source: { media_type, data } }], the canonical
    cross-provider image part. *)
Definition image_mcp_part (media_type data : string) : value :=
  Obj [("type", Str "image_mcp");
       ("source", Obj [("media_type", Str media_type); ("data", Str data)])].

(** [{ role, content }] *)
Definition turn (r : string) (c : value) : value :=
  Obj [("role", Str r); ("content", c)].

(** [base64Data.replace(/^data:[cls]+;base64,/, '')] after the [test]: the
    prefix is removed when the string starts with [data:], a non-empty run
    of class characters and [;base64,]; the string is unchanged otherwise.
    The class never holds [;]. *)
Definition strip_data_uri (cls : ascii -> bool) (s : string) : string :=
  match Text.strip_prefix "data:" s with
  | Some rest =>
      match Text.span cls rest with
      | (String _ _, rest') =>
          match Text.strip_prefix ";base64," rest' with
          | Some payload => payload
          | None => s
          end
      | (EmptyString, _) => s
      end
  | None => s
  end.

(** The same on a value that was only tested for truthiness. *)
Definition strip_data_uri_value (cls : ascii -> bool) (v : value) : value :=
  match v with
  | Str s => Str (strip_data_uri cls s)
  | _ => v
  end.

(** [dataUrl.match(re)] for the pattern [data:], a group of one or more
    word characters, slashes, dashes and dots, [;base64,], and a second group
    that runs to the end of the string without crossing a line terminator:
    the two groups, or [None] when the pattern does not match. *)
Definition url_class (a : ascii) : bool :=
  (Text.alnum a || Text.is_char "_" a || Text.is_char "/" a
   || Text.is_char "-" a || Text.is_char "." a)%bool.

Definition line_terminator (a : ascii) : bool :=
  (Nat.eqb (nat_of_ascii a) 10 || Nat.eqb (nat_of_ascii a) 13)%bool.

Fixpoint one_line (s : string) : bool :=
  match s with
  | EmptyString => true
  | String a s' => (negb (line_terminator a) && one_line s')%bool
  end.

Definition _parseDataUrl (dataUrl : string) : option (string * string) :=
  match Text.strip_prefix "data:" dataUrl with
  | Some rest =>
      match Text.span url_class rest with
      | (String a run, rest') =>
          match Text.strip_prefix ";base64," rest' with
          | Some payload =>
              if one_line payload then Some (String a run, payload) else None
          | None => None
          end
      | (EmptyString, _) => None
      end
  | None => None
  end.

End Wire.

(* ===================================================================== *)
(** * The logger ([utils/logging.js])                                      *)
(* ===================================================================== *)

Module Logger.

(** The property names that every plain object inherits from
    [Object.prototype]. *)
Definition Object_prototype : list string :=
  ["constructor"; "__defineGetter__"; "__defineSetter__"; "hasOwnProperty";
   "__lookupGetter__"; "__lookupSetter__"; "isPrototypeOf";
   "propertyIsEnumerable"; "toString"; "valueOf"; "__proto__";
   "toLocaleString"].

Definition inherited (name : string) : bool :=
  existsb (String.eqb name) Object_prototype.

(** What [this.levels[level]] evaluates to: the number of an own property,
    the function or object found on the prototype for an inherited name,
    [undefined] for any other name. *)
Inductive property :=
| Number (n : Z)
| Inherited (name : string)
| Undefined.

Definition levels (level : string) : property :=
  if String.eqb level "error" then Number 0
  else if String.eqb level "warn" then Number 1
  else if String.eqb level "info" then Number 2
  else if String.eqb level "debug" then Number 3
  else if String.eqb level "trace" then Number 4
  else if inherited level then Inherited level
  else Undefined.

(** [a <= b]: both sides are converted to numbers; a function, an object
    and [undefined] convert to NaN, and a comparison with NaN is false. *)
Definition le (a b : property) : bool :=
  match a, b with
  | Number x, Number y => x <=? y
  | _, _ => false
  end.

Inductive Output :=
| console_error (line : string)
| console_warn (line : string)
| console_info (line : string)
| console_debug (line : string)
| console_log (line : string).

Record Logger := mkLogger {
  logLevel : string;
}.

(** The constructor. *)
Definition new : Logger := mkLogger "trace".

(** The class has no property [level]: reading [logger.level] gives
    [undefined]. *)
Definition level (this : Logger) : option string := None.

Definition setLevel (level : string) (this : Logger) : Logger * list Output :=
  match levels level with
  | Undefined =>
      (mkLogger "info",
       [console_warn ("Invalid log level: " +:+ level
                      +:+ ". Using 'info' instead.")])
  | _ => (mkLogger level, [])
  end.

Definition isLevelEnabled (this : Logger) (level : string) : bool :=
  le (levels level) (levels (logLevel this)).

Definition upper (a : ascii) : ascii :=
  if Text.between 97 122 a then ascii_of_nat (nat_of_ascii a - 32) else a.

Fixpoint toUpperCase (s : string) : string :=
  match s with
  | EmptyString => EmptyString
  | String a s' => String (upper a) (toUpperCase s')
  end.

(** [timestamp] is [new Date().toISOString()]. *)
Definition formatMessage (timestamp level message : string) : string :=
  "[" +:+ timestamp +:+ "] [" +:+ toUpperCase level +:+ "] " +:+ message.

Definition error (timestamp message : string) (this : Logger) : list Output :=
  if isLevelEnabled this "error"
  then [console_error (formatMessage timestamp "error" message)] else [].


Definition info (timestamp message : string) (this : Logger) : list Output :=
  if isLevelEnabled this "info"
  then [console_info (formatMessage timestamp "info" message)] else [].

Definition debug (timestamp message : string) (this : Logger) : list Output :=
  if isLevelEnabled this "debug"
  then [console_debug (formatMessage timestamp "debug" message)] else [].

Definition trace (timestamp message : string) (this : Logger) : list Output :=
  if isLevelEnabled this "trace"
  then [console_log (formatMessage timestamp "trace" message)] else [].

Fixpoint repeat_char (c : ascii) (n : nat) : string :=
  match n with
  | O => EmptyString
  | S n' => String c (repeat_char c n')
  end.

Definition separator (timestamp : string) (this : Logger) : list Output :=
  if isLevelEnabled this "info"
  then [console_info (formatMessage timestamp "info" (repeat_char "-" 80))]
  else [].


End Logger.

(* ===================================================================== *)
(** * Objects written [{}] and used as tables                              *)
(* ===================================================================== *)

(** [const table = {}], then [table[key] = v] and [table[key]] with keys
    that are arbitrary strings. Such an object has a prototype: a key that
    the table does not hold itself is looked up there, and an assignment to
    [__proto__] reaches the setter of [Object.prototype], which replaces the
    prototype when the value is an object or [null] and does nothing
    otherwise. *)
Module ObjectLiteral.
Section Object.
Context `{Builtins}.

Inductive Prototype :=
| Object_prototype
| Array_instance (xs : list value)
| Object_instance (fields : list (string * value))
| Null_prototype.

Record object := mkObject {
  own : gmap string value;
  prototype : Prototype;
}.

(** [{}] *)
Definition empty : object := mkObject ∅ Object_prototype.

(** What [table[key]] evaluates to: a value of the history, a built-in
    function found on a prototype, or [undefined]. *)
Inductive property :=
| Value (v : value)
| Function (name : string)
| Undefined.

(** The key of the element [i] of an array. *)
Definition index_name (i : nat) : string :=
  NilZero.string_of_uint (Nat.to_uint i).

Fixpoint element (key : string) (i : nat) (xs : list value) : option value :=
  match xs with
  | [] => None
  | x :: rest =>
      if String.eqb key (index_name i) then Some x else element key (S i) rest
  end.

(** The end of every chain: [Object.prototype]. Its accessor [__proto__]
    gives the prototype of the table itself. *)
Definition from_Object_prototype (prototype_of_table : value) (key : string)
  : property :=
  if String.eqb key "__proto__" then Value prototype_of_table
  else if Logger.inherited key then Function key
  else Undefined.

(** The look-up of a key that the table does not hold itself. An array
    that has become the prototype answers with its length and its
    elements, then [Array.prototype] with its methods; an object with its
    own members. [Object.prototype] itself has no member that
    [JSON.stringify] shows: it reads as [{}]. *)
Definition inherited_property (proto : Prototype) (key : string) : property :=
  match proto with
  | Object_prototype => from_Object_prototype (Obj []) key
  | Array_instance xs =>
      if String.eqb key "length" then Value (Num (Z.of_nat (length xs)))
      else
        match element key 0 xs with
        | Some x => Value x
        | None =>
            if String.eqb key "__proto__" then Value (Arr xs)
            else if Array_prototype key then Function key
            else from_Object_prototype (Arr xs) key
        end
  | Object_instance fields =>
      match assoc key fields with
      | Some v => Value v
      | None => from_Object_prototype (Obj fields) key
      end
  | Null_prototype => Undefined
  end.

(** [table[key]] *)
Definition lookup (key : string) (table : object) : property :=
  match own table !! key with
  | Some v => Value v
  | None => inherited_property (prototype table) key
  end.

(** The setter of [__proto__]. *)
Definition set_prototype (v : value) (table : object) : object :=
  match v with
  | Arr xs => mkObject (own table) (Array_instance xs)
  | Obj fields => mkObject (own table) (Object_instance fields)
  | Null => mkObject (own table) Null_prototype
  | _ => table
  end.

Definition define (key : string) (v : value) (table : object) : object :=
  mkObject (<[key := v]> (own table)) (prototype table).

(** [table[key] = v]. Every property the chains above hold is a writable
    data property, so the assignment defines a property of the table
    itself, except for [__proto__] while its setter is what the chain
    finds. *)
Definition assign (key : string) (v : value) (table : object) : object :=
  if String.eqb key "__proto__" then
    match own table !! key, prototype table with
    | Some _, _ => define key v table
    | None, Null_prototype => define key v table
    | None, Object_instance fields =>
        match assoc key fields with
        | Some _ => define key v table
        | None => set_prototype v table
        end
    | None, (Object_prototype | Array_instance _) => set_prototype v table
    end
  else define key v table.

End Object.
End ObjectLiteral.

(* ===================================================================== *)
(** * The block-structured adapter ([anthropic.js])                        *)
(* ===================================================================== *)

Module AnthropicProvider.
Section Adapter.
Context `{Builtins}.

(** The class of [/^data:[a-zA-Z0-9\/+]+;base64,/]. *)
Definition prefix_class (a : ascii) : bool :=
  (Text.alnum a || Text.is_char "/" a || Text.is_char "+" a)%bool.

(** One iteration of the loop over [mcpToolResult.content]: the blocks it
    pushes on [anthropicContent]. *)
Definition convert_part (part : value) : list value :=
  match field_is "type" "text" part, as_string (get "text" part) with
  | true, Some s => [Wire.text_part s]
  | _, _ =>
      if (field_is "type" "image" part && otruthy (get "data" part)
          && otruthy (get "mimeType" part))%bool then
        match get "data" part, get "mimeType" part with
        | Some d, Some m =>
            [Wire.image_block m (Wire.strip_data_uri_value prefix_class d)]
        | _, _ => []
        end
      else
        match field_is "type" "data" part, get "data" part with
        | true, Some d =>
            if is_object d then [Wire.text_part (JSON_stringify d)] else []
        | _, _ => []
        end
  end.

(** The tail of [convertToolResult]: an empty list becomes [""], a single
    text block becomes its text, anything else stays a list of blocks. *)
Definition finish (anthropicContent : list value) : value :=
  match anthropicContent with
  | [] => Str ""
  | [b] =>
      match field_is "type" "text" b, get "text" b with
      | true, Some t => t
      | _, _ => Arr anthropicContent
      end
  | _ => Arr anthropicContent
  end.

(** [const { image, ...otherProps } = mcpToolResult] *)
Definition without_key (k : string) (fields : list (string * value))
  : list (string * value) :=
  filter (fun kv => negb (String.eqb (fst kv) k)) fields.

Definition convertToolResult (mcpToolResult : value) (toolName : option string)
  : value :=
  match mcpToolResult with
  | Str s => Str s
  | _ =>
      match as_array (get "content" mcpToolResult) with
      | Some parts => finish (flat_map convert_part parts)
      | None =>
          match as_string (get2 "image" "base64Data" mcpToolResult),
                get2 "image" "mimeType" mcpToolResult,
                mcpToolResult with
          | Some base64Data, Some mimeType, Obj fields =>
              if (otruthy (get "image" mcpToolResult) && truthy mimeType)%bool
              then
                finish
                  (Wire.image_block mimeType
                     (Str (Wire.strip_data_uri prefix_class base64Data))
                   :: match without_key "image" fields with
                      | [] => []
                      | otherProps =>
                          [Wire.text_part (JSON_stringify (Obj otherProps))]
                      end)
              else Str (JSON_stringify mcpToolResult)
          | _, _, _ =>
              if is_object mcpToolResult
              then Str (JSON_stringify mcpToolResult)
              else Str (ToString mcpToolResult)
          end
      end
  end.

(** One iteration of the [forEach] in [_convertUserContentForAnthropic]. *)
Definition convert_user_part (part : value) : list value :=
  match field_is "type" "text" part, as_string (get "text" part) with
  | true, Some s => [Wire.text_part s]
  | _, _ =>
      if (field_is "type" "image" part && otruthy (get "source" part)
          && match get "source" part with
             | Some src => field_is "type" "base64" src
             | None => false
             end)%bool
      then [part]
      else
        match field_is "type" "image_url" part,
              otruthy (get "image_url" part),
              as_string (get2 "image_url" "url" part) with
        | true, true, Some url =>
            match Wire._parseDataUrl url with
            | Some (mimeType, base64Data) =>
                if str_truthy base64Data
                then [Wire.image_block (Str mimeType) (Str base64Data)]
                else []
            | None => []
            end
        | _, _, _ =>
            match field_is "type" "image_mcp" part,
                  get2 "source" "media_type" part,
                  get2 "source" "data" part with
            | true, Some media_type, Some data =>
                if (otruthy (get "source" part) && truthy media_type
                    && truthy data)%bool
                then [Wire.image_block media_type data]
                else []
            | _, _, _ => []
            end
        end
  end.

Definition _convertUserContentForAnthropic (messageContent : value)
  : list value :=
  match messageContent with
  | Str s => [Wire.text_part s]
  | Arr parts => flat_map convert_user_part parts
  | _ => []
  end.

(** First pass of [formatConversation]: [toolResultsMap], an object
    written [{}] and keyed by call id; a later result for the same id
    overwrites an earlier one. *)
Definition record_result (toolResultsMap : ObjectLiteral.object)
    (message : Message) : ObjectLiteral.object :=
  match role message, tool_call_id message with
  | tool, Some id =>
      if str_truthy id
      then ObjectLiteral.assign id
             (convertToolResult (content message) (name message))
             toolResultsMap
      else toolResultsMap
  | _, _ => toolResultsMap
  end.

Definition toolResultsMap (conversationHistory : list Message)
  : ObjectLiteral.object :=
  fold_left record_result conversationHistory ObjectLiteral.empty.

(** [{ type: 'tool_use', id, name, input: toolCall.args || {} }] *)
Definition tool_use_block (toolCall : ToolCall) : value :=
  Obj [("type", Str "tool_use");
       ("id", Str (tc_id toolCall));
       ("name", Str (tc_name toolCall));
       ("input", if truthy (tc_args toolCall) then tc_args toolCall else Obj [])].

(** [{ type: 'tool_result', tool_use_id, content }] *)
Definition tool_result_block (tool_use_id : string) (result : value) : value :=
  Obj [("type", Str "tool_result");
       ("tool_use_id", Str tool_use_id);
       ("content", result)].

(** [toolResultsMap[toolCall.id]] and the test [if (toolResultForThisCall)]:
    the block pushed on [pendingToolResults] for a call, if any. A function
    found on the prototype is truthy, so a block is pushed for it too; a
    function is no value of the history and no member of a JSON text, and
    the block is written as the request carries it, without [content]. *)
Definition result_block (results : ObjectLiteral.object) (toolCall : ToolCall)
  : option value :=
  match ObjectLiteral.lookup (tc_id toolCall) results with
  | ObjectLiteral.Value toolResultForThisCall =>
      if truthy toolResultForThisCall
      then Some (tool_result_block (tc_id toolCall) toolResultForThisCall)
      else None
  | ObjectLiteral.Function _ =>
      Some (Obj [("type", Str "tool_result");
                 ("tool_use_id", Str (tc_id toolCall))])
  | ObjectLiteral.Undefined => None
  end.

(** One iteration of the loop over [message.tool_calls]: the [tool_use]
    block goes to [assistantContent]; the block of the result found for
    the call's id goes to [pendingToolResults]. *)
Definition push_call (results : ObjectLiteral.object)
    (acc : list value * list value) (toolCall : ToolCall)
  : list value * list value :=
  let '(assistantContent, pendingToolResults) := acc in
  (assistantContent ++ [tool_use_block toolCall],
   match result_block results toolCall with
   | Some block => pendingToolResults ++ [block]
   | None => pendingToolResults
   end).

Definition user_turn (blocks : list value) : value :=
  Wire.turn "user" (Arr blocks).

(** What the [user] branch pushes for the message itself. *)
Definition user_message_turns (message : Message) : list value :=
  match _convertUserContentForAnthropic (content message) with
  | [] =>
      match content message with
      | Str s => [Wire.turn "user" (Str s)]
      | _ => []
      end
  | processedUserContent => [user_turn processedUserContent]
  end.

(** [conversationHistory[i+1]?.role !== 'user'] or [i] is the last index,
    read off the rest of the history after message [i]. *)
Definition next_is_not_user (rest : list Message) : bool :=
  match rest with
  | [] => true
  | next :: _ => negb (Role_eqb (role next) user)
  end.

(** Second pass: the loop over the history, with [formattedMessages] and
    [pendingToolResults] as its state, and the flush after the loop. *)
Fixpoint format_loop (results : ObjectLiteral.object) (history : list Message)
    (formattedMessages pendingToolResults : list value) : list value :=
  match history with
  | [] =>
      match pendingToolResults with
      | [] => formattedMessages
      | _ => formattedMessages ++ [user_turn pendingToolResults]
      end
  | message :: rest =>
      match role message with
      | user =>
          let formattedMessages :=
            match pendingToolResults with
            | [] => formattedMessages
            | _ => formattedMessages ++ [user_turn pendingToolResults]
            end in
          format_loop results rest
            (formattedMessages ++ user_message_turns message) []
      | assistant =>
          let text :=
            match nonblank_text message with
            | Some s => [Wire.text_part s]
            | None => []
            end in
          let '(assistantContent, pendingToolResults) :=
            fold_left (push_call results) (calls_of message)
              (text, pendingToolResults) in
          let formattedMessages :=
            match assistantContent with
            | [] => formattedMessages
            | _ => formattedMessages
                     ++ [Wire.turn "assistant" (Arr assistantContent)]
            end in
          match pendingToolResults with
          | _ :: _ =>
              if next_is_not_user rest
              then format_loop results rest
                     (formattedMessages ++ [user_turn pendingToolResults]) []
              else format_loop results rest formattedMessages pendingToolResults
          | [] => format_loop results rest formattedMessages []
          end
      | _ => format_loop results rest formattedMessages pendingToolResults
      end
  end.

Definition formatConversation (conversationHistory : list Message) : list value :=
  format_loop (toolResultsMap conversationHistory) conversationHistory [] [].

(** The response of [messages.create]: [content] is absent or a list of
    blocks. *)
Record Response := mkResponse {
  resp_content : option (list value);
}.

(** [args: toolUseBlock.input || {}]; [id] and [name] are strings in a
    [tool_use] block. *)
Definition call_of_block (toolUseBlock : value) : ToolCall :=
  mkToolCall
    (default "" (as_string (get "id" toolUseBlock)))
    (default "" (as_string (get "name" toolUseBlock)))
    (match get "input" toolUseBlock with
     | Some input => if truthy input then input else Obj []
     | None => Obj []
     end).

Definition extractToolCalls (llmResponse : option Response)
  : option (list ToolCall) :=
  match llmResponse with
  | Some r =>
      match resp_content r with
      | Some blocks =>
          match call_of_block <$> filter (field_is "type" "tool_use") blocks with
          | [] => None
          | toolCalls => Some toolCalls
          end
      | None => None
      end
  | None => None
  end.

(** The texts of the [text] blocks, joined by a line feed. *)
Definition extractTextContent (llmResponse : option Response) : string :=
  match llmResponse with
  | Some r =>
      match resp_content r with
      | Some blocks =>
          Text.join Text.newline
            ((fun textBlock =>
                match get "text" textBlock with
                | Some t => template t
                | None => "undefined"
                end) <$> filter (field_is "type" "text") blocks)
      | None => EmptyString
      end
  | None => EmptyString
  end.

End Adapter.
End AnthropicProvider.

(* ===================================================================== *)
(** * Provider instances ([base-provider.js])                              *)
(* ===================================================================== *)

Inductive ProviderKind := Anthropic | OpenAI | Google | DeepSeek.

(** The fields of [BaseProvider] that the adapters read. [chatSession] is
    the history handed to [startChat] (the stateful adapter only). *)
Record BaseProvider := mkProvider {
  kind : ProviderKind;
  apiKey : string;
  modelName : string;
  providerSystemMessage : string;
  allTools : list value;
  imageAnalysisPromptSuffix : option string;
  chatSession : option (list value);
}.

(** [`${x}`] for a property that may be [undefined]. *)
Definition show (o : option string) : string := default "undefined" o.

(** Either a returned value or a thrown exception. *)
Inductive outcome (A : Type) : Type :=
| Returned (a : A)
| Thrown (error : string).
Arguments Returned {A} a.
Arguments Thrown {A} error.

(* ===================================================================== *)
(** * Chat-completion responses (OpenAI SDK shape)                         *)
(* ===================================================================== *)

Module ChatCompletion.

Record FunctionCall := mkFunctionCall {
  fn_name : string;
  fn_arguments : string;
}.

Record RawToolCall := mkRawToolCall {
  raw_id : string;
  raw_type : string;
  raw_function : FunctionCall;
}.

Record ChatMessage := mkChatMessage {
  msg_content : option string;
  msg_tool_calls : option (list RawToolCall);
}.

Record Choice := mkChoice {
  choice_message : option ChatMessage;
}.

Record Response := mkResponse {
  choices : option (list Choice);
}.

(** [llmResponse.choices && llmResponse.choices[0] &&
    llmResponse.choices[0].message], with the message. *)
Definition first_message (llmResponse : Response) : option ChatMessage :=
  match choices llmResponse with
  | Some (c :: _) => choice_message c
  | _ => None
  end.

End ChatCompletion.
Import ChatCompletion.

(* ===================================================================== *)
(** * The textual summary of a tool result                                 *)
(* ===================================================================== *)

(** [_convertToolResultForOpenAI], [_convertToolResultForDeepSeek] and
    [_convertToolResultForPartner] carry the same loop and the same two
    look-ups after it; they are written once here. The first definitions
    give the value these statements compute on a list of parts that can all
    be read, as the tool turns of [formatConversation] use it; the second
    half of the module adds the exception that reading a null part
    raises. *)
Module ToolResultText.
Section Summary.
Context `{Builtins}.

(** The loop over [mcpToolResult.content]: [inl text] is the early
    [return part.text] at the first text part that [JSON.parse] accepts;
    [inr firstTextPartContent] is the state when the loop runs out. *)
Fixpoint scan_text_parts (parts : list value) (firstTextPartContent : option string)
  : string + option string :=
  match parts with
  | [] => inr firstTextPartContent
  | part :: rest =>
      match field_is "type" "text" part, as_string (get "text" part) with
      | true, Some text =>
          let firstTextPartContent :=
            match firstTextPartContent with
            | None => Some text
            | Some _ => firstTextPartContent
            end in
          match JSON_parse text with
          | Some _ => inl text
          | None => scan_text_parts rest firstTextPartContent
          end
      | _, _ => scan_text_parts rest firstTextPartContent
      end
  end.

(** [p => p.type === 'data' && typeof p.data !== 'undefined'] *)
Definition is_data_part (p : value) : bool :=
  (field_is "type" "data" p && bool_decide (is_Some (get "data" p)))%bool.

(** The block guarded by [mcpToolResult && mcpToolResult.content &&
    Array.isArray(mcpToolResult.content)] and the fallback after it. *)
Definition summarize (mcpToolResult : value) : string :=
  match as_array (get "content" mcpToolResult) with
  | Some parts =>
      match scan_text_parts parts None with
      | inl text => text
      | inr firstTextPartContent =>
          match find is_data_part parts with
          | Some dataPart =>
              match get "data" dataPart with
              | Some data => JSON_stringify data
              | None => JSON_stringify mcpToolResult
              end
          | None =>
              match firstTextPartContent with
              | Some text => text
              | None => JSON_stringify mcpToolResult
              end
          end
      end
  | None => JSON_stringify mcpToolResult
  end.

(** [p => p.type === 'image' && p.data && typeof p.data === 'string' &&
    p.mimeType] *)
Definition is_image_part (p : value) : bool :=
  (field_is "type" "image" p
   && ostr_truthy (as_string (get "data" p))
   && otruthy (get "mimeType" p))%bool.

(** [toolCallResult.image && typeof toolCallResult.image.base64Data ===
    'string' && toolCallResult.image.mimeType] *)
Definition has_direct_image (r : value) : bool :=
  (otruthy (get "image" r)
   && bool_decide (is_Some (as_string (get2 "image" "base64Data" r)))
   && otruthy (get2 "image" "mimeType" r))%bool.

(** The [hasImage] flag of the OpenAI and Hugging Face adapters. *)
Definition hasImage (mcpToolResult : value) : bool :=
  if (truthy mcpToolResult && is_object mcpToolResult)%bool then
    if has_direct_image mcpToolResult then true
    else
      match as_array (get "content" mcpToolResult) with
      | Some parts => existsb is_image_part parts
      | None => false
      end
  else false.

Definition image_placeholder : string :=
  "Tool execution was successful. Output includes image data, which will be processed separately if applicable by the client.".

(** The first half of [extractImageFromToolResult]: the raw
    [base64ImageData] and [mimeType], both [null] when nothing is found. *)
Definition find_image (toolCallResult : value) : option string * option value :=
  if (truthy toolCallResult && is_object toolCallResult)%bool then
    if has_direct_image toolCallResult then
      (as_string (get2 "image" "base64Data" toolCallResult),
       get2 "image" "mimeType" toolCallResult)
    else
      match as_array (get "content" toolCallResult) with
      | Some parts =>
          match find is_image_part parts with
          | Some imageContentPart =>
              (as_string (get "data" imageContentPart),
               get "mimeType" imageContentPart)
          | None => (None, None)
          end
      | None => (None, None)
      end
  else (None, None).

(** The second half: the prefix is stripped when both are truthy. *)
Definition strip_found (cls : ascii -> bool)
    (found : option string * option value) : option string * option value :=
  match found with
  | (Some base64ImageData, Some mimeType) =>
      if (str_truthy base64ImageData && truthy mimeType)%bool
      then (Some (Wire.strip_data_uri cls base64ImageData), Some mimeType)
      else found
  | _ => found
  end.

(** [base64ImageData && mimeType] on such a pair, with both at hand. *)
Definition found_image (found : option string * option value)
  : option (string * value) :=
  match found with
  | (Some base64ImageData, Some mimeType) =>
      if (str_truthy base64ImageData && truthy mimeType)%bool
      then Some (base64ImageData, mimeType)
      else None
  | _ => None
  end.

(** ** The same statements with the exception a null part raises

    The loops and callbacks above read [part.type] first. On a part that is
    [null] this read throws a [TypeError]; the only [try] of the
    conversions is the one around [JSON.parse], so the exception leaves
    them. The definitions below follow the same statements part by part
    and end with that exception at the first null part they reach; on a
    list without a null part they return what the definitions above
    give. *)
Definition TypeError : string :=
  "TypeError: Cannot read properties of null (reading 'type')".

(** [parts.find(p)] and [parts.some(p)] for a callback that reads
    [part.type] first: the parts are visited in order up to the first one
    that satisfies [p]. *)
Fixpoint find_or_throw (p : value -> bool) (parts : list value)
  : outcome (option value) :=
  match parts with
  | [] => Returned None
  | Null :: _ => Thrown TypeError
  | part :: rest =>
      if p part then Returned (Some part) else find_or_throw p rest
  end.

(** The loop over [mcpToolResult.content]. *)
Fixpoint scan_or_throw (parts : list value) (firstTextPartContent : option string)
  : outcome (string + option string) :=
  match parts with
  | [] => Returned (inr firstTextPartContent)
  | Null :: _ => Thrown TypeError
  | part :: rest =>
      match field_is "type" "text" part, as_string (get "text" part) with
      | true, Some text =>
          let firstTextPartContent :=
            match firstTextPartContent with
            | None => Some text
            | Some _ => firstTextPartContent
            end in
          match JSON_parse text with
          | Some _ => Returned (inl text)
          | None => scan_or_throw rest firstTextPartContent
          end
      | _, _ => scan_or_throw rest firstTextPartContent
      end
  end.

(** The block guarded by [mcpToolResult && mcpToolResult.content &&
    Array.isArray(mcpToolResult.content)] and the fallback after it. *)
Definition summarize_or_throw (mcpToolResult : value) : outcome string :=
  match as_array (get "content" mcpToolResult) with
  | Some parts =>
      match scan_or_throw parts None with
      | Thrown e => Thrown e
      | Returned (inl text) => Returned text
      | Returned (inr firstTextPartContent) =>
          match find_or_throw is_data_part parts with
          | Thrown e => Thrown e
          | Returned (Some dataPart) =>
              Returned match get "data" dataPart with
                       | Some data => JSON_stringify data
                       | None => JSON_stringify mcpToolResult
                       end
          | Returned None =>
              Returned match firstTextPartContent with
                       | Some text => text
                       | None => JSON_stringify mcpToolResult
                       end
          end
      end
  | None => Returned (JSON_stringify mcpToolResult)
  end.

(** The [hasImage] flag. *)
Definition hasImage_or_throw (mcpToolResult : value) : outcome bool :=
  if (truthy mcpToolResult && is_object mcpToolResult)%bool then
    if has_direct_image mcpToolResult then Returned true
    else
      match as_array (get "content" mcpToolResult) with
      | Some parts =>
          match find_or_throw is_image_part parts with
          | Thrown e => Thrown e
          | Returned (Some _) => Returned true
          | Returned None => Returned false
          end
      | None => Returned false
      end
  else Returned false.

(** The conversion of the adapters that look for an image first. *)
Definition placeholder_or_summary (mcpToolResult : value) : outcome string :=
  match hasImage_or_throw mcpToolResult with
  | Thrown e => Thrown e
  | Returned true => Returned image_placeholder
  | Returned false =>
      match mcpToolResult with
      | Str s => Returned s
      | _ => summarize_or_throw mcpToolResult
      end
  end.

End Summary.
End ToolResultText.

(* ===================================================================== *)
(** * The OpenAI adapter ([openai.js])                                     *)
(* ===================================================================== *)

Module OpenAIProvider.
Section Adapter.
Context `{Builtins}.

Definition _convertToolResultForOpenAI (mcpToolResult : value)
    (toolName : option string) : string :=
  if ToolResultText.hasImage mcpToolResult then ToolResultText.image_placeholder
  else
    match mcpToolResult with
    | Str s => s
    | _ => ToolResultText.summarize mcpToolResult
    end.

(** [convertToolResult], the method of the provider interface: it returns
    what [_convertToolResultForOpenAI] returns, and ends with the
    [TypeError] of that function when the function reads a null part. *)
Definition convertToolResult (mcpToolResult : value) (toolName : option string)
  : outcome string :=
  ToolResultText.placeholder_or_summary mcpToolResult.

(** The class of the prefix pattern: letters, digits, backslash, slash and
    plus. *)
Definition prefix_class (a : ascii) : bool :=
  (Text.alnum a || Text.is_char Text.backslash a || Text.is_char "/" a
   || Text.is_char "+" a)%bool.

Definition extractImageFromToolResult (toolCallResult : value)
  : option string * option value :=
  ToolResultText.strip_found prefix_class
    (ToolResultText.find_image toolCallResult).

Definition prepareImageMessageContent (base64ImageData : string)
    (mimeType : value) (textPrompt : string) : list value :=
  [Wire.text_part textPrompt;
   Wire.image_url_part (Wire.data_url mimeType (Str base64ImageData))].

(** The inner loop over the blocks of an Anthropic-style [tool_result]
    part: the last image found and the texts, in order. *)
Definition is_nested_image (innerBlock : value) : bool :=
  (field_is "type" "image" innerBlock
   && otruthy (get "source" innerBlock)
   && match get "source" innerBlock with
      | Some src => field_is "type" "base64" src
      | None => false
      end
   && bool_decide (is_Some (as_string (get2 "source" "media_type" innerBlock)))
   && bool_decide (is_Some (as_string (get2 "source" "data" innerBlock))))%bool.

Definition scan_inner (acc : option value * list string) (innerBlock : value)
  : option value * list string :=
  let '(tempImagePartForOpenAI, tempTextPartsForOpenAI) := acc in
  if is_nested_image innerBlock then
    match get2 "source" "media_type" innerBlock,
          get2 "source" "data" innerBlock with
    | Some m, Some d =>
        (Some (Wire.image_url_part (Wire.data_url m d)), tempTextPartsForOpenAI)
    | _, _ => acc
    end
  else
    match field_is "type" "text" innerBlock, as_string (get "text" innerBlock) with
    | true, Some text => (tempImagePartForOpenAI, tempTextPartsForOpenAI ++ [text])
    | _, _ => acc
    end.

Definition explicit_prompt (combinedText : string) : string :=
  "A previous operation returned an image. Original information: "
  +:+ Text.dquote +:+ combinedText +:+ Text.dquote
  +:+ ". The image is provided here. Please analyze it if relevant to the current or next user query. You are capable of identifying elements and their pixel coordinates (x,y from top-left).".

(** The branch for a [tool_result] part inside a user message. *)
Definition convert_tool_result_part (part : value) (tool_use_id actual : value)
  : list value :=
  let '(image, texts) :=
    match actual with
    | Arr blocks => fold_left scan_inner blocks (None, [])
    | Str s => (None, [s])
    | Obj _ =>
        if (field_is "type" "image" actual && otruthy (get "source" actual)
            && match get "source" actual with
               | Some src => field_is "type" "base64" src
               | None => false
               end)%bool
        then
          (Some (Wire.image_url_part
                   ("data:" +:+ match get2 "source" "media_type" actual with
                                | Some m => template m
                                | None => "undefined"
                                end
                    +:+ ";base64,"
                    +:+ match get2 "source" "data" actual with
                        | Some d => template d
                        | None => "undefined"
                        end)), [])
        else (None, [])
    | _ => (None, [])
    end in
  match image, texts with
  | Some tempImagePartForOpenAI, _ =>
      [Wire.text_part (explicit_prompt (Text.join Text.newline texts)); tempImagePartForOpenAI]
  | None, _ :: _ =>
      [Wire.text_part ("(Tool " +:+ template tool_use_id +:+ " result: "
                       +:+ Text.join Text.newline texts +:+ ")")]
  | None, [] =>
      [Wire.text_part ("(Tool " +:+ template tool_use_id
                       +:+ " provided a result of unhandled structure or empty.)")]
  end.

(** One iteration of the loop over the parts of a user message. *)
Definition convert_user_part (part : value) : list value :=
  match field_is "type" "text" part, as_string (get "text" part) with
  | true, Some _ => [part]
  | _, _ =>
      match field_is "type" "image_url" part,
            otruthy (get "image_url" part),
            as_string (get2 "image_url" "url" part) with
      | true, true, Some _ => [part]
      | _, _, _ =>
          match (field_is "type" "image" part && otruthy (get "source" part)
                 && match get "source" part with
                    | Some src => field_is "type" "base64" src
                    | None => false
                    end)%bool,
                get2 "source" "media_type" part, get2 "source" "data" part with
          | true, Some m, Some d =>
              if (truthy m && truthy d)%bool
              then [Wire.image_url_part (Wire.data_url m d)]
              else []
          | _, _, _ =>
              match (field_is "type" "image_mcp" part
                     && otruthy (get "source" part))%bool,
                    get2 "source" "media_type" part,
                    get2 "source" "data" part with
              | true, Some m, Some d =>
                  if (truthy m && truthy d)%bool
                  then [Wire.image_url_part (Wire.data_url m d)]
                  else []
              | _, _, _ =>
                  match field_is "type" "tool_result" part,
                        get "tool_use_id" part, get "content" part with
                  | true, Some tool_use_id, Some actual =>
                      if truthy tool_use_id
                      then convert_tool_result_part part tool_use_id actual
                      else []
                  | _, _, _ => []
                  end
              end
          end
      end
  end.

(** What the [user] branch pushes. *)
Definition user_turns (message : Message) : list value :=
  match content message with
  | Arr parts =>
      match flat_map convert_user_part parts with
      | [] => [Wire.turn "user" (Str "")]
      | newContentArray => [Wire.turn "user" (Arr newContentArray)]
      end
  | Str s => [Wire.turn "user" (Str s)]
  | _ => []
  end.

(** [{ role: 'assistant', content, tool_calls? }] when there is text or
    there are calls. *)
Definition wire_call (tc : ToolCall) : value :=
  Obj [("id", Str (tc_id tc));
       ("type", Str "function");
       ("function",
        Obj [("name", Str (tc_name tc));
             ("arguments",
              Str match tc_args tc with
                  | Str s => s
                  | args => JSON_stringify (if truthy args then args else Obj [])
                  end)])].

Definition assistant_turns (message : Message) : list value :=
  match nonblank_text message, calls_of message with
  | None, [] => []
  | text, calls =>
      [Obj ([("role", Str "assistant");
             ("content", match text with Some s => Str s | None => Null end)]
            ++ match calls with
               | [] => []
               | _ => [("tool_calls", Arr (wire_call <$> calls))]
               end)]
  end.

(** The text the synthetic image message quotes from the tool result. *)
Definition default_text (nm : option string) : string :=
  "Image captured by tool '" +:+ show nm +:+ "'.".

Definition common_text_field (c : value) : option string :=
  match as_string (get "text" c), as_string (get "summary" c),
        as_string (get "description" c), as_string (get "message" c) with
  | Some s, _, _, _ => Some s
  | None, Some s, _, _ => Some s
  | None, None, Some s, _ => Some s
  | None, None, None, Some s => Some s
  | None, None, None, None => None
  end.

Definition remaining_props (fields : list (string * value))
  : list (string * value) :=
  filter (fun kv => negb (String.eqb (fst kv) "image"
                          || String.eqb (fst kv) "base64Data"
                          || String.eqb (fst kv) "data"
                          || String.eqb (fst kv) "content")%bool) fields.

Definition textualContentFromToolResult (message : Message) : string :=
  match as_array (get "content" (content message)), content message with
  | Some parts, _ =>
      match find (field_is "type" "text") parts with
      | Some textPart =>
          match get "text" textPart with
          | Some t => if truthy t then template t else default_text (name message)
          | None => default_text (name message)
          end
      | None => default_text (name message)
      end
  | None, Str s => s
  | None, Obj fields =>
      match common_text_field (content message) with
      | Some s =>
          if String.eqb s (default_text (name message))
          then match remaining_props fields with
               | [] => s
               | tempObj => JSON_stringify (Obj tempObj)
               end
          else s
      | None =>
          match remaining_props fields with
          | [] => default_text (name message)
          | tempObj => JSON_stringify (Obj tempObj)
          end
      end
  | None, Arr _ => default_text (name message)
  | None, _ => default_text (name message)
  end.

Definition image_prompt (this : BaseProvider) (message : Message) : string :=
  let text := textualContentFromToolResult message in
  "The tool '" +:+ show (name message) +:+ "' (called with ID: "
  +:+ (if ostr_truthy (tool_call_id message)
       then show (tool_call_id message) else "N/A")
  +:+ ") previously returned an image, and its summary has just been provided. Original textual information from tool: "
  +:+ Text.dquote +:+ String.substring 0 150 text
  +:+ (if Nat.ltb 150 (String.length text) then "..." else EmptyString)
  +:+ Text.dquote +:+ ". This image is now being provided separately. "
  +:+ show (imageAnalysisPromptSuffix this).

(** What the [tool] branch pushes: the tool message, and after it a
    synthetic user message when the result held an image. *)
Definition tool_turns (this : BaseProvider) (message : Message) : list value :=
  Obj ([("role", Str "tool")]
       ++ match tool_call_id message with
          | Some id => [("tool_call_id", Str id)]
          | None => []
          end
       ++ [("content",
            Str (_convertToolResultForOpenAI (content message) (name message)))])
  :: match ToolResultText.found_image
             (extractImageFromToolResult (content message)) with
     | Some (base64ImageData, mimeType) =>
         [Wire.turn "user"
            (Arr [Wire.text_part (image_prompt this message);
                  Wire.image_url_part
                    (Wire.data_url mimeType (Str base64ImageData))])]
     | None => []
     end.

Definition format_message (this : BaseProvider) (message : Message)
  : list value :=
  match role message with
  | system => []
  | user => user_turns message
  | assistant => assistant_turns message
  | tool => tool_turns this message
  end.

(** The system message is put first unless the history starts with one. *)
Definition formatConversation (this : BaseProvider)
    (conversationHistory : list Message) : list value :=
  (if (str_truthy (providerSystemMessage this)
       && match conversationHistory with
          | [] => true
          | first :: _ => negb (Role_eqb (role first) system)
          end)%bool
   then [Wire.turn "system" (Str (providerSystemMessage this))]
   else [])
  ++ flat_map (format_message this) conversationHistory.

(** The loop of [extractToolCalls]: a call whose arguments [JSON.parse]
    rejects lands in the [catch] and is skipped. *)
Definition parse_call (tc : RawToolCall) : option ToolCall :=
  match JSON_parse (fn_arguments (raw_function tc)) with
  | Some parsedArgs =>
      Some (mkToolCall (raw_id tc) (fn_name (raw_function tc)) parsedArgs)
  | None => None
  end.

Definition push_valid (validToolCalls : list ToolCall) (tc : RawToolCall)
  : list ToolCall :=
  match parse_call tc with
  | Some call => validToolCalls ++ [call]
  | None => validToolCalls
  end.

Definition extractToolCalls (llmResponse : Response) : option (list ToolCall) :=
  match first_message llmResponse with
  | Some message =>
      match msg_tool_calls message with
      | Some tool_calls =>
          match fold_left push_valid tool_calls [] with
          | [] => None
          | validToolCalls => Some validToolCalls
          end
      | None => None
      end
  | None => None
  end.

Definition extractTextContent (llmResponse : Response) : string :=
  match first_message llmResponse with
  | Some message => default "" (msg_content message)
  | None => ""
  end.

End Adapter.
End OpenAIProvider.

(* ===================================================================== *)
(** * The DeepSeek adapter ([deepseek.js])                                 *)
(* ===================================================================== *)

Module DeepSeekProvider.
Section Adapter.
Context `{Builtins}.

Definition _convertToolResultForDeepSeek (mcpToolResult : value)
    (toolName : option string) : string :=
  match mcpToolResult with
  | Str s => s
  | _ => ToolResultText.summarize mcpToolResult
  end.

(** [convertToolResult], the method of the provider interface: it returns
    what [_convertToolResultForDeepSeek] returns, and ends with the
    [TypeError] of that function when the function reads a null part. *)
Definition convertToolResult (mcpToolResult : value) (toolName : option string)
  : outcome string :=
  match mcpToolResult with
  | Str s => Returned s
  | _ => ToolResultText.summarize_or_throw mcpToolResult
  end.

(** The loop of [extractToolCalls]: only calls of type [function] are
    parsed; one that [JSON.parse] rejects is skipped in the [catch]. *)
Definition push_valid (validToolCalls : list ToolCall) (tc : RawToolCall)
  : list ToolCall :=
  if String.eqb (raw_type tc) "function" then
    match JSON_parse (fn_arguments (raw_function tc)) with
    | Some parsedArgs =>
        validToolCalls
          ++ [mkToolCall (raw_id tc) (fn_name (raw_function tc)) parsedArgs]
    | None => validToolCalls
    end
  else validToolCalls.

Definition extractToolCalls (llmResponse : Response) : option (list ToolCall) :=
  match first_message llmResponse with
  | Some message =>
      match msg_tool_calls message with
      | Some tool_calls =>
          match fold_left push_valid tool_calls [] with
          | [] => None
          | validToolCalls => Some validToolCalls
          end
      | None => None
      end
  | None => None
  end.

Definition extractTextContent (llmResponse : Response) : string :=
  match first_message llmResponse with
  | Some message => default EmptyString (msg_content message)
  | None => EmptyString
  end.

Definition is_image_like (part : value) : bool :=
  (field_is "type" "image_mcp" part || field_is "type" "image_url" part
   || field_is "type" "image" part)%bool.

Definition text_of (part : value) : option string :=
  if field_is "type" "text" part then as_string (get "text" part) else None.

(** The content of a user message; a list of parts collapses to its texts
    and a note that an image was left out. *)
Definition userContent (message : Message) : value :=
  match content message with
  | Arr parts =>
      let textSummary := Text.join Text.newline (omap text_of parts) in
      let textSummary :=
        if existsb is_image_like parts
        then textSummary
             +:+ (if str_truthy textSummary then Text.newline else EmptyString)
             +:+ "[Image data was present in history but not sent to DeepSeek provider]"
        else textSummary in
      Str (if str_truthy textSummary then textSummary
           else "[Unsupported multi-part user message content]")
  | c => c
  end.

Definition format_message (message : Message) : list value :=
  match role message with
  | system => []
  | user => [Wire.turn "user" (userContent message)]
  | assistant => OpenAIProvider.assistant_turns message
  | tool =>
      [Obj ([("role", Str "tool")]
            ++ match tool_call_id message with
               | Some id => [("tool_call_id", Str id)]
               | None => []
               end
            ++ [("content",
                 Str (_convertToolResultForDeepSeek (content message)
                        (name message)))])]
  end.

Definition formatConversation (this : BaseProvider)
    (conversationHistory : list Message) : list value :=
  (if (str_truthy (providerSystemMessage this)
       && match conversationHistory with
          | [] => true
          | first :: _ => negb (Role_eqb (role first) system)
          end)%bool
   then [Wire.turn "system" (Str (providerSystemMessage this))]
   else [])
  ++ flat_map format_message conversationHistory.

(** The adapter sends no image: both are [null]. *)
Definition extractImageFromToolResult (toolCallResult : value)
  : option string * option value := (None, None).

End Adapter.
End DeepSeekProvider.

(* ===================================================================== *)
(** * The inference-router adapter ([huggingface.js])                      *)
(* ===================================================================== *)

Module HuggingFaceProvider.
Section Adapter.
Context `{Builtins}.

Definition _convertToolResultForPartner (mcpToolResult : value)
    (toolName : option string) : string :=
  if ToolResultText.hasImage mcpToolResult then ToolResultText.image_placeholder
  else
    match mcpToolResult with
    | Str s => s
    | _ => ToolResultText.summarize mcpToolResult
    end.

(** [convertToolResult], the method of the provider interface: it returns
    what [_convertToolResultForPartner] returns, and ends with the
    [TypeError] of that function when the function reads a null part. *)
Definition convertToolResult (mcpToolResult : value) (toolName : option string)
  : outcome string :=
  ToolResultText.placeholder_or_summary mcpToolResult.

(** The class of the prefix pattern: letters, digits, slash and plus. *)
Definition prefix_class (a : ascii) : bool :=
  (Text.alnum a || Text.is_char "/" a || Text.is_char "+" a)%bool.

Definition extractImageFromToolResult (toolCallResult : value)
  : option string * option value :=
  ToolResultText.strip_found prefix_class
    (ToolResultText.find_image toolCallResult).

(** [tool_calls.map(tc => ({ ..., args: JSON.parse(tc.function.arguments) }))]:
    the callback is applied from left to right and nothing catches what
    [JSON.parse] throws, so the first rejected argument string ends the
    whole call with that exception. *)
Fixpoint map_parse (tool_calls : list RawToolCall) : outcome (list ToolCall) :=
  match tool_calls with
  | [] => Returned []
  | tc :: rest =>
      match JSON_parse (fn_arguments (raw_function tc)) with
      | Some args =>
          match map_parse rest with
          | Returned calls =>
              Returned (mkToolCall (raw_id tc) (fn_name (raw_function tc)) args
                        :: calls)
          | Thrown e => Thrown e
          end
      | None => Thrown "SyntaxError"
      end
  end.

(** [.filter(tc => tc.args !== null)] *)
Definition args_not_null (tc : ToolCall) : bool :=
  match tc_args tc with
  | Null => false
  | _ => true
  end.

Definition extractToolCalls (llmResponse : Response)
  : outcome (option (list ToolCall)) :=
  match choices llmResponse with
  | Some (c :: _) =>
      match choice_message c with
      | Some message =>
          match msg_tool_calls message with
          | Some tool_calls =>
              match map_parse tool_calls with
              | Returned calls => Returned (Some (filter args_not_null calls))
              | Thrown e => Thrown e
              end
          | None => Returned None
          end
      | None => Returned None
      end
  | _ => Returned None
  end.

End Adapter.
End HuggingFaceProvider.

(* ===================================================================== *)
(** * The stateful-session adapter ([google.js])                           *)
(* ===================================================================== *)

Module GoogleProvider.

(** [llmResponse?.response?.candidates?.[0]?.content?.parts], when the
    chain reaches a list of parts. *)
Record FunctionCallPart := mkFunctionCallPart {
  fc_name : string;
  fc_args : option value;
}.

Record Part := mkPart {
  part_text : option string;
  part_functionCall : option FunctionCallPart;
}.

Record Response := mkResponse {
  candidate_parts : option (list Part);
}.

Section Adapter.
Context `{Builtins}.

(** [{ inlineData: { mimeType, data } }] *)
Definition inline_data (mimeType data : value) : value :=
  Obj [("inlineData", Obj [("mimeType", mimeType); ("data", data)])].

Definition text (s : string) : value := Obj [("text", Str s)].

(** [{ role, parts }] *)
Definition turn (r : string) (parts : list value) : value :=
  Obj [("role", Str r); ("parts", Arr parts)].

(** [{ ...fields, k: v }] *)
Fixpoint set_field (k : string) (v : value) (fields : list (string * value))
  : list (string * value) :=
  match fields with
  | [] => [(k, v)]
  | (k', v') :: rest =>
      if String.eqb k k' then (k, v) :: rest else (k', v') :: set_field k v rest
  end.

(** The loop of [convertToolResult] over the content parts: the response
    data built from the first text part that [JSON.parse] accepts. *)
Fixpoint first_parsed (parts : list value) : option value :=
  match parts with
  | [] => None
  | part :: rest =>
      match field_is "type" "text" part, as_string (get "text" part) with
      | true, Some s =>
          match JSON_parse s with
          | Some (Arr xs) => Some (Obj [("result", Arr xs)])
          | Some (Obj fields) => Some (Obj fields)
          | Some parsedJson => Some (Obj [("value", parsedJson)])
          | None => first_parsed rest
          end
      | _, _ => first_parsed rest
      end
  end.

Definition is_object_data_part (p : value) : bool :=
  (field_is "type" "data" p
   && match get "data" p with Some d => is_object d | None => false end)%bool.

Definition is_image_content_part (p : value) : bool :=
  (field_is "type" "image" p && otruthy (get "data" p)
   && otruthy (get "mimeType" p))%bool.

Definition is_text_content_part (p : value) : bool :=
  (field_is "type" "text" p && otruthy (get "text" p))%bool.

Definition image_status : value :=
  Str "Image data provided separately to the model.".

Definition image_captured_summary (parts : list value) : option value :=
  match find is_image_content_part parts with
  | Some imageContentPart =>
      Some (Obj [("image_captured_summary",
                  Obj ([("mime_type",
                         default Null (get "mimeType" imageContentPart));
                        ("status", image_status);
                        ("description",
                         match find is_text_content_part parts with
                         | Some textContentPart =>
                             Str (String.substring 0 100
                                    (match get "text" textContentPart with
                                     | Some t => template t
                                     | None => EmptyString
                                     end) +:+ "...")
                         | None => Str "Image content."
                         end)]))])
  | None => None
  end.

(** The response data for a result that carries a content list. *)
Definition content_response (parts : list value) : option value :=
  match first_parsed parts with
  | Some responseData => Some responseData
  | None =>
      match find is_object_data_part parts with
      | Some dataPart => get "data" dataPart
      | None =>
          match image_captured_summary parts with
          | Some responseData => Some responseData
          | None =>
              match parts with
              | [] => None
              | _ =>
                  Some (Obj [("mcpToolCallResponseContentSummary",
                              Str ("Processed "
                                   +:+ ToString (Num (Z.of_nat (length parts)))
                                   +:+ " parts."))])
              end
          end
      end
  end.

Definition responseData (mcpToolResult : value) : option value :=
  match as_array (get "content" mcpToolResult), mcpToolResult with
  | Some parts, _ => content_response parts
  | None, Arr xs => Some (Obj [("tool_result_array", Arr xs)])
  | None, Obj fields =>
      match get "image" mcpToolResult,
            as_string (get2 "image" "base64Data" mcpToolResult) with
      | Some (Obj image), Some _ =>
          Some (Obj (set_field "image_summary"
                       (Obj (set_field "status" image_status
                               (AnthropicProvider.without_key "base64Data" image)))
                       (AnthropicProvider.without_key "image" fields)))
      | _, _ => Some mcpToolResult
      end
  | None, Str s => Some (Obj [("result", Str s)])
  | None, other => Some (Obj [("result", Str (ToString other))])
  end.

(** The [FunctionResponse] part. *)
Definition convertToolResult (mcpToolResult : value) (toolName : option string)
  : value :=
  Obj [("functionResponse",
        Obj (match toolName with Some n => [("name", Str n)] | None => [] end
             ++ [("response",
                  match responseData mcpToolResult with
                  | Some data =>
                      if is_object data then data
                      else Obj [("error",
                                 Str "Failed to process tool result into valid object.")]
                  | None =>
                      Obj [("error",
                            Str "Failed to process tool result into valid object.")]
                  end)]))].

(** One iteration of the [forEach] over the parts of a user message. *)
Definition convert_user_part (part : value) : list value :=
  match field_is "type" "text" part, as_string (get "text" part) with
  | true, Some s => [text s]
  | _, _ =>
      match field_is "type" "image_url" part, get2 "image_url" "url" part with
      | true, Some (Str url) =>
          if str_truthy url then
            match Wire._parseDataUrl url with
            | Some (mimeType, base64Data) =>
                if str_truthy base64Data
                then [inline_data (Str mimeType) (Str base64Data)]
                else []
            | None => []
            end
          else []
      | _, _ =>
          match (field_is "type" "image" part
                 && match get "source" part with
                    | Some src => field_is "type" "base64" src
                    | None => false
                    end)%bool,
                get2 "source" "media_type" part, get2 "source" "data" part with
          | true, Some m, Some d =>
              if (truthy m && truthy d)%bool then [inline_data m d] else []
          | _, _, _ =>
              match (field_is "type" "image_mcp" part
                     && otruthy (get "source" part))%bool,
                    get2 "source" "media_type" part,
                    get2 "source" "data" part with
              | true, Some m, Some d =>
                  if (truthy m && truthy d)%bool then [inline_data m d] else []
              | _, _, _ => []
              end
          end
      end
  end.

Definition userParts (message : Message) : list value :=
  match content message with
  | Str s => [text s]
  | Arr parts => flat_map convert_user_part parts
  | _ => []
  end.

(** [{ functionCall: { name, args: tc.args || {} } }] *)
Definition function_call (tc : ToolCall) : value :=
  Obj [("functionCall",
        Obj [("name", Str (tc_name tc));
             ("args", if truthy (tc_args tc) then tc_args tc else Obj [])])].

Definition modelParts (message : Message) : list value :=
  match nonblank_text message with
  | Some s => [text s]
  | None => []
  end ++ (function_call <$> calls_of message).

(** One iteration of the loop of [formatConversation]: the turns pushed
    on [chatHistoryForGoogle] for one message. *)
Definition format_message (message : Message) : list value :=
  match role message with
  | user =>
      match userParts message with
      | [] => []
      | parts => [turn "user" parts]
      end
  | assistant =>
      match modelParts message with
      | [] => []
      | parts => [turn "model" parts]
      end
  | tool =>
      if (ostr_truthy (name message) && ostr_truthy (tool_call_id message))%bool
      then [turn "function"
              [convertToolResult (content message) (name message)]]
      else []
  | system => []
  end.

Definition formatConversation (conversationHistory : list Message) : list value :=
  fold_left (fun chatHistoryForGoogle message =>
               chatHistoryForGoogle ++ format_message message)
    conversationHistory [].

(** [initialize]: the model is configured with the system message and the
    tools, and the chat session starts from the formatted history. *)
Definition initialize (this : BaseProvider)
    (initialConversationHistory : list Message) : BaseProvider :=
  mkProvider (kind this) (apiKey this) (modelName this)
    (providerSystemMessage this) (allTools this)
    (imageAnalysisPromptSuffix this)
    (Some (formatConversation initialConversationHistory)).

(** The constructor. *)
Definition new (apiKey modelName systemMessage : string) (allTools : list value)
    (initialConversationHistory : list Message) : BaseProvider :=
  initialize (mkProvider Google apiKey modelName systemMessage allTools None None)
    initialConversationHistory.

(** [id: part.functionCall.name + '_' + Date.now()]; [now] is the clock
    reading as the concatenation prints it. *)
Definition push_call (now : string) (toolCalls : list ToolCall) (part : Part)
  : list ToolCall :=
  match part_functionCall part with
  | Some fc =>
      toolCalls
        ++ [mkToolCall (fc_name fc +:+ "_" +:+ now) (fc_name fc)
              (match fc_args fc with
               | Some args => if truthy args then args else Obj []
               | None => Obj []
               end)]
  | None => toolCalls
  end.

Definition extractToolCalls (now : string) (llmResponse : Response)
  : option (list ToolCall) :=
  match fold_left (push_call now)
          (default [] (candidate_parts llmResponse)) [] with
  | [] => None
  | toolCalls => Some toolCalls
  end.

Definition extractTextContent (llmResponse : Response) : string :=
  fold_left (fun acc part =>
               match part_text part with
               | Some t => acc +:+ t
               | None => acc
               end)
    (default [] (candidate_parts llmResponse)) EmptyString.

(** The class of the prefix pattern: letters, digits, backslash, slash and
    plus. *)
Definition prefix_class (a : ascii) : bool :=
  (Text.alnum a || Text.is_char Text.backslash a || Text.is_char "/" a
   || Text.is_char "+" a)%bool.

(** Both fields are [null] unless both were found truthy. *)
Definition extractImageFromToolResult (mcpToolResult : value)
  : option string * option value :=
  match ToolResultText.found_image (ToolResultText.find_image mcpToolResult) with
  | Some (base64ImageData, mimeType) =>
      (Some (Wire.strip_data_uri prefix_class base64ImageData), Some mimeType)
  | None => (None, None)
  end.

(** [msg.role === 'assistant' && msg.tool_calls &&
    msg.tool_calls.some(tc => tc.name === toolName)] *)
Definition called (toolName : option string) (msg : Message) : bool :=
  (Role_eqb (role msg) assistant
   && match tool_calls msg, toolName with
      | Some calls, Some n => existsb (fun tc => String.eqb (tc_name tc) n) calls
      | _, _ => false
      end)%bool.

(** The backward search from the end of [history] for the last message
    that satisfies [p]: the messages before it. *)
Fixpoint before_last (p : Message -> bool) (history : list Message)
  : option (list Message) :=
  match history with
  | [] => None
  | msg :: rest =>
      match before_last p rest with
      | Some before => Some (msg :: before)
      | None => if p msg then Some [] else None
      end
  end.

(** The backward search for a user message with non-blank string content. *)
Definition user_text (msg : Message) : option string :=
  match role msg with
  | user => nonblank_text msg
  | _ => None
  end.

Definition foundUserMessage (toolName : option string)
    (fullConversationHistory : list Message) : option string :=
  if Nat.leb 2 (length fullConversationHistory) then
    match before_last (called toolName) fullConversationHistory with
    | Some before => last (omap user_text before)
    | None => None
    end
  else None.

Definition textForImagePrompt (toolName : option string)
    (fullConversationHistory : list Message) : string :=
  match foundUserMessage toolName fullConversationHistory with
  | Some request =>
      "The tool '" +:+ show toolName
      +:+ "' returned an image. Based on your request: "
      +:+ Text.dquote +:+ request +:+ Text.dquote
      +:+ ", please use this image to formulate your response."
  | None =>
      "The tool '" +:+ show toolName
      +:+ "' returned the accompanying image. Please analyze it and respond to the ongoing request."
  end.

Definition prepareImageMessageParts (base64ImageData : option string)
    (mimeType : option value) (toolName : option string)
    (fullConversationHistory : list Message) : outcome (list value) :=
  match ToolResultText.found_image (base64ImageData, mimeType) with
  | Some (data, mime) =>
      Returned [inline_data mime (Str data);
                text (textForImagePrompt toolName fullConversationHistory)]
  | None => Thrown "Missing image data or mimeType for prepareImageMessageParts."
  end.

End Adapter.
End GoogleProvider.

(* ===================================================================== *)
(** * The orchestrator ([mcp-client.js])                                   *)
(* ===================================================================== *)

Module MCPClient.

Definition DEFAULT_SYSTEM_MESSAGE : string :=
  "You are a helpful AI assistant that has access to various tools through MCP servers. Use these tools when appropriate to help the user.".

(** [config.maxConversationHistoryLength] as [config.json] may hold it. *)
Inductive ConfigNumber :=
| CfgNumber (n : Z)
| CfgString (s : string).

Record Config := mkConfig {
  cfg_llmProvider : option string;
  cfg_systemMessage : option string;
  cfg_maxConversationHistoryLength : option ConfigNumber;
}.

(** [process.env] *)
Definition Env := string -> option string.

(** The fields of the client the engine reads and writes. [llmProvider]
    is [this.config.llmProvider]; [tools] is what [getAllTools()] gives;
    [events] is the logger and console output so far. *)
Record Client := mkClient {
  llmProvider : option string;
  conversation : list Message;
  systemMessage : string;
  maxConversationHistoryLength : option Z;
  currentLlmProviderInstance : option BaseProvider;
  model : option string;
  openaiModel : option string;
  geminiModel : option string;
  deepseekModel : option string;
  tools : list value;
  events : list Event;
}.

Definition with_conversation (c : list Message) (st : Client) : Client :=
  mkClient (llmProvider st) c (systemMessage st)
    (maxConversationHistoryLength st) (currentLlmProviderInstance st)
    (model st) (openaiModel st) (geminiModel st) (deepseekModel st)
    (tools st) (events st).

Definition with_systemMessage (s : string) (st : Client) : Client :=
  mkClient (llmProvider st) (conversation st) s
    (maxConversationHistoryLength st) (currentLlmProviderInstance st)
    (model st) (openaiModel st) (geminiModel st) (deepseekModel st)
    (tools st) (events st).

Definition emit (e : Event) (st : Client) : Client :=
  mkClient (llmProvider st) (conversation st) (systemMessage st)
    (maxConversationHistoryLength st) (currentLlmProviderInstance st)
    (model st) (openaiModel st) (geminiModel st) (deepseekModel st)
    (tools st) (events st ++ [e]).

(** [a || b] on strings that may be [undefined]. *)
Definition or_else (a b : option string) : option string :=
  if ostr_truthy a then a else b.

(** [parseInt(v, 10)] for a configuration value; [None] is NaN. *)
Definition parseInt_config (v : option ConfigNumber) : option Z :=
  match v with
  | Some (CfgNumber n) => Some n
  | Some (CfgString s) => Text.parseInt10 s
  | None => None
  end.

(** [!isNaN(n) && n > 0] *)
Definition positive (n : option Z) : bool :=
  match n with
  | Some z => 0 <? z
  | None => false
  end.

(** The initialisation of [maxConversationHistoryLength]. *)
Definition initialMaxLength (config : Config) (env : Env) : option Z :=
  let configHistoryLength :=
    parseInt_config (cfg_maxConversationHistoryLength config) in
  let envHistoryLength :=
    env "MAX_CONVERSATION_HISTORY_LENGTH" ≫= Text.parseInt10 in
  if positive configHistoryLength then configHistoryLength
  else if positive envHistoryLength then envHistoryLength
  else None.

(** [_trimConversationHistory] *)
Definition _trimConversationHistory (st : Client) : Client :=
  match maxConversationHistoryLength st with
  | Some maxLength =>
      if (negb (maxLength =? 0)
          && (maxLength <? Z.of_nat (length (conversation st))))%bool
      then
        let numToRemove := Z.of_nat (length (conversation st)) - maxLength in
        emit (LogTrimmed numToRemove maxLength)
          (with_conversation
             (drop (Z.to_nat numToRemove) (conversation st)) st)
      else st
  | None => st
  end.

(** The chain [name === 'anthropic'], [name === 'openai'], [name ===
    'google'], [name === 'deepseek'] that the client repeats. *)
Definition provider_named (providerName : option string) : option ProviderKind :=
  match providerName with
  | Some s =>
      if String.eqb s "anthropic" then Some Anthropic
      else if String.eqb s "openai" then Some OpenAI
      else if String.eqb s "google" then Some Google
      else if String.eqb s "deepseek" then Some DeepSeek
      else None
  | None => None
  end.

Section Engine.
Context `{Builtins}.

(** [new XProvider(key, model, this.systemMessage, this.getAllTools(),
    logger, this.conversation)] *)
Definition construct (k : ProviderKind) (key determinedModelName : string)
    (st : Client) : BaseProvider :=
  match k with
  | Google =>
      GoogleProvider.new key determinedModelName (systemMessage st) (tools st)
        (conversation st)
  | _ =>
      mkProvider k key determinedModelName (systemMessage st) (tools st)
        None None
  end.

(** The state after the clearing assignments at the top of
    [setLLMProvider]. *)
Definition cleared (st : Client) : Client :=
  mkClient (llmProvider st) (conversation st) (systemMessage st)
    (maxConversationHistoryLength st) None None None None None
    (tools st) (events st).

(** The assignments of a successful branch: the instance, the model name
    kept for display, and [config.llmProvider]. *)
Definition installed (k : ProviderKind) (providerName : string)
    (instance : BaseProvider) (st : Client) : Client :=
  let m := Some (modelName instance) in
  mkClient (Some providerName) (conversation st) (systemMessage st)
    (maxConversationHistoryLength st) (Some instance)
    (match k with Anthropic => m | _ => model st end)
    (match k with OpenAI => m | _ => openaiModel st end)
    (match k with Google => m | _ => geminiModel st end)
    (match k with DeepSeek => m | _ => deepseekModel st end)
    (tools st) (events st).

(** [logger.error(errorMsg); if (!initialSetup) console.error(...)] *)
Definition report (errorMsg : string) (initialSetup : bool) (st : Client)
  : Client :=
  let st := emit (LogError errorMsg) st in
  if initialSetup then st else emit (ConsoleError ("Error: " +:+ errorMsg)) st.

(** One of the four provider branches of [setLLMProvider]. *)
Definition activate (k : ProviderKind)
    (providerName label keyVar modelVar defaultModel : string)
    (newModelName : option string) (initialSetup : bool) (env : Env)
    (st : Client) : bool * Client :=
  match env keyVar with
  | Some key =>
      if str_truthy key then
        let determinedModelName :=
          default defaultModel (or_else newModelName (env modelVar)) in
        let st := installed k providerName
                    (construct k key determinedModelName st) st in
        let st :=
          if initialSetup then st
          else emit (ConsoleLog ("Switched to " +:+ label
                                 +:+ " provider with model: "
                                 +:+ determinedModelName)) st in
        (true,
         emit (LogInfo ("Successfully set LLM provider to " +:+ label
                        +:+ " with model " +:+ determinedModelName)) st)
      else
        (false,
         report (keyVar +:+ " environment variable is required for "
                 +:+ label +:+ " provider.") initialSetup st)
  | None =>
      (false,
       report (keyVar +:+ " environment variable is required for "
               +:+ label +:+ " provider.") initialSetup st)
  end.

Definition default_model (k : ProviderKind) : string :=
  match k with
  | Anthropic => "claude-3-5-sonnet-latest"
  | OpenAI => "gpt-4o"
  | Google => "gemini-2.5-flash-preview-04-17"
  | DeepSeek => "deepseek-chat"
  end.

(** [setLLMProvider(newProvider, newModelName, initialSetup)]: the value
    returned and the client afterwards. *)
Definition setLLMProvider (newProvider newModelName : option string)
    (initialSetup : bool) (env : Env) (st : Client) : bool * Client :=
  let newProvider := Text.toLowerCase <$> newProvider in
  let st :=
    emit (LogInfo ("Attempting to set LLM provider to: " +:+ show newProvider
                   +:+ match newModelName with
                       | Some m =>
                           if str_truthy m then " with model: " +:+ m
                           else " (using default model)"
                       | None => " (using default model)"
                       end)) st in
  let st := cleared st in
  match provider_named newProvider with
  | Some Anthropic =>
      activate Anthropic "anthropic" "Anthropic" "ANTHROPIC_API_KEY"
        "ANTHROPIC_MODEL" (default_model Anthropic)
        newModelName initialSetup env st
  | Some OpenAI =>
      activate OpenAI "openai" "OpenAI" "OPENAI_API_KEY"
        "OPENAI_MODEL" (default_model OpenAI)
        newModelName initialSetup env st
  | Some Google =>
      activate Google "google" "Google" "GOOGLE_GEMINI_API_KEY"
        "GOOGLE_GEMINI_MODEL" (default_model Google)
        newModelName initialSetup env st
  | Some DeepSeek =>
      activate DeepSeek "deepseek" "DeepSeek" "DEEPSEEK_API_KEY"
        "DEEPSEEK_MODEL" (default_model DeepSeek)
        newModelName initialSetup env st
  | None =>
      let errorMsg :=
        "Unsupported LLM provider: " +:+ show newProvider
        +:+ ". Supported: 'anthropic', 'openai', 'google', 'deepseek'." in
      let st := emit (LogError errorMsg) st in
      (false,
       if initialSetup then st
       else if ostr_truthy newProvider
            then emit (ConsoleError ("Error: " +:+ errorMsg)) st
            else emit (ConsoleLog "No LLM provider specified in command.") st)
  end.

(** [new MCPClient(config)]: the client, or the exception thrown when the
    configured provider could not be set. *)
Definition constructor (config : Config) (env : Env) : outcome Client :=
  let systemMessage :=
    default DEFAULT_SYSTEM_MESSAGE
      (or_else (cfg_systemMessage config) (env "SYSTEM_MESSAGE")) in
  let maxLength := initialMaxLength config env in
  let st :=
    mkClient (cfg_llmProvider config) [] systemMessage maxLength
      None None None None None []
      [LogInfo ("Using system message: " +:+ Text.dquote
                +:+ String.substring 0 100 systemMessage
                +:+ (if Nat.ltb 100 (String.length systemMessage)
                     then "..." else EmptyString)
                +:+ Text.dquote);
       LogInfo match maxLength with
               | Some n =>
                   if n =? 0
                   then "No limit set for conversation history length."
                   else "Conversation history will be limited to "
                        +:+ ToString (Num n) +:+ " messages."
               | None => "No limit set for conversation history length."
               end] in
  let configuredProviderName := Text.toLowerCase <$> cfg_llmProvider config in
  let modelForProvider :=
    match provider_named configuredProviderName with
    | Some Anthropic =>
        Some (default (default_model Anthropic)
                (or_else (env "ANTHROPIC_MODEL") None))
    | Some OpenAI =>
        Some (default (default_model OpenAI) (or_else (env "OPENAI_MODEL") None))
    | Some Google =>
        Some (default (default_model Google)
                (or_else (env "GOOGLE_GEMINI_MODEL") None))
    | Some DeepSeek =>
        Some (default (default_model DeepSeek)
                (or_else (env "DEEPSEEK_MODEL") None))
    | None => None
    end in
  match setLLMProvider configuredProviderName modelForProvider true env st with
  | (true, st) => Returned st
  | (false, _) =>
      Thrown ("Failed to initialize the configured LLM provider "
              +:+ Text.dquote +:+ show (cfg_llmProvider config) +:+ Text.dquote
              +:+ ". Client cannot start.")
  end.

(** [main()] up to the construction of the client: an exception of the
    constructor is printed and the process exits with status 1. *)
Inductive Startup :=
| Constructed (client : Client)
| Exited (status : Z) (message : string).

Definition main (config : Config) (env : Env) : Startup :=
  match constructor config env with
  | Returned client => Constructed client
  | Thrown message => Exited 1 ("Initialization error: " +:+ message)
  end.

(** The [/setsystem] branch of the line handler, for an [input] that
    starts with the command. *)
Definition setsystem_command (input : string) (env : Env) (st : Client)
  : Client :=
  let newSystemMessage :=
    Text.trim (String.substring 11 (String.length input) input) in
  if str_truthy newSystemMessage then
    let st := with_systemMessage newSystemMessage st in
    let st := emit (LogInfo ("System message updated to: " +:+ Text.dquote
                             +:+ String.substring 0 100 newSystemMessage
                             +:+ (if Nat.ltb 100 (String.length newSystemMessage)
                                  then "..." else EmptyString)
                             +:+ Text.dquote)) st in
    let st := emit (ConsoleLog
                      "System message updated. It will be applied on the next interaction.")
                st in
    match provider_named (llmProvider st) with
    | Some Google =>
        let st := emit (ConsoleLog
                          "Re-initializing Google provider to apply new system message...")
                    st in
        let currentGoogleModel :=
          default (default_model Google)
            (or_else (geminiModel st) (env "GOOGLE_GEMINI_MODEL")) in
        match setLLMProvider (Some "google") (Some currentGoogleModel) true env st with
        | (true, st) =>
            emit (ConsoleLog
                    "Google provider re-initialized with new system message.") st
        | (false, st) =>
            emit (ConsoleError
                    "Failed to re-initialize Google provider with new system message. Please try /setprovider manually.")
              st
        end
    | _ => st
    end
  else
    emit (ConsoleLog "Usage: /setsystem <your new system message>")
      (emit (ConsoleLog (systemMessage st))
         (emit (ConsoleLog "Current system message:") st)).

(** [base64Data.substring(base64Data.indexOf(',') + 1)] when the data
    starts with [data:]. *)
Definition raw_base64 (base64Data : string) : string :=
  if Text.startsWith "data:" base64Data
  then Text.substring_after_indexOf "," base64Data
  else base64Data.

Definition is_image_part (part : value) : bool :=
  (field_is "type" "image" part
   && bool_decide (is_Some (as_string (get "data" part)))
   && bool_decide (is_Some (as_string (get "mimeType" part))))%bool.

(** [_extractImageFromMcpToolResult]: [{ base64Data, mimeType }] or
    [null]. *)
Definition _extractImageFromMcpToolResult (toolResultContent : value)
  : option (string * string) :=
  if negb (truthy toolResultContent && is_object toolResultContent) then None
  else
    let imageObj :=
      match get "image" toolResultContent with
      | Some image => if truthy image then image else toolResultContent
      | None => toolResultContent
      end in
    match as_string (get "base64Data" imageObj),
          as_string (get "mimeType" imageObj) with
    | Some base64Data, Some mimeType => Some (raw_base64 base64Data, mimeType)
    | _, _ =>
        match as_array (get "content" toolResultContent) with
        | Some parts =>
            match find is_image_part parts with
            | Some imagePart =>
                match as_string (get "data" imagePart),
                      as_string (get "mimeType" imagePart) with
                | Some data, Some mimeType => Some (raw_base64 data, mimeType)
                | _, _ => None
                end
            | None => None
            end
        | None => None
        end
    end.

(** ** The tool loop

    The back-end and the tool servers are the environment: [llm] lists
    what the coming calls of [sendMessage] give (a response, or the
    exception of a failed call), [callTool] is the tool invocation with the
    server look-up before it, [now] is the clock. [trace] records, in
    order, every request handed to [sendMessage] and every message pushed
    on [this.conversation]. *)

Inductive LlmResponse :=
| FromAnthropic (r : AnthropicProvider.Response)
| FromChat (r : ChatCompletion.Response)
| FromGoogle (r : GoogleProvider.Response).

Inductive Step :=
| Sent (request : list value)
| Appended (message : Message).

Record World := mkWorld {
  client : Client;
  env : Env;
  llm : list (outcome LlmResponse);
  callTool : string -> value -> outcome value;
  now : string;
  trace : list Step;
}.

Definition with_client (st : Client) (w : World) : World :=
  mkWorld st (env w) (llm w) (callTool w) (now w) (trace w).

Definition record (s : Step) (w : World) : World :=
  mkWorld (client w) (env w) (llm w) (callTool w) (now w) (trace w ++ [s]).

(** [this.conversation.push(message)] *)
Definition push (message : Message) (w : World) : World :=
  record (Appended message)
    (with_client
       (with_conversation (conversation (client w) ++ [message]) (client w)) w).

Definition note (e : Event) (w : World) : World :=
  with_client (emit e (client w)) w.

(** How a call ends: normally, with an exception (the state is the one at
    the [throw]), or with the fuel of the model used up. *)
Inductive result :=
| Done (w : World)
| Raised (error : string) (w : World)
| OutOfFuel.

(** Method dispatch on the active instance. A method the class does not
    have is a [TypeError]. *)
Definition formatConversation_of (p : BaseProvider)
    (conversationHistory : list Message) : list value :=
  match kind p with
  | Anthropic => AnthropicProvider.formatConversation conversationHistory
  | OpenAI => OpenAIProvider.formatConversation p conversationHistory
  | DeepSeek => DeepSeekProvider.formatConversation p conversationHistory
  | Google => GoogleProvider.formatConversation conversationHistory
  end.

Definition convertToolResult_of (p : BaseProvider) (mcpToolResult : value)
    (toolName : option string) : value :=
  match kind p with
  | Anthropic => AnthropicProvider.convertToolResult mcpToolResult toolName
  | OpenAI =>
      Str (OpenAIProvider._convertToolResultForOpenAI mcpToolResult toolName)
  | DeepSeek =>
      Str (DeepSeekProvider._convertToolResultForDeepSeek mcpToolResult toolName)
  | Google => GoogleProvider.convertToolResult mcpToolResult toolName
  end.

Definition extractImageFromToolResult_of (p : BaseProvider)
    (toolCallResult : value) : outcome (option string * option value) :=
  match kind p with
  | Anthropic => Thrown "TypeError: extractImageFromToolResult is not a function"
  | OpenAI => Returned (OpenAIProvider.extractImageFromToolResult toolCallResult)
  | DeepSeek => Returned (DeepSeekProvider.extractImageFromToolResult toolCallResult)
  | Google => Returned (GoogleProvider.extractImageFromToolResult toolCallResult)
  end.

Definition prepareImageMessageContent_of (p : BaseProvider)
    (base64ImageData : string) (mimeType : value) (textPrompt : string)
  : outcome (list value) :=
  match kind p with
  | OpenAI =>
      Returned (OpenAIProvider.prepareImageMessageContent
                  base64ImageData mimeType textPrompt)
  | DeepSeek =>
      Returned [Wire.text_part
                  (textPrompt
                   +:+ " [Image content was intended here but not sent to DeepSeek provider]")]
  | _ => Thrown "TypeError: prepareImageMessageContent is not a function"
  end.

Definition prepareImageMessageParts_of (p : BaseProvider)
    (base64ImageData : option string) (mimeType : option value)
    (toolName : option string) (fullConversationHistory : list Message)
  : outcome (list value) :=
  match kind p with
  | Google =>
      GoogleProvider.prepareImageMessageParts base64ImageData mimeType toolName
        fullConversationHistory
  | _ => Thrown "TypeError: prepareImageMessageParts is not a function"
  end.

(** [extractTextContent(response)] and [extractToolCalls(response)] of the
    instance. A response of another back-end has none of the fields the
    extractor looks for; [None] is the [undefined] that reaches
    [handleLLMResponse] when no provider branch made a request. *)
Definition extract_of (p : BaseProvider) (clock : string)
    (response : option LlmResponse)
  : outcome (string * option (list ToolCall)) :=
  match kind p, response with
  | Anthropic, Some (FromAnthropic r) =>
      Returned (AnthropicProvider.extractTextContent (Some r),
                AnthropicProvider.extractToolCalls (Some r))
  | OpenAI, Some (FromChat r) =>
      Returned (OpenAIProvider.extractTextContent r,
                OpenAIProvider.extractToolCalls r)
  | DeepSeek, Some (FromChat r) =>
      Returned (DeepSeekProvider.extractTextContent r,
                DeepSeekProvider.extractToolCalls r)
  | Google, Some (FromGoogle r) =>
      Returned (GoogleProvider.extractTextContent r,
                GoogleProvider.extractToolCalls clock r)
  | (OpenAI | DeepSeek), None =>
      Thrown "TypeError: Cannot read properties of undefined"
  | _, _ => Returned (EmptyString, None)
  end.

(** [sendMessage]: the request is recorded and the next answer of the
    back-end is consumed. The Google adapter throws before sending when it
    has no chat session; the DeepSeek adapter throws on an answer without
    a first message. *)
Definition sendMessage (p : BaseProvider) (request : list value) (w : World)
  : outcome LlmResponse * World :=
  match kind p, chatSession p with
  | Google, None => (Thrown "GoogleProvider chat session not initialized.", w)
  | _, _ =>
      let w := record (Sent request) w in
      match llm w with
      | [] => (Thrown "request failed", w)
      | answer :: rest =>
          let w := mkWorld (client w) (env w) rest (callTool w) (now w) (trace w) in
          match kind p, answer with
          | DeepSeek, Returned (FromChat r) =>
              match first_message r with
              | Some _ => (answer, w)
              | None =>
                  (Thrown "DeepSeek API returned an invalid, empty, or malformed response.",
                   w)
              end
          | DeepSeek, Returned _ =>
              (Thrown "DeepSeek API returned an invalid, empty, or malformed response.",
               w)
          | _, _ => (answer, w)
          end
      end
  end.

(** The synthetic user message pushed after the continuation when the
    tool result held an image. *)
Definition syntheticUserMessage (mimeType base64Data toolName : string)
  : Message :=
  userMessage
    (Arr [Wire.image_mcp_part mimeType base64Data;
          Wire.text_part ("[Image from tool '" +:+ toolName
                          +:+ "'. This is the image content. You can now analyze this image.]")]).

Definition augment (toolCall : ToolCall) (toolResultForAugmentation : value)
    (w : World) : World :=
  if truthy toolResultForAugmentation then
    match _extractImageFromMcpToolResult toolResultForAugmentation with
    | Some (base64Data, mimeType) =>
        if (str_truthy base64Data && str_truthy mimeType)%bool
        then push (syntheticUserMessage mimeType base64Data (tc_name toolCall)) w
        else w
    | None => w
    end
  else w.

(** One iteration of the loop over [toolCalls] in [handleLLMResponse];
    [continue] is [continueConversation]. *)
Definition run_tool (continue : World -> result) (toolCall : ToolCall)
    (w : World) : result :=
  match callTool w (tc_name toolCall) (tc_args toolCall) with
  | Returned toolResult =>
      match continue (push (toolMessage (tc_id toolCall) (tc_name toolCall)
                                toolResult) w) with
      | Done w => Done (augment toolCall toolResult w)
      | other => other
      end
  | Thrown error =>
      let w := note (LogError ("Error executing tool " +:+ tc_name toolCall
                               +:+ ": " +:+ error)) w in
      continue
        (push (toolMessage (tc_id toolCall) (tc_name toolCall)
                 (Str (JSON_stringify (Obj [("error", Str error)])))) w)
  end.

Fixpoint run_tools (continue : World -> result) (toolCalls : list ToolCall)
    (w : World) : result :=
  match toolCalls with
  | [] => Done w
  | toolCall :: rest =>
      match run_tool continue toolCall w with
      | Done w => run_tools continue rest w
      | other => other
      end
  end.

(** The four provider branches of [handleLLMResponse], with the message
    of the error thrown when the instance is missing. *)
Definition known_provider (p : option string) : option string :=
  match provider_named p with
  | Some Anthropic =>
      Some "Anthropic provider instance not found in handleLLMResponse."
  | Some OpenAI =>
      Some "OpenAI provider instance not found in handleLLMResponse."
  | Some Google =>
      Some "Google provider instance not found in handleLLMResponse. This indicates a critical setup error."
  | Some DeepSeek =>
      Some "DeepSeek provider instance not found in handleLLMResponse."
  | None => None
  end.

(** The body of [handleLLMResponse]. *)
Definition handle_with (continue : World -> result)
    (response : option LlmResponse) (w : World) : result :=
  let extracted :=
    match known_provider (llmProvider (client w)),
          currentLlmProviderInstance (client w) with
    | Some error, None => Thrown error
    | Some _, Some p => extract_of p (now w) response
    | None, _ => Returned (EmptyString, None)
    end in
  match extracted with
  | Thrown error => Raised error w
  | Returned (textContent, toolCalls) =>
      let w := push (assistantMessage textContent toolCalls) w in
      let w := if str_truthy textContent then note (ConsoleLog textContent) w
               else w in
      run_tools continue (default [] toolCalls) w
  end.

(** [if (!this.currentLlmProviderInstance) { ... setLLMProvider(name,
    model, true) ... }] at the top of a provider branch. *)
Definition ensure_instance (providerName error : string)
    (displayModel : option string) (modelVar defaultModel : string) (w : World)
  : outcome BaseProvider * World :=
  match currentLlmProviderInstance (client w) with
  | Some p => (Returned p, w)
  | None =>
      let current := default defaultModel (or_else displayModel (env w modelVar)) in
      match setLLMProvider (Some providerName) (Some current) true (env w)
              (client w) with
      | (true, st) =>
          match currentLlmProviderInstance st with
          | Some p => (Returned p, with_client st w)
          | None => (Thrown "TypeError: Cannot read properties of null",
                     with_client st w)
          end
      | (false, st) => (Thrown error, with_client st w)
      end
  end.

(** The request of a stateless provider branch: trim, format, send. *)
Definition request (p : BaseProvider) (w : World) : outcome LlmResponse * World :=
  let w := with_client (_trimConversationHistory (client w)) w in
  sendMessage p (formatConversation_of p (conversation (client w))) w.

(** [response.choices[0].message.tool_calls ? 3 : 2] *)
Definition tool_message_offset (response : LlmResponse) : Z :=
  match response with
  | FromChat r =>
      match first_message r with
      | Some message =>
          match msg_tool_calls message with
          | Some _ => 3
          | None => 2
          end
      | None => 2
      end
  | _ => 2
  end.

(** [this.conversation[i]] for a signed index. *)
Definition at_index (history : list Message) (i : Z) : option Message :=
  if i <? 0 then None else history !! Z.to_nat i.

Definition originalUserQuery (history : list Message) (userMessageIndex : Z)
  : string :=
  match at_index history userMessageIndex with
  | Some m =>
      match role m, content m with
      | user, Str rawContent => rawContent
      | user, Arr (first :: _) =>
          default "Describe the image." (as_string (get "text" first))
      | _, _ => "Describe the image."
      end
  | None => "Describe the image."
  end.

Definition imagePrompt (toolName : option string) (query : string) : string :=
  "The tool '" +:+ default "the tool" (or_else toolName None)
  +:+ "' returned an image. Based on your previous request: "
  +:+ Text.dquote +:+ String.substring 0 200 query
  +:+ (if Nat.ltb 200 (String.length query) then "..." else EmptyString)
  +:+ Text.dquote +:+ ", please analyze this image.".

(** The block after [handleLLMResponse(response)] for the OpenAI
    provider. *)
Definition openai_image_step (handle : option LlmResponse -> World -> result)
    (response : LlmResponse) (w : World) : result :=
  let history := conversation (client w) in
  let lastToolMessageIndex :=
    Z.of_nat (length history) - tool_message_offset response in
  match at_index history lastToolMessageIndex with
  | Some lastToolMessage =>
      match role lastToolMessage, currentLlmProviderInstance (client w) with
      | tool, Some p =>
          match extractImageFromToolResult_of p (content lastToolMessage) with
          | Returned found =>
              match ToolResultText.found_image found with
              | Some (base64ImageData, mimeType) =>
                  let prompt :=
                    imagePrompt (name lastToolMessage)
                      (originalUserQuery history (lastToolMessageIndex - 2)) in
                  match prepareImageMessageContent_of p base64ImageData
                          mimeType prompt with
                  | Returned imageContentParts =>
                      let w := push (userMessage (Arr imageContentParts)) w in
                      match currentLlmProviderInstance (client w) with
                      | Some p =>
                          match request p w with
                          | (Returned response_step2, w) =>
                              handle (Some response_step2) w
                          | (Thrown error, w) => Raised error w
                          end
                      | None =>
                          Raised "TypeError: Cannot read properties of null" w
                      end
                  | Thrown error => Raised error w
                  end
              | None => Done w
              end
          | Thrown error => Raised error w
          end
      | tool, None => Raised "TypeError: Cannot read properties of null" w
      | _, _ => Done w
      end
  | None => Done w
  end.

(** The Google branch: the function response, the handling of the answer
    to it, and then the image in a message of its own. *)
Definition google_steps (handle : option LlmResponse -> World -> result)
    (googleProvider : BaseProvider) (w : World) : result :=
  match last (conversation (client w)) with
  | Some lastMessage =>
      match role lastMessage with
      | tool =>
          let toolCallResult := content lastMessage in
          let toolName := name lastMessage in
          let functionResponsePart :=
            convertToolResult_of googleProvider toolCallResult toolName in
          match sendMessage googleProvider [functionResponsePart] w with
          | (Returned llmResponseStep1, w) =>
              match handle (Some llmResponseStep1) w with
              | Done w =>
                  match extractImageFromToolResult_of googleProvider
                          toolCallResult with
                  | Returned imageDetails =>
                      match ToolResultText.found_image imageDetails with
                      | Some _ =>
                          match prepareImageMessageParts_of googleProvider
                                  (fst imageDetails) (snd imageDetails) toolName
                                  (conversation (client w)) with
                          | Returned imageMessageParts =>
                              match sendMessage googleProvider
                                      imageMessageParts w with
                              | (Returned llmResponseStep2, w) =>
                                  handle (Some llmResponseStep2) w
                              | (Thrown error, w) => Raised error w
                              end
                          | Thrown error => Raised error w
                          end
                      | None => Done w
                      end
                  | Thrown error => Raised error w
                  end
              | other => other
              end
          | (Thrown error, w) => Raised error w
          end
      | _ =>
          Raised "Programming error: Expected last message to be a tool response for Google continuation."
            w
      end
  | None =>
      Raised "Programming error: Expected last message to be a tool response for Google continuation."
        w
  end.

(** A stateless provider branch followed by [handleLLMResponse]. *)
Definition stateless_steps (handle : option LlmResponse -> World -> result)
    (providerName error : string) (displayModel : option string)
    (modelVar defaultModel : string) (w : World)
  : result * option LlmResponse :=
  match ensure_instance providerName error displayModel modelVar defaultModel w with
  | (Returned p, w) =>
      match request p w with
      | (Returned response, w) => (handle (Some response) w, Some response)
      | (Thrown error, w) => (Raised error w, None)
      end
  | (Thrown error, w) => (Raised error w, None)
  end.

(** The [try] block of [continueConversation]. *)
Definition continue_body (handle : option LlmResponse -> World -> result)
    (w : World) : result :=
  let st := client w in
  match provider_named (llmProvider st) with
  | Some Anthropic =>
      fst (stateless_steps handle "anthropic"
             "Anthropic provider instance failed to re-initialize. Please use /setprovider anthropic [model_name]."
             (model st)
             "ANTHROPIC_MODEL" (default_model Anthropic) w)
  | Some OpenAI =>
      match stateless_steps handle "openai"
              "OpenAI provider instance failed to re-initialize. Please use /setprovider openai [model_name]."
              (openaiModel st)
              "OPENAI_MODEL" (default_model OpenAI) w with
      | (Done w, Some response) => openai_image_step handle response w
      | (other, _) => other
      end
  | Some DeepSeek =>
      fst (stateless_steps handle "deepseek"
             "DeepSeek provider instance failed to re-initialize. Please use /setprovider deepseek [model_name]."
             (deepseekModel st)
             "DEEPSEEK_MODEL" (default_model DeepSeek) w)
  | Some Google =>
      match ensure_instance "google"
              "Google provider instance failed to initialize. Please use /setprovider google [model_name] again."
              (geminiModel st)
              "GOOGLE_GEMINI_MODEL" (default_model Google) w with
      | (Returned googleProvider, w) => google_steps handle googleProvider w
      | (Thrown error, w) => Raised error w
      end
  | None => handle None w
  end.

(** [continueConversation]: the [catch] turns an exception into an
    assistant message. *)
Definition continue_with (handle : option LlmResponse -> World -> result)
    (w : World) : result :=
  match continue_body handle w with
  | Raised error w =>
      Done (push (assistantMessage
                    ("An API error occurred while continuing the conversation: "
                     +:+ error) None)
              (note (LogError ("Error continuing conversation: " +:+ error)) w))
  | other => other
  end.

(** [handleLLMResponse] and [continueConversation] call each other; [fuel]
    bounds the depth of the nesting. *)
Fixpoint handleLLMResponse (fuel : nat) (response : option LlmResponse)
    (w : World) : result :=
  match fuel with
  | O => OutOfFuel
  | S fuel => handle_with (continue_with (handleLLMResponse fuel)) response w
  end.

Definition continueConversation (fuel : nat) (w : World) : result :=
  continue_with (handleLLMResponse fuel) w.

(** ** The prompt, the servers and the command line *)

(** [_getDynamicPrompt]: the provider name, the last path segment of the
    model name kept for display, and [> ]. *)
Definition _getDynamicPrompt (st : Client) : string :=
  let providerName := default "none" (or_else (llmProvider st) None) in
  let modelName :=
    match provider_named (llmProvider st) with
    | Some Anthropic => or_else (model st) None
    | Some OpenAI => or_else (openaiModel st) None
    | Some Google => or_else (geminiModel st) None
    | Some DeepSeek => or_else (deepseekModel st) None
    | None => None
    end in
  providerName
  +:+ match modelName with
      | Some m => " (" +:+ default EmptyString (last (Text.split "/" m)) +:+ ")"
      | None => EmptyString
      end
  +:+ "> ".

(** One entry of [config.mcpServers], as [config.json] declares it: every
    field is optional; [details_env] lists the entries of [env] in the order
    [Object.entries] gives them. *)
Record ServerDetails := mkServerDetails {
  details_name : option string;
  transport_type : option string;
  transport_headers : option value;
  baseUrl : option string;
  command : option string;
  args : option (list string);
  details_env : option (list (string * value));
}.

(** [{ name: serverName, ...serverDetails }].name *)
Definition server_name (serverName : string) (serverDetails : ServerDetails)
  : string :=
  default serverName (details_name serverDetails).

(** A value of the environment handed to a child process. *)
Inductive EnvValue :=
| FromConfig (v : value)
| FromParent (s : string)
| InheritedProperty (name : string)
| undefined.

(** [process.env[name]]: the variable when it is set; otherwise the lookup
    goes on to [Object.prototype]. *)
Definition process_env (env : Env) (name : string) : option EnvValue :=
  match env name with
  | Some s => Some (FromParent s)
  | None =>
      if Logger.inherited name then Some (InheritedProperty name) else None
  end.

Definition env_truthy (v : option EnvValue) : bool :=
  match v with
  | Some (FromConfig c) => truthy c
  | Some (FromParent s) => str_truthy s
  | Some (InheritedProperty _) => true
  | Some undefined | None => false
  end.

(** [typeof value === 'string' && value.startsWith('${') &&
    value.endsWith('}')], with [value.slice(2, -1)]. *)
Definition reference (v : value) : option string :=
  match v with
  | Str s =>
      if (Text.startsWith "${" s && Text.endsWith "}" s)%bool
      then Some (Text.slice_2_minus_1 s) else None
  | _ => None
  end.

(** [processedEnv[key] = v]: an assignment to [__proto__] creates no own
    property. *)
Definition assign (key : string) (v : EnvValue)
    (processedEnv : gmap string EnvValue) : gmap string EnvValue :=
  if String.eqb key "__proto__" then processedEnv else <[key := v]> processedEnv.

(** The loop over [Object.entries(serverConfig.env || {})]. *)
Fixpoint process_entries (env : Env) (serverName : string)
    (entries : list (string * value)) (processedEnv : gmap string EnvValue)
  : outcome (gmap string EnvValue) :=
  match entries with
  | [] => Returned processedEnv
  | (key, v) :: rest =>
      match reference v with
      | Some envVar =>
          match process_env env envVar with
          | Some found =>
              if env_truthy (Some found)
              then process_entries env serverName rest
                     (assign key found processedEnv)
              else if String.eqb envVar "LOG_LEVEL"
              then process_entries env serverName rest processedEnv
              else Thrown ("Environment variable " +:+ envVar
                           +:+ " (referenced in config for server "
                           +:+ serverName
                           +:+ ") is not set in the main environment.")
          | None =>
              if String.eqb envVar "LOG_LEVEL"
              then process_entries env serverName rest processedEnv
              else Thrown ("Environment variable " +:+ envVar
                           +:+ " (referenced in config for server "
                           +:+ serverName
                           +:+ ") is not set in the main environment.")
          end
      | None =>
          process_entries env serverName rest
            (assign key (FromConfig v) processedEnv)
      end
  end.

(** [{ ...process.env, ...processedEnv, LOG_LEVEL: logger.level }], read
    at one name. *)
Definition finalChildEnv (env : Env) (processedEnv : gmap string EnvValue)
    (logger : Logger.Logger) (name : string) : option EnvValue :=
  if String.eqb name "LOG_LEVEL" then
    Some match Logger.level logger with
         | Some l => FromConfig (Str l)
         | None => undefined
         end
  else
    match processedEnv !! name with
    | Some v => Some v
    | None => FromParent <$> env name
    end.

Inductive Transport :=
| StreamableHTTPClientTransport (baseUrl : string) (headers : option value)
| StdioClientTransport (command : string) (args : list string)
    (env : string -> option EnvValue).

(** [createClient(serverConfig)]: the transport, or the exception thrown.
    [URL_error] is [new URL(baseUrl)]: the message of the [TypeError] for a
    string that is no URL. *)
Definition createClient (URL_error : string -> option string) (env : Env)
    (logger : Logger.Logger) (serverName : string)
    (serverDetails : ServerDetails) : outcome Transport :=
  let name := server_name serverName serverDetails in
  let transportType := Text.toLowerCase <$> transport_type serverDetails in
  if bool_decide (transportType = Some "streamable-http") then
    match or_else (baseUrl serverDetails) None with
    | Some url =>
        match URL_error url with
        | None =>
            Returned (StreamableHTTPClientTransport url
                        (transport_headers serverDetails))
        | Some message =>
            Thrown ("Invalid baseUrl '" +:+ url +:+ "' for server '" +:+ name
                    +:+ "': " +:+ message)
        end
    | None =>
        Thrown ("Configuration for server '" +:+ name
                +:+ "' is type 'streamable-http' but is missing 'baseUrl'.")
    end
  else if (negb (ostr_truthy transportType)
           || bool_decide (transportType = Some "stdio"))%bool then
    match or_else (command serverDetails) None with
    | Some cmd =>
        match process_entries env name (default [] (details_env serverDetails))
                ∅ with
        | Returned processedEnv =>
            Returned (StdioClientTransport cmd (default [] (args serverDetails))
                        (finalChildEnv env processedEnv logger))
        | Thrown error => Thrown error
        end
    | None =>
        Thrown ("Configuration for server '" +:+ name
                +:+ "' is type 'stdio' (or default) but is missing 'command'.")
    end
  else
    Thrown ("Unsupported transport type '" +:+ show (transport_type serverDetails)
            +:+ "' for server " +:+ name
            +:+ ". Supported types: 'stdio', 'streamable-http'.").

(** [this.mcpClients.set(name, client)]: a map that keeps insertion order;
    setting a name that is present replaces the transport in place. *)
Fixpoint set_server (name : string) (transport : Transport)
    (mcpClients : list (string * Transport)) : list (string * Transport) :=
  match mcpClients with
  | [] => [(name, transport)]
  | (n, t) :: rest =>
      if String.eqb n name then (name, transport) :: rest
      else (n, t) :: set_server name transport rest
  end.

(** The loop of [start] over [Object.entries(this.config.mcpServers)].
    [connect] is [client.connect(transport)]: [None], or the message of the
    connection error. An exception of [createClient] leaves the loop; a
    connection error is reported and the loop goes on. [out] collects the
    error reports (the information lines of the logger are left out). *)
Fixpoint connect_servers (URL_error : string -> option string)
    (connect : string -> Transport -> option string) (env : Env)
    (logger : Logger.Logger) (mcpServers : list (string * ServerDetails))
    (mcpClients : list (string * Transport)) (out : list Event)
  : outcome (list (string * Transport)) * list Event :=
  match mcpServers with
  | [] => (Returned mcpClients, out)
  | (serverName, serverDetails) :: rest =>
      let name := server_name serverName serverDetails in
      match createClient URL_error env logger serverName serverDetails with
      | Returned transport =>
          match connect name transport with
          | None =>
              connect_servers URL_error connect env logger rest
                (set_server name transport mcpClients) out
          | Some message =>
              connect_servers URL_error connect env logger rest mcpClients
                (out ++ [LogError ("Failed to connect to server " +:+ name
                                   +:+ ": " +:+ message);
                         ConsoleError ("ERROR: Failed to connect to server "
                                       +:+ name +:+ ": " +:+ message)])
          end
      | Thrown error => (Thrown error, out)
      end
  end.

(** [start()] up to the loading of the tools: the servers connected, or
    [false] with the error printed. *)
Definition start_servers (URL_error : string -> option string)
    (connect : string -> Transport -> option string) (env : Env)
    (logger : Logger.Logger) (mcpServers : list (string * ServerDetails))
  : option (list (string * Transport)) * list Event :=
  let failed (error : string) (out : list Event) :=
    (None,
     out ++ [LogError ("Failed to start client: " +:+ error);
             ConsoleError (Text.newline +:+ "ERROR: " +:+ error)]) in
  match connect_servers URL_error connect env logger mcpServers [] [] with
  | (Returned [], out) =>
      failed "No MCP servers could be connected. Check the configuration and try again."
        out
  | (Returned mcpClients, out) => (Some mcpClients, out)
  | (Thrown error, out) => failed error out
  end.

(** [this.conversation.findLast(m => m.role === 'user')] *)
Definition latestUserQuery (history : list Message) : option Message :=
  last (filter (fun m => Role_eqb (role m) user) history).

(** The [try] block of [processQuery]. *)
Definition query_body (handle : option LlmResponse -> World -> result)
    (w : World) : result :=
  let st := client w in
  match provider_named (llmProvider st) with
  | Some Anthropic =>
      fst (stateless_steps handle "anthropic"
             "Anthropic provider instance failed to re-initialize. Please use /setprovider anthropic [model_name]."
             (model st)
             "ANTHROPIC_MODEL" (default_model Anthropic) w)
  | Some OpenAI =>
      fst (stateless_steps handle "openai"
             "OpenAI provider instance failed to re-initialize. Please use /setprovider openai [model_name]."
             (openaiModel st)
             "OPENAI_MODEL" (default_model OpenAI) w)
  | Some DeepSeek =>
      fst (stateless_steps handle "deepseek"
             "DeepSeek provider instance failed to re-initialize. Please use /setprovider deepseek [model_name]."
             (deepseekModel st)
             "DEEPSEEK_MODEL" (default_model DeepSeek) w)
  | Some Google =>
      match ensure_instance "google"
              "Google provider instance is not initialized and auto-reinitialization failed. Please use /setprovider google [model_name] again."
              (geminiModel st)
              "GOOGLE_GEMINI_MODEL" (default_model Google) w with
      | (Returned googleProvider, w) =>
          let partsToSend :=
            match latestUserQuery (conversation (client w)) with
            | Some m =>
                match content m with
                | Str s => Some [GoogleProvider.text s]
                | Arr parts => Some parts
                | _ => None
                end
            | None => None
            end in
          match partsToSend with
          | Some parts =>
              match sendMessage googleProvider parts w with
              | (Returned response, w) => handle (Some response) w
              | (Thrown error, w) => Raised error w
              end
          | None =>
              Raised "Could not find the latest user query in conversation history or content is not string/array for Google/DeepSeek."
                w
          end
      | (Thrown error, w) => Raised error w
      end
  | None => handle None w
  end.

(** [processQuery(query)]: the query is pushed on the history, the
    provider answers, and the [catch] turns an exception into an assistant
    message. *)
Definition processQuery (fuel : nat) (query : string) (w : World) : result :=
  let w := push (userMessage (Str query)) w in
  let w :=
    note (LogInfo ("Sending query to LLM provider: "
                   +:+ show (llmProvider (client w)) +:+ " with "
                   +:+ ToString (Num (Z.of_nat (length (tools (client w)))))
                   +:+ " tools")) w in
  match query_body (handleLLMResponse fuel) w with
  | Raised error w =>
      Done (push (assistantMessage ("An API error occurred: " +:+ error) None)
              (note (ConsoleError ("API Error: " +:+ error))
                 (note (LogError ("LLM API error: " +:+ error)) w)))
  | other => other
  end.

(** How the handler of a line ends: the prompt is shown again, the process
    exits, or the fuel of the model ran out. *)
Inductive AfterLine :=
| Prompted (w : World)
| ProcessExit (status : Z) (w : World)
| NoFuel.

Definition help : list Event :=
  [ConsoleLog (Text.newline +:+ "Available commands:");
   ConsoleLog "  /exit, /quit         - Exit the client.";
   ConsoleLog "  /clear               - Clear the conversation history.";
   ConsoleLog "  /setsystem <message> - Set a new system message for the LLM.";
   ConsoleLog "  /setprovider <name> [model] - Switch LLM provider (e.g., /setprovider google gemini-2.5-flash-preview-04-17).";
   ConsoleLog "                         Supported providers: anthropic, openai, google, deepseek.";
   ConsoleLog "  /help                - Show this help message."].

(** The handler of [rl.on('line', ...)] in [startCLI]. On [/exit] and
    [/quit] the client is stopped (the interface and the transports are
    closed) before the process exits. *)
Definition on_line (fuel : nat) (line : string) (w : World) : AfterLine :=
  let input := Text.trim line in
  if negb (str_truthy input) then Prompted w
  else if String.eqb (Text.toLowerCase input) "/help"
  then Prompted (fold_left (fun w e => note e w) help w)
  else if (String.eqb input "/exit" || String.eqb input "/quit")%bool
  then ProcessExit 0 (note (ConsoleLog "Exiting...") w)
  else if String.eqb input "/clear"
  then Prompted
         (with_client
            (with_conversation []
               (emit (ConsoleLog "Clearing conversation history...") (client w)))
            w)
  else if Text.startsWith "/setsystem " input
  then Prompted (with_client (setsystem_command input (env w) (client w)) w)
  else if Text.startsWith "/setprovider" input
  then
    let parts := tail (Text.split " " input) in
    let provider := Text.toLowerCase <$> head parts in
    let modelName := parts !! 1%nat in
    if ostr_truthy provider
    then Prompted
           (with_client
              (snd (setLLMProvider provider modelName false (env w) (client w)))
              w)
    else Prompted
           (note (ConsoleError "Supported providers: anthropic, openai, google, deepseek")
              (note (ConsoleError "Usage: /setprovider <provider_name> [model_name]")
                 w))
  else
    match processQuery fuel input
            (note (ConsoleLog "Processing your request...") w) with
    | Done w => Prompted w
    | Raised error w =>
        Prompted (note (ConsoleError ("Error: " +:+ error))
                    (note (LogError ("Error processing query: " +:+ error)) w))
    | OutOfFuel => NoFuel
    end.

End Engine.
End MCPClient.

(* ===================================================================== *)
(** * The tool registry of the client ([mcp-client.js])                    *)
(* ===================================================================== *)

Module Registry.

(** [this.tools]: a [Map] from server names to the tools of each server,
    read in insertion order. *)
Definition Tools := list (string * list value).

(** [map.set(key, v)]: a key that is present keeps its place. *)
Fixpoint Map_set (key : string) (v : list value) (map : Tools) : Tools :=
  match map with
  | [] => [(key, v)]
  | (k, v') :: rest =>
      if String.eqb key k then (key, v) :: rest
      else (k, v') :: Map_set key v rest
  end.

(** [{ ...tool, serverName }] on a tool object. *)
Definition with_server (serverName : string) (tool : list (string * value))
  : value :=
  Obj (GoogleProvider.set_field "serverName" (Str serverName) tool).

(** One iteration of the loop of [loadTools]. [listTools] is the answer of
    each server: a result whose [tools] is a list of tool objects or is
    missing, or an exception. *)
Definition load_server
    (listTools : string -> outcome (option (list (list (string * value)))))
    (tools : Tools) (serverName : string) : Tools :=
  match listTools serverName with
  | Returned (Some toolsList) =>
      Map_set serverName (with_server serverName <$> toolsList) tools
  | Returned None => Map_set serverName [] tools
  | Thrown _ => Map_set serverName [] tools
  end.

(** The loop of [loadTools] over [this.mcpClients], the connected servers
    in the order of their connection. *)
Definition loadTools
    (listTools : string -> outcome (option (list (list (string * value)))))
    (mcpClients : list string) (tools : Tools) : Tools :=
  fold_left (load_server listTools) mcpClients tools.

(** [getAllTools] *)
Definition getAllTools (tools : Tools) : list value :=
  flat_map snd tools.

(** The search of [handleLLMResponse] for the server of a tool call: the
    first entry with a tool of that name; [None] is the error
    [No server found for tool], thrown also when the name found is the
    empty string. *)
Definition server_for (tools : Tools) (toolName : string) : option string :=
  match find (fun entry => existsb (field_is "name" toolName) (snd entry)) tools with
  | Some (name, _) => if str_truthy name then Some name else None
  | None => None
  end.

End Registry.

(* ===================================================================== *)
(** * Sample data                                                          *)
(* ===================================================================== *)

(** A concrete choice of the built-ins, for statements about particular
    inputs: [JSON_parse] accepts the two documents the examples use. *)
Module Sample.

Definition builtins : Builtins :=
  {| JSON_parse := fun s =>
       if String.eqb s "{}" then Some (Obj [])
       else if String.eqb s "[]" then Some (Arr [])
       else None;
     JSON_stringify := fun _ => "<json>";
     ToString := fun _ => "<string>";
     Array_prototype := fun name =>
       existsb (String.eqb name)
         ["constructor"; "at"; "concat"; "copyWithin"; "fill"; "find";
          "findIndex"; "findLast"; "findLastIndex"; "lastIndexOf"; "pop";
          "push"; "reverse"; "shift"; "unshift"; "slice"; "sort"; "splice";
          "includes"; "indexOf"; "join"; "keys"; "entries"; "values";
          "forEach"; "filter"; "flat"; "flatMap"; "map"; "every"; "some";
          "reduce"; "reduceRight"; "toLocaleString"; "toString"] |}.

Definition message (n : Z) : Message := userMessage (Num n).

Definition no_env : MCPClient.Env := fun _ => None.

Definition env_with_keys : MCPClient.Env := fun k =>
  if String.eqb k "ANTHROPIC_API_KEY" then Some "sk-ant"
  else if String.eqb k "OPENAI_API_KEY" then Some "sk-oai"
  else None.

Definition all_keys : MCPClient.Env := fun k =>
  if String.eqb k "ANTHROPIC_API_KEY" then Some "sk-ant"
  else if String.eqb k "OPENAI_API_KEY" then Some "sk-oai"
  else if String.eqb k "GOOGLE_GEMINI_API_KEY" then Some "g-key"
  else if String.eqb k "DEEPSEEK_API_KEY" then Some "ds-key"
  else None.

Definition client (bound : option Z) (history : list Message) : MCPClient.Client :=
  MCPClient.mkClient (Some "anthropic") history "be brief" bound
    (Some (mkProvider Anthropic "sk-ant" "claude" "be brief" [] None None))
    (Some "claude") None None None [] [].

Definition config (provider : option string) : MCPClient.Config :=
  MCPClient.mkConfig provider None None.

Definition good_call : RawToolCall :=
  mkRawToolCall "call_1" "function" (mkFunctionCall "add" "{}").

Definition bad_call : RawToolCall :=
  mkRawToolCall "call_2" "function" (mkFunctionCall "sub" "{oops").

Definition chat (calls : option (list RawToolCall)) : ChatCompletion.Response :=
  ChatCompletion.mkResponse
    (Some [mkChoice (Some (mkChatMessage None calls))]).

(** A screenshot tool whose result holds a text block and an image block,
    and the history at the moment the result has been pushed. *)
Definition screenshot : value :=
  Obj [("content",
        Arr [Wire.text_part "captured";
             Obj [("type", Str "image");
                  ("data", Str "data:image/png;base64,iVBORw0KGgo=");
                  ("mimeType", Str "image/png")]])].

Definition shot_call : ToolCall := mkToolCall "call_7" "screenshot" (Obj []).

Definition history_with_screenshot : list Message :=
  [userMessage (Str "What is on my screen?");
   assistantMessage EmptyString (Some [shot_call]);
   toolMessage "call_7" "screenshot" screenshot].

Definition openai_instance : BaseProvider :=
  mkProvider OpenAI "sk-oai" "gpt-4o" "be brief" [] None None.

Definition google_instance : BaseProvider :=
  mkProvider Google "g-key" "gemini" "be brief" [] None (Some []).

Definition client_of (providerName : string) (instance : BaseProvider)
  : MCPClient.Client :=
  MCPClient.mkClient (Some providerName) history_with_screenshot "be brief" None
    (Some instance) None None None None [] [].

Definition world (st : MCPClient.Client)
    (answers : list (outcome MCPClient.LlmResponse)) : MCPClient.World :=
  MCPClient.mkWorld st all_keys answers (fun _ _ => Returned (Str "done"))
    "1700000000000" [].

Definition says (t : string) : ChatCompletion.Response :=
  ChatCompletion.mkResponse (Some [mkChoice (Some (mkChatMessage (Some t) None))]).

Definition says_and_calls (t : string) (calls : list RawToolCall)
  : ChatCompletion.Response :=
  ChatCompletion.mkResponse
    (Some [mkChoice (Some (mkChatMessage (Some t) (Some calls)))]).

Definition gemini_says (t : string) : GoogleProvider.Response :=
  GoogleProvider.mkResponse (Some [GoogleProvider.mkPart (Some t) None]).

Definition openai_world : MCPClient.World :=
  world (client_of "openai" openai_instance)
    [Returned (MCPClient.FromChat (says "Screenshot taken."));
     Returned (MCPClient.FromChat (says "I see a terminal."))].

Definition openai_world_with_second_call : MCPClient.World :=
  world (client_of "openai" openai_instance)
    [Returned (MCPClient.FromChat (says_and_calls "One more step." [good_call]));
     Returned (MCPClient.FromChat (says "All done."))].

Definition google_world : MCPClient.World :=
  world (client_of "google" google_instance)
    [Returned (MCPClient.FromGoogle (gemini_says "Screenshot taken."));
     Returned (MCPClient.FromGoogle (gemini_says "I see a terminal."))].

(** Whether a step pushes a user message. *)
Definition appends_user (s : MCPClient.Step) : bool :=
  match s with
  | MCPClient.Appended m => Role_eqb (role m) user
  | MCPClient.Sent _ => false
  end.

End Sample.

(* ===================================================================== *)
(** * Properties: history trimming                                         *)
(* ===================================================================== *)

Section Trimming.
Import MCPClient.

Lemma trim_unbounded (st : Client) :
  maxConversationHistoryLength st = None -> _trimConversationHistory st = st.
Proof. unfold _trimConversationHistory. intros ->. reflexivity. Qed.

Lemma trim_within_bound (st : Client) (maxLength : Z) :
  maxConversationHistoryLength st = Some maxLength ->
  Z.of_nat (length (conversation st)) <= maxLength ->
  _trimConversationHistory st = st.
Proof.
  unfold _trimConversationHistory. intros -> Hle.
  destruct (maxLength <? Z.of_nat (length (conversation st))) eqn:E.
  - apply Z.ltb_lt in E. lia.
  - rewrite andb_false_r. reflexivity.
Qed.

Lemma trim_over_bound (st : Client) (maxLength : Z) :
  maxConversationHistoryLength st = Some maxLength ->
  0 < maxLength ->
  maxLength < Z.of_nat (length (conversation st)) ->
  _trimConversationHistory st
  = emit (LogTrimmed (Z.of_nat (length (conversation st)) - maxLength) maxLength)
      (with_conversation
         (drop (length (conversation st) - Z.to_nat maxLength) (conversation st))
         st).
Proof.
  unfold _trimConversationHistory. intros -> Hpos Hlt.
  assert ((maxLength =? 0) = false) as -> by (apply Z.eqb_neq; lia).
  assert ((maxLength <? Z.of_nat (length (conversation st))) = true) as ->
    by (apply Z.ltb_lt; lia).
  cbn [negb andb]. do 3 f_equal. lia.
Qed.

(** C5. With a positive bound [maxLength] configured: a history longer
    than the bound loses exactly its [length - maxLength] oldest messages,
    the last [maxLength] messages stay as they were and in their order, and
    the number removed is logged; a history at or under the bound is left
    untouched, and so is the rest of the client. *)
Theorem trim_keeps_the_newest (st : Client) (maxLength : Z) :
  maxConversationHistoryLength st = Some maxLength ->
  0 < maxLength ->
  let history := conversation st in
  let st' := _trimConversationHistory st in
  (maxLength < Z.of_nat (length history) ->
     exists removed,
       history = (removed ++ conversation st')
       /\ Z.of_nat (length removed) = Z.of_nat (length history) - maxLength
       /\ Z.of_nat (length (conversation st')) = maxLength
       /\ conversation st' = drop (length removed) history
       /\ events st'
          = (events st
             ++ [LogTrimmed (Z.of_nat (length history) - maxLength) maxLength]))
  /\ (Z.of_nat (length history) <= maxLength -> st' = st).
Proof.
  intros Hmax Hpos history st'. split.
  - intros Hlt. subst st'. rewrite (trim_over_bound st maxLength Hmax Hpos Hlt).
    fold history. set (k := (length history - Z.to_nat maxLength)%nat).
    exists (take k history). cbn.
    assert (Hk : (k <= length history)%nat) by (subst k; lia).
    rewrite length_take, length_drop.
    replace (k `min` length history)%nat with k by lia.
    repeat split.
    + symmetry. apply take_drop.
    + subst k. lia.
    + subst k. lia.
  - intros Hle. apply (trim_within_bound st maxLength Hmax Hle).
Qed.

Lemma trim_keeps_the_newest_witness :
  let st := Sample.client (Some 3)
              (Sample.message <$> [1; 2; 3; 4; 5]) in
  conversation (_trimConversationHistory st) = Sample.message <$> [3; 4; 5]
  /\ events (_trimConversationHistory st) = [LogTrimmed 2 3].
Proof.
  intros st.
  destruct (trim_keeps_the_newest st 3 eq_refl ltac:(lia)) as [Hover _].
  destruct (Hover ltac:(cbn; lia)) as (removed & _ & Hlen & _ & Hdrop & Hev).
  assert (length removed = 2%nat) as Hr by (cbn in Hlen; lia).
  rewrite Hr in Hdrop. split; [exact Hdrop | exact Hev].
Defined.

End Trimming.

(* ===================================================================== *)
(** * Properties: the stored bound                                         *)
(* ===================================================================== *)

Section Bound.
Import MCPClient.
Context `{Builtins}.

Lemma activate_keeps_bound k providerName label keyVar modelVar defaultModel
    newModelName initialSetup env st :
  maxConversationHistoryLength
    (snd (activate k providerName label keyVar modelVar defaultModel
            newModelName initialSetup env st))
  = maxConversationHistoryLength st.
Proof.
  unfold activate, report.
  destruct (env keyVar) as [key|]; [destruct (str_truthy key)|];
    destruct initialSetup; reflexivity.
Qed.

Lemma setLLMProvider_keeps_bound newProvider newModelName initialSetup env st :
  maxConversationHistoryLength
    (snd (setLLMProvider newProvider newModelName initialSetup env st))
  = maxConversationHistoryLength st.
Proof.
  unfold setLLMProvider.
  destruct (provider_named (Text.toLowerCase <$> newProvider)) as [[]|];
    rewrite ?activate_keeps_bound; try reflexivity.
  cbn. destruct initialSetup; [reflexivity|].
  destruct (ostr_truthy _); reflexivity.
Qed.

Lemma constructor_bound config env client :
  constructor config env = Returned client ->
  maxConversationHistoryLength client = initialMaxLength config env.
Proof.
  unfold constructor.
  match goal with
  | |- context [setLLMProvider ?p ?m true env ?st] =>
      pose proof (setLLMProvider_keeps_bound p m true env st) as Hkeep;
      destruct (setLLMProvider p m true env st) as [[] st']
  end; [|discriminate].
  intros [= <-]. exact Hkeep.
Qed.

(** C10. When neither the configuration nor the environment gives a
    positive number for the history bound (the value is absent, is not a
    number, is zero or is negative), a client that starts stores no bound,
    and trimming leaves every history, whatever its length, and the rest of
    the client exactly as they were. *)
Theorem no_bound_means_no_trimming (config : Config) (env : Env) (client : Client) :
  positive (parseInt_config (cfg_maxConversationHistoryLength config)) = false ->
  positive (env "MAX_CONVERSATION_HISTORY_LENGTH" ≫= Text.parseInt10) = false ->
  constructor config env = Returned client ->
  maxConversationHistoryLength client = None
  /\ forall history : list Message,
       _trimConversationHistory (with_conversation history client)
       = with_conversation history client.
Proof.
  intros Hconfig Henv Hnew.
  assert (Hnone : maxConversationHistoryLength client = None).
  { rewrite (constructor_bound _ _ _ Hnew). unfold initialMaxLength.
    rewrite Hconfig, Henv. reflexivity. }
  split; [exact Hnone|].
  intros history. apply trim_unbounded. exact Hnone.
Qed.

End Bound.

(** The four ways of configuring no bound, read by [parseInt]. *)
Example unusable_bounds :
  MCPClient.positive (MCPClient.parseInt_config None) = false
  /\ MCPClient.positive (MCPClient.parseInt_config (Some (MCPClient.CfgString "many"))) = false
  /\ MCPClient.positive (MCPClient.parseInt_config (Some (MCPClient.CfgNumber 0))) = false
  /\ MCPClient.positive (MCPClient.parseInt_config (Some (MCPClient.CfgString "-4"))) = false
  /\ MCPClient.positive (MCPClient.parseInt_config (Some (MCPClient.CfgString " 12px"))) = true.
Proof. repeat split. Qed.

Lemma no_bound_means_no_trimming_witness :
  exists client,
    @MCPClient.constructor Sample.builtins
      (MCPClient.mkConfig (Some "openai") None (Some (MCPClient.CfgString "-4")))
      Sample.env_with_keys
    = Returned client
    /\ MCPClient.maxConversationHistoryLength client = None
    /\ MCPClient._trimConversationHistory
         (MCPClient.with_conversation (Sample.message <$> [1; 2; 3]) client)
       = MCPClient.with_conversation (Sample.message <$> [1; 2; 3]) client.
Proof.
  eexists. split; [vm_compute; reflexivity|].
  match goal with
  | |- MCPClient.maxConversationHistoryLength ?c = _ /\ _ =>
      destruct (@no_bound_means_no_trimming Sample.builtins
                  (MCPClient.mkConfig (Some "openai") None
                     (Some (MCPClient.CfgString "-4")))
                  Sample.env_with_keys c eq_refl eq_refl eq_refl)
        as [Hnone Hid]
  end.
  split; [exact Hnone | apply Hid].
Defined.

(* ===================================================================== *)
(** * Properties: the textual summary of a tool result                     *)
(* ===================================================================== *)

Section Summaries.
Context `{Builtins}.
Import ToolResultText.

Definition readable (part : value) : bool :=
  match part with
  | Null => false
  | _ => true
  end.

Lemma find_or_throw_readable (p : value -> bool) (parts : list value) :
  forallb readable parts = true ->
  find_or_throw p parts = Returned (find p parts).
Proof.
  induction parts as [|part rest IH]; [reflexivity|].
  cbn [forallb find]. intros Hall. apply andb_prop in Hall as [Hpart Hrest].
  destruct part; try discriminate Hpart; cbn [find_or_throw];
    (destruct (p _); [reflexivity|exact (IH Hrest)]).
Qed.

Lemma scan_or_throw_readable (parts : list value) (seen : option string) :
  forallb readable parts = true ->
  scan_or_throw parts seen = Returned (scan_text_parts parts seen).
Proof.
  revert seen. induction parts as [|part rest IH]; intros seen; [reflexivity|].
  cbn [forallb]. intros Hall. apply andb_prop in Hall as [Hpart Hrest].
  destruct part; try discriminate Hpart; cbn [scan_or_throw scan_text_parts];
    repeat match goal with
           | |- context [match ?x with _ => _ end] =>
               lazymatch x with
               | scan_or_throw _ _ => fail
               | scan_text_parts _ _ => fail
               | _ => destruct x
               end
           end; auto.
Qed.

Lemma summarize_or_throw_readable (r : value) :
  (forall parts, as_array (get "content" r) = Some parts ->
                 forallb readable parts = true) ->
  summarize_or_throw r = Returned (summarize r).
Proof.
  intros Hparts. unfold summarize_or_throw, summarize.
  destruct (as_array (get "content" r)) as [parts|]; [|reflexivity].
  specialize (Hparts parts eq_refl).
  rewrite scan_or_throw_readable, find_or_throw_readable by exact Hparts.
  destruct (scan_text_parts parts None); [reflexivity|].
  destruct (find is_data_part parts); reflexivity.
Qed.

Lemma hasImage_or_throw_readable (r : value) :
  (forall parts, as_array (get "content" r) = Some parts ->
                 forallb readable parts = true) ->
  hasImage_or_throw r = Returned (hasImage r).
Proof.
  intros Hparts. unfold hasImage_or_throw, hasImage.
  destruct (truthy r && is_object r)%bool; [|reflexivity].
  destruct (has_direct_image r); [reflexivity|].
  destruct (as_array (get "content" r)) as [parts|]; [|reflexivity].
  rewrite find_or_throw_readable by exact (Hparts parts eq_refl).
  induction parts as [|part rest IH]; [reflexivity|].
  cbn [find existsb]. destruct (is_image_part part); [reflexivity|].
  apply IH. intros parts' [= <-].
  specialize (Hparts _ eq_refl). cbn [forallb] in Hparts.
  apply andb_prop in Hparts as [_ Hrest]. exact Hrest.
Qed.

(** On a result whose content parts can all be read the conversions
    return, and they return the strings that the tool turns carry. *)
Lemma conversions_return (toolResult : value) (toolName : option string) :
  (forall parts, as_array (get "content" toolResult) = Some parts ->
                 forallb readable parts = true) ->
  DeepSeekProvider.convertToolResult toolResult toolName
  = Returned (DeepSeekProvider._convertToolResultForDeepSeek toolResult toolName)
  /\ OpenAIProvider.convertToolResult toolResult toolName
     = Returned (OpenAIProvider._convertToolResultForOpenAI toolResult toolName)
  /\ HuggingFaceProvider.convertToolResult toolResult toolName
     = Returned (HuggingFaceProvider._convertToolResultForPartner toolResult toolName).
Proof.
  intros Hparts.
  unfold DeepSeekProvider.convertToolResult, OpenAIProvider.convertToolResult,
    HuggingFaceProvider.convertToolResult, placeholder_or_summary,
    DeepSeekProvider._convertToolResultForDeepSeek,
    OpenAIProvider._convertToolResultForOpenAI,
    HuggingFaceProvider._convertToolResultForPartner.
  rewrite hasImage_or_throw_readable, summarize_or_throw_readable by exact Hparts.
  destruct (hasImage toolResult); destruct toolResult; repeat split.
Qed.

(** C6. The conversion of a tool result to a string can fail. For a result
    whose content list starts with [null], whatever follows it, the three
    string adapters read [part.type] on that part, and [convertToolResult]
    ends with the [TypeError] instead of returning the serialization of the
    whole result, the last resort that the policy names. *)
Theorem conversion_throws_on_null_block
    (rest : list value) (toolName : option string) :
  let toolResult := Obj [("content", Arr (Null :: rest))] in
  DeepSeekProvider.convertToolResult toolResult toolName = Thrown TypeError
  /\ OpenAIProvider.convertToolResult toolResult toolName = Thrown TypeError
  /\ HuggingFaceProvider.convertToolResult toolResult toolName
     = Thrown TypeError.
Proof. repeat split. Qed.

End Summaries.

(* ===================================================================== *)
(** * Properties: extraction of tool calls                                 *)
(* ===================================================================== *)

Section Extraction.
Context `{Builtins}.

(** The loop of the OpenAI adapter keeps, in order, the calls whose
    arguments parse. *)
Lemma openai_valid_calls (tool_calls : list RawToolCall) (acc : list ToolCall) :
  fold_left OpenAIProvider.push_valid tool_calls acc
  = acc ++ omap OpenAIProvider.parse_call tool_calls.
Proof.
  revert acc. induction tool_calls as [|tc rest IH]; intros acc; cbn.
  - rewrite app_nil_r. reflexivity.
  - rewrite IH. unfold OpenAIProvider.push_valid.
    destruct (OpenAIProvider.parse_call tc); [|reflexivity].
    rewrite <- app_assoc. reflexivity.
Qed.

Lemma openai_never_empty (llmResponse : ChatCompletion.Response) :
  OpenAIProvider.extractToolCalls llmResponse <> Some [].
Proof.
  unfold OpenAIProvider.extractToolCalls.
  destruct (first_message llmResponse) as [m|]; [|discriminate].
  destruct (msg_tool_calls m) as [calls|]; [|discriminate].
  destruct (fold_left _ _ _); discriminate.
Qed.

Lemma deepseek_never_empty (llmResponse : ChatCompletion.Response) :
  DeepSeekProvider.extractToolCalls llmResponse <> Some [].
Proof.
  unfold DeepSeekProvider.extractToolCalls.
  destruct (first_message llmResponse) as [m|]; [|discriminate].
  destruct (msg_tool_calls m) as [calls|]; [|discriminate].
  destruct (fold_left _ _ _); discriminate.
Qed.

Lemma anthropic_never_empty (llmResponse : option AnthropicProvider.Response) :
  AnthropicProvider.extractToolCalls llmResponse <> Some [].
Proof.
  unfold AnthropicProvider.extractToolCalls.
  destruct llmResponse as [r|]; [|discriminate].
  destruct (AnthropicProvider.resp_content r) as [blocks|]; [|discriminate].
  destruct (_ <$> _); discriminate.
Qed.

Lemma google_never_empty (clock : string) (llmResponse : GoogleProvider.Response) :
  GoogleProvider.extractToolCalls clock llmResponse <> Some [].
Proof.
  unfold GoogleProvider.extractToolCalls.
  destruct (fold_left _ _ _); discriminate.
Qed.

(** With one call whose arguments parse and one whose arguments do not,
    the OpenAI and DeepSeek adapters return the first alone, and the
    inference-router adapter throws. *)
Lemma one_malformed_call (good bad : RawToolCall) (args : value) :
  JSON_parse (fn_arguments (raw_function good)) = Some args ->
  JSON_parse (fn_arguments (raw_function bad)) = None ->
  raw_type good = "function" ->
  let response := Sample.chat (Some [good; bad]) in
  let call := mkToolCall (raw_id good) (fn_name (raw_function good)) args in
  OpenAIProvider.extractToolCalls response = Some [call]
  /\ DeepSeekProvider.extractToolCalls response = Some [call]
  /\ HuggingFaceProvider.extractToolCalls response = Thrown "SyntaxError".
Proof.
  intros Hgood Hbad Htype response call.
  unfold OpenAIProvider.extractToolCalls, DeepSeekProvider.extractToolCalls,
    HuggingFaceProvider.extractToolCalls.
  cbn. unfold OpenAIProvider.push_valid, OpenAIProvider.parse_call,
         DeepSeekProvider.push_valid.
  rewrite Htype, Hgood, Hbad. cbn.
  destruct (String.eqb (raw_type bad) "function"); repeat split.
Qed.

End Extraction.

(** C7. A response with one well-formed tool call and one whose argument
    string is not valid JSON: the OpenAI and DeepSeek adapters return the
    well-formed call alone, but [extractToolCalls] of the inference-router
    adapter ends with the exception of [JSON.parse] and returns no list at
    all. *)
Theorem router_adapter_throws_on_malformed_arguments :
  let response := Sample.chat (Some [Sample.good_call; Sample.bad_call]) in
  let call := mkToolCall "call_1" "add" (Obj []) in
  @OpenAIProvider.extractToolCalls Sample.builtins response = Some [call]
  /\ @DeepSeekProvider.extractToolCalls Sample.builtins response = Some [call]
  /\ @HuggingFaceProvider.extractToolCalls Sample.builtins response
     = Thrown "SyntaxError".
Proof.
  exact (@one_malformed_call Sample.builtins Sample.good_call Sample.bad_call
           (Obj []) eq_refl eq_refl eq_refl).
Qed.

(** C9. [extractToolCalls] of the Anthropic, OpenAI, DeepSeek and Google
    adapters never returns the empty list, whatever the response and the
    built-ins: the result is [null] or a non-empty list, also when every
    argument string fails to parse. The inference-router adapter does
    return the empty list, on a response whose [tool_calls] is the empty
    array. *)
Theorem empty_list_only_from_router_adapter `{Builtins} :
  (forall r, AnthropicProvider.extractToolCalls r <> Some [])
  /\ (forall r, OpenAIProvider.extractToolCalls r <> Some [])
  /\ (forall r, DeepSeekProvider.extractToolCalls r <> Some [])
  /\ (forall clock r, GoogleProvider.extractToolCalls clock r <> Some [])
  /\ HuggingFaceProvider.extractToolCalls (Sample.chat (Some []))
     = Returned (Some []).
Proof.
  split; [exact anthropic_never_empty|].
  split; [exact openai_never_empty|].
  split; [exact deepseek_never_empty|].
  split; [exact google_never_empty|].
  reflexivity.
Qed.

(* ===================================================================== *)
(** * Properties: configuration errors                                     *)
(* ===================================================================== *)

Section Configuration.
Import MCPClient.
Context `{Builtins}.

(** A configuration error: the provider name, in lower case, is none of
    the four supported ones, or the API key of the named provider is not
    set in the environment. *)
Definition configuration_error (env : Env) (providerName : option string) : bool :=
  match provider_named (Text.toLowerCase <$> providerName) with
  | Some Anthropic => negb (ostr_truthy (env "ANTHROPIC_API_KEY"))
  | Some OpenAI => negb (ostr_truthy (env "OPENAI_API_KEY"))
  | Some Google => negb (ostr_truthy (env "GOOGLE_GEMINI_API_KEY"))
  | Some DeepSeek => negb (ostr_truthy (env "DEEPSEEK_API_KEY"))
  | None => true
  end.

(** What a failed call leaves on the logger and the console. *)
Definition reported (initialSetup : bool) (named : bool) (before after : list Event)
  : Prop :=
  exists attempt errorMsg,
    after
    = before ++ [LogInfo attempt; LogError errorMsg]
        ++ (if initialSetup then []
            else if named then [ConsoleError ("Error: " +:+ errorMsg)]
            else [ConsoleLog "No LLM provider specified in command."]).

Lemma activate_without_key k providerName label keyVar modelVar defaultModel
    newModelName initialSetup env st :
  ostr_truthy (env keyVar) = false ->
  activate k providerName label keyVar modelVar defaultModel newModelName
    initialSetup env st
  = (false,
     report (keyVar +:+ " environment variable is required for "
             +:+ label +:+ " provider.") initialSetup st).
Proof.
  unfold activate. intros Hkey.
  destruct (env keyVar) as [key|]; [|reflexivity].
  cbn in Hkey. rewrite Hkey. reflexivity.
Qed.

Lemma provider_named_truthy (p : option string) (k : ProviderKind) :
  provider_named p = Some k -> ostr_truthy p = true.
Proof.
  destruct p as [s|]; [|discriminate]. cbn.
  destruct s; [discriminate|reflexivity].
Qed.

(** A call of [setLLMProvider] that meets a configuration error. *)
Lemma setLLMProvider_rejects newProvider newModelName initialSetup env st :
  configuration_error env newProvider = true ->
  let '(ok, st') := setLLMProvider newProvider newModelName initialSetup env st in
  ok = false
  /\ llmProvider st' = llmProvider st
  /\ conversation st' = conversation st
  /\ systemMessage st' = systemMessage st
  /\ maxConversationHistoryLength st' = maxConversationHistoryLength st
  /\ currentLlmProviderInstance st' = None
  /\ (model st', openaiModel st', geminiModel st', deepseekModel st')
     = (None, None, None, None)
  /\ reported initialSetup (ostr_truthy newProvider) (events st) (events st').
Proof.
  unfold configuration_error, setLLMProvider. intros Herr.
  assert (Hnamed : ostr_truthy (Text.toLowerCase <$> newProvider)
                   = ostr_truthy newProvider).
  { destruct newProvider as [[|a s]|]; reflexivity. }
  destruct (provider_named (Text.toLowerCase <$> newProvider)) as [k|] eqn:Hk.
  - pose proof (provider_named_truthy _ _ Hk) as Htruthy. rewrite Hnamed in Htruthy.
    rewrite Htruthy.
    destruct k; apply negb_true_iff in Herr;
      rewrite (activate_without_key _ _ _ _ _ _ _ _ _ _ Herr);
      unfold report, reported; destruct initialSetup; cbn;
      (repeat split; try reflexivity);
      do 2 eexists; rewrite <- ?app_assoc; reflexivity.
  - rewrite Hnamed. unfold reported.
    destruct initialSetup; [|destruct (ostr_truthy newProvider)]; cbn;
      (repeat split; try reflexivity);
      do 2 eexists; rewrite <- ?app_assoc; reflexivity.
Qed.

(** C8 (as the code has it). A configuration error for the initially
    configured provider is fatal: the constructor throws and [main] exits
    with status 1. The same error in a later call of [setLLMProvider] is
    not fatal: the call logs the error, prints it on the console, and
    returns [false]; the configured provider name, the conversation, the
    system message and the history bound are unchanged. The adapter
    instance of the provider that was active and the model names kept for
    it are cleared by the call, not kept. *)
Theorem configuration_error_fatal_only_at_startup (env : Env)
    (providerName : option string) :
  configuration_error env providerName = true ->
  (forall config,
     cfg_llmProvider config = providerName ->
     exists message,
       constructor config env = Thrown message
       /\ main config env = Exited 1 ("Initialization error: " +:+ message))
  /\ (forall newModelName st,
        let '(ok, st') := setLLMProvider providerName newModelName false env st in
        ok = false
        /\ llmProvider st' = llmProvider st
        /\ conversation st' = conversation st
        /\ systemMessage st' = systemMessage st
        /\ maxConversationHistoryLength st' = maxConversationHistoryLength st
        /\ reported false (ostr_truthy providerName) (events st) (events st')
        /\ currentLlmProviderInstance st' = None
        /\ (model st', openaiModel st', geminiModel st', deepseekModel st')
           = (None, None, None, None)).
Proof.
  intros Herr. split.
  - intros config Hname. unfold main, constructor.
    match goal with
    | |- context [setLLMProvider ?p ?m true env ?st] =>
        assert (Hp : configuration_error env p = true);
        [| pose proof (setLLMProvider_rejects p m true env st Hp) as Hrej;
           destruct (setLLMProvider p m true env st) as [ok st'] ]
    end.
    { rewrite Hname. unfold configuration_error in *.
      destruct providerName as [s|]; [|reflexivity]. cbn [fmap option_fmap option_map] in *.
      assert (Hidem : Text.toLowerCase (Text.toLowerCase s) = Text.toLowerCase s).
      { clear. induction s as [|a s IH]; [reflexivity|]. cbn. rewrite IH. f_equal.
        unfold Text.lower. destruct (Text.between 65 90 a) eqn:E; [|rewrite E; reflexivity].
        destruct a as [[] [] [] [] [] [] [] []]; vm_compute in E |- *;
          first [reflexivity | discriminate]. }
      rewrite Hidem. exact Herr. }
    destruct Hrej as [-> _]. eexists. split; reflexivity.
  - intros newModelName st.
    pose proof (setLLMProvider_rejects providerName newModelName false env st Herr)
      as Hrej.
    destruct (setLLMProvider providerName newModelName false env st) as [ok st'].
    destruct Hrej as (? & ? & ? & ? & ? & ? & ? & ?). repeat split; assumption.
Qed.

End Configuration.

(** The claim as the specification words it fails: after a rejected switch
    the instance that was active is gone. The client runs the Anthropic
    adapter; the switch to Google fails for want of its key. *)
Lemma rejected_switch_clears_active_instance :
  let st := Sample.client None [] in
  let after := @MCPClient.setLLMProvider Sample.builtins (Some "google") None false
                 Sample.env_with_keys st in
  fst after = false
  /\ MCPClient.currentLlmProviderInstance st
     = Some (mkProvider Anthropic "sk-ant" "claude" "be brief" [] None None)
  /\ MCPClient.currentLlmProviderInstance (snd after) = None
  /\ MCPClient.model st = Some "claude"
  /\ MCPClient.model (snd after) = None
  /\ MCPClient.llmProvider (snd after) = Some "anthropic".
Proof. vm_compute. repeat split. Qed.

Lemma configuration_error_fatal_only_at_startup_witness :
  (exists message,
     @MCPClient.constructor Sample.builtins (Sample.config (Some "Mistral"))
       Sample.all_keys = Thrown message)
  /\ fst (@MCPClient.setLLMProvider Sample.builtins (Some "Mistral") None false
            Sample.all_keys (Sample.client None [])) = false.
Proof.
  destruct (@configuration_error_fatal_only_at_startup Sample.builtins
              Sample.all_keys (Some "Mistral") eq_refl) as [Hstart Hswitch].
  split.
  - destruct (Hstart (Sample.config (Some "Mistral")) eq_refl) as (message & Hthrown & _).
    exists message. exact Hthrown.
  - specialize (Hswitch None (Sample.client None [])).
    destruct (@MCPClient.setLLMProvider Sample.builtins (Some "Mistral") None false
                Sample.all_keys (Sample.client None [])) as [ok st'].
    destruct Hswitch as [Hok _]. exact Hok.
Defined.

(* ===================================================================== *)
(** * Properties: tool results in the block-structured format              *)
(* ===================================================================== *)

(** The loop of [formatConversation] read message by message: what it
    pushes on [formattedMessages] for one message, given the table of the
    first pass. An assistant message gives its own turn and, directly after
    it, one user turn with the blocks the table yields for its calls; a
    user message gives its own turn; tool and system messages give none. *)
Module PerMessage.
Section PerMessage.
Context `{Builtins}.

Definition assistant_blocks (m : Message) : list value :=
  match nonblank_text m with
  | Some s => [Wire.text_part s]
  | None => []
  end ++ (AnthropicProvider.tool_use_block <$> calls_of m).

Definition turns (results : ObjectLiteral.object) (m : Message) : list value :=
  match role m with
  | user => AnthropicProvider.user_message_turns m
  | assistant =>
      match assistant_blocks m with
      | [] => []
      | blocks => [Wire.turn "assistant" (Arr blocks)]
      end
      ++ match omap (AnthropicProvider.result_block results) (calls_of m) with
         | [] => []
         | blocks => [AnthropicProvider.user_turn blocks]
         end
  | _ => []
  end.

End PerMessage.
End PerMessage.

Section BlockStructured.
Context `{Builtins}.
Import AnthropicProvider.

Lemma push_calls (T : ObjectLiteral.object) (calls : list ToolCall)
    (assistantContent pending : list value) :
  fold_left (push_call T) calls (assistantContent, pending)
  = (assistantContent ++ (tool_use_block <$> calls),
     pending ++ omap (result_block T) calls).
Proof.
  revert assistantContent pending.
  induction calls as [|c rest IH]; intros assistantContent pending.
  - cbn. rewrite !app_nil_r. reflexivity.
  - cbn [fold_left push_call]. rewrite IH. cbn [fmap list_fmap omap list_omap].
    rewrite <- app_assoc. f_equal.
    destruct (result_block T c); rewrite <- ?app_assoc; reflexivity.
Qed.

Definition flushed (pending : list value) : list value :=
  match pending with
  | [] => []
  | _ => [user_turn pending]
  end.

Definition starts_with_user (history : list Message) : Prop :=
  match history with
  | m :: _ => role m = user
  | [] => False
  end.

(** The invariant of the second pass: results are pending only while the
    next message is a user message, whose branch flushes them first. *)
Lemma format_loop_turns (T : ObjectLiteral.object) (history : list Message) :
  forall formattedMessages pending,
    pending = [] \/ starts_with_user history ->
    format_loop T history formattedMessages pending
    = formattedMessages ++ flushed pending
        ++ flat_map (PerMessage.turns T) history.
Proof.
  induction history as [|m rest IH]; intros formattedMessages pending Hinv.
  - destruct Hinv as [->|[]]. cbn. rewrite app_nil_r. reflexivity.
  - cbn [format_loop flat_map]. unfold PerMessage.turns at 1.
    destruct (role m) eqn:Hrole.
    + rewrite IH by (left; reflexivity). cbn [flushed].
      unfold flushed. destruct pending; rewrite <- ?app_assoc; reflexivity.
    + destruct Hinv as [->|Hu]; [|cbn in Hu; congruence].
      rewrite push_calls. cbn [app flushed].
      unfold PerMessage.assistant_blocks.
      set (blocks := match nonblank_text m with
                     | Some s => [Wire.text_part s]
                     | None => []
                     end ++ (tool_use_block <$> calls_of m)).
      set (results := omap (result_block T) (calls_of m)).
      assert (Hflush : forall fm,
                 format_loop T rest (fm ++ [user_turn results]) []
                 = fm ++ [user_turn results]
                     ++ flat_map (PerMessage.turns T) rest).
      { intros fm. rewrite IH by (left; reflexivity). cbn.
        rewrite <- app_assoc. reflexivity. }
      destruct results as [|r results'] eqn:Hres.
      * rewrite IH by (left; reflexivity). cbn.
        destruct blocks; rewrite <- ?app_assoc; reflexivity.
      * destruct (next_is_not_user rest) eqn:Hnext.
        -- rewrite Hflush. destruct blocks; rewrite <- ?app_assoc; reflexivity.
        -- rewrite IH.
           ++ cbn. destruct blocks; rewrite <- ?app_assoc; reflexivity.
           ++ right. destruct rest as [|next rest']; [discriminate|].
              cbn in Hnext |- *. destruct (role next); first [reflexivity|discriminate].
    + destruct Hinv as [->|Hu]; [|cbn in Hu; congruence].
      rewrite IH by (left; reflexivity). reflexivity.
    + destruct Hinv as [->|Hu]; [|cbn in Hu; congruence].
      rewrite IH by (left; reflexivity). reflexivity.
Qed.

Lemma formatConversation_turns (history : list Message) :
  formatConversation history
  = flat_map (PerMessage.turns (toolResultsMap history)) history.
Proof.
  unfold formatConversation.
  rewrite format_loop_turns by (left; reflexivity). reflexivity.
Qed.

(** ** Ids that are no names of [Object.prototype] *)

Lemma inherited_proto (id : string) :
  Logger.inherited id = false -> String.eqb id "__proto__" = false.
Proof.
  intros Hid. destruct (String.eqb_spec id "__proto__") as [->|]; [|reflexivity].
  discriminate Hid.
Qed.

Lemma assign_plain (id : string) (v : value) (T : ObjectLiteral.object) :
  String.eqb id "__proto__" = false ->
  ObjectLiteral.assign id v T = ObjectLiteral.define id v T.
Proof. unfold ObjectLiteral.assign. intros ->. reflexivity. Qed.

Lemma lookup_define (id id' : string) (v : value) (T : ObjectLiteral.object) :
  ObjectLiteral.lookup id (ObjectLiteral.define id' v T)
  = if String.eqb id' id then ObjectLiteral.Value v
    else ObjectLiteral.lookup id T.
Proof.
  unfold ObjectLiteral.lookup, ObjectLiteral.define.
  cbn [ObjectLiteral.own ObjectLiteral.prototype].
  destruct (String.eqb_spec id' id) as [->|Hne].
  - rewrite lookup_insert_eq. reflexivity.
  - rewrite lookup_insert_ne by exact Hne. reflexivity.
Qed.

Lemma lookup_empty_plain (id : string) :
  Logger.inherited id = false ->
  ObjectLiteral.lookup id ObjectLiteral.empty = ObjectLiteral.Undefined.
Proof.
  intros Hid. unfold ObjectLiteral.lookup, ObjectLiteral.empty.
  cbn [ObjectLiteral.own ObjectLiteral.prototype]. rewrite lookup_empty.
  unfold ObjectLiteral.inherited_property, ObjectLiteral.from_Object_prototype.
  rewrite (inherited_proto id Hid), Hid. reflexivity.
Qed.

Lemma record_tool_message (id nm : string) (r : value) (T : ObjectLiteral.object) :
  str_truthy id = true ->
  String.eqb id "__proto__" = false ->
  record_result T (toolMessage id nm r)
  = ObjectLiteral.define id (convertToolResult r (Some nm)) T.
Proof.
  intros Hid Hproto. unfold record_result.
  cbn [role tool_call_id content name toolMessage].
  rewrite Hid. apply assign_plain. exact Hproto.
Qed.





Lemma result_block_value (T : ObjectLiteral.object) (c : ToolCall) (r : value) :
  ObjectLiteral.lookup (tc_id c) T = ObjectLiteral.Value r ->
  result_block T c
  = if truthy r then Some (tool_result_block (tc_id c) r) else None.
Proof. unfold result_block. intros ->. reflexivity. Qed.

Lemma result_block_undefined (T : ObjectLiteral.object) (c : ToolCall) :
  ObjectLiteral.lookup (tc_id c) T = ObjectLiteral.Undefined ->
  result_block T c = None.
Proof. unfold result_block. intros ->. reflexivity. Qed.

(** C1. The block-structured adapter sends user turns that hold only a part
    of the results of one assistant turn, and it pairs by id alone. For an
    assistant message with two tool calls (ids that are no names of
    [Object.prototype]):

    - formatted when only the first call has its tool message, as the
      client does before it runs the second tool, the request carries both
      [tool_use] blocks and a user turn with the first result alone;
    - when the first tool answered with an empty content list and the
      second with a text, the user turn holds the second result alone: the
      empty string the first result converts to is taken for a missing
      one;
    - when both calls carry the same id, as two calls of one tool do that
      the Google adapter read from one response, both [tool_result] blocks
      carry the text of the second tool message and the first is lost.

    The requests are written out member by member. *)
Theorem partial_tool_results_are_sent
    (query answer other id1 name1 id2 name2 : string)
    (args1 args2 : list (string * value)) :
  str_truthy id1 = true ->
  str_truthy id2 = true ->
  id1 <> id2 ->
  Logger.inherited id1 = false ->
  Logger.inherited id2 = false ->
  str_truthy answer = true ->
  let c1 := mkToolCall id1 name1 (Obj args1) in
  let c2 := mkToolCall id2 name2 (Obj args2) in
  let again := mkToolCall id1 name1 (Obj args2) in
  let asked :=
    Obj [("role", Str "user");
         ("content", Arr [Obj [("type", Str "text"); ("text", Str query)]])] in
  let tool_use (id toolName : string) (args : list (string * value)) :=
    Obj [("type", Str "tool_use"); ("id", Str id); ("name", Str toolName);
         ("input", Obj args)] in
  let tool_result (id text : string) :=
    Obj [("type", Str "tool_result"); ("tool_use_id", Str id);
         ("content", Str text)] in
  let calls (blocks : list value) :=
    Obj [("role", Str "assistant"); ("content", Arr blocks)] in
  let results (blocks : list value) :=
    Obj [("role", Str "user"); ("content", Arr blocks)] in
  formatConversation
    [userMessage (Str query);
     assistantMessage "" (Some [c1; c2]);
     toolMessage id1 name1 (Str answer)]
  = [asked;
     calls [tool_use id1 name1 args1; tool_use id2 name2 args2];
     results [tool_result id1 answer]]
  /\ formatConversation
       [userMessage (Str query);
        assistantMessage "" (Some [c1; c2]);
        toolMessage id1 name1 (Obj [("content", Arr [])]);
        toolMessage id2 name2 (Str answer)]
     = [asked;
        calls [tool_use id1 name1 args1; tool_use id2 name2 args2];
        results [tool_result id2 answer]]
  /\ formatConversation
       [userMessage (Str query);
        assistantMessage "" (Some [c1; again]);
        toolMessage id1 name1 (Str other);
        toolMessage id1 name1 (Str answer)]
     = [asked;
        calls [tool_use id1 name1 args1; tool_use id1 name1 args2];
        results [tool_result id1 answer; tool_result id1 answer]].
Proof.
  intros Hid1 Hid2 Hne Hplain1 Hplain2 Hanswer
    c1 c2 again asked tool_use tool_result calls results.
  subst c1 c2 again asked tool_use tool_result calls results.
  pose proof (inherited_proto id1 Hplain1) as Hproto1.
  pose proof (inherited_proto id2 Hplain2) as Hproto2.
  assert (Hne' : String.eqb id1 id2 = false) by (apply String.eqb_neq; exact Hne).
  assert (Hne'' : String.eqb id2 id1 = false)
    by (apply String.eqb_neq; congruence).
  unfold str_truthy in Hanswer.
  split; [|split]; rewrite formatConversation_turns; unfold toolResultsMap;
    cbn [fold_left]; rewrite ?record_tool_message by assumption;
    cbn [flat_map PerMessage.turns role userMessage assistantMessage toolMessage
         user_message_turns content _convertUserContentForAnthropic
         PerMessage.assistant_blocks nonblank_text Text.blank calls_of tool_calls
         fmap list_fmap omap list_omap app record_result tool_call_id];
    unfold result_block; cbn [tc_id];
    rewrite ?lookup_define, ?String.eqb_refl, ?Hne', ?Hne'',
      ?(lookup_empty_plain id2 Hplain2);
    cbn [convertToolResult as_array get assoc String.eqb Ascii.eqb Bool.eqb
         flat_map finish truthy negb];
    rewrite ?Hanswer; reflexivity.
Qed.

End BlockStructured.

Lemma partial_tool_results_are_sent_witness :
  let c1 := mkToolCall "toolu_1" "add" (Obj [("a", Num 2)]) in
  let c2 := mkToolCall "toolu_2" "mul" (Obj [("a", Num 3)]) in
  let asked :=
    Obj [("role", Str "user");
         ("content", Arr [Obj [("type", Str "text"); ("text", Str "compute")]])] in
  let calls :=
    Obj [("role", Str "assistant");
         ("content",
          Arr [Obj [("type", Str "tool_use"); ("id", Str "toolu_1");
                    ("name", Str "add"); ("input", Obj [("a", Num 2)])];
               Obj [("type", Str "tool_use"); ("id", Str "toolu_2");
                    ("name", Str "mul"); ("input", Obj [("a", Num 3)])]])] in
  @AnthropicProvider.formatConversation Sample.builtins
    [userMessage (Str "compute");
     assistantMessage "" (Some [c1; c2]);
     toolMessage "toolu_1" "add" (Str "four")]
  = [asked; calls;
     Obj [("role", Str "user");
          ("content",
           Arr [Obj [("type", Str "tool_result"); ("tool_use_id", Str "toolu_1");
                     ("content", Str "four")]])]]
  /\ @AnthropicProvider.formatConversation Sample.builtins
       [userMessage (Str "compute");
        assistantMessage "" (Some [c1; c2]);
        toolMessage "toolu_1" "add" (Obj [("content", Arr [])]);
        toolMessage "toolu_2" "mul" (Str "four")]
     = [asked; calls;
        Obj [("role", Str "user");
             ("content",
              Arr [Obj [("type", Str "tool_result");
                        ("tool_use_id", Str "toolu_2");
                        ("content", Str "four")]])]].
Proof.
  destruct (@partial_tool_results_are_sent Sample.builtins
              "compute" "four" "five" "toolu_1" "add" "toolu_2" "mul"
              [("a", Num 2)] [("a", Num 3)]
              eq_refl eq_refl ltac:(discriminate) eq_refl eq_refl eq_refl)
    as (Hfirst & Hempty & _).
  split; [exact Hfirst|exact Hempty].
Defined.

(* ===================================================================== *)
(** * Properties: re-seeding the stateful session                          *)
(* ===================================================================== *)

Section Reseeding.
Import MCPClient.
Context `{Builtins}.

(** The loop of [GoogleProvider.formatConversation] is the concatenation,
    in order, of what each message translates to. *)
Lemma google_format_fold (history : list Message) (acc : list value) :
  fold_left (fun chatHistoryForGoogle message =>
               chatHistoryForGoogle ++ GoogleProvider.format_message message)
    history acc
  = acc ++ flat_map GoogleProvider.format_message history.
Proof.
  revert acc. induction history as [|m rest IH]; intros acc; cbn.
  - rewrite app_nil_r. reflexivity.
  - rewrite IH, <- app_assoc. reflexivity.
Qed.

Lemma google_formatConversation (history : list Message) :
  GoogleProvider.formatConversation history
  = flat_map GoogleProvider.format_message history.
Proof. unfold GoogleProvider.formatConversation. apply google_format_fold. Qed.

(** The instance a client holds is a Google instance whose chat session
    was started from the translation of [history], under the system
    message [system]. *)
Definition seeded_from (history : list Message) (system : string) (st : Client)
  : Prop :=
  exists p,
    currentLlmProviderInstance st = Some p
    /\ kind p = Google
    /\ providerSystemMessage p = system
    /\ chatSession p = Some (flat_map GoogleProvider.format_message history).

Lemma switch_to_google (newModelName : option string) (initialSetup : bool)
    (env : Env) (st : Client) :
  ostr_truthy (env "GOOGLE_GEMINI_API_KEY") = true ->
  let '(ok, st') := setLLMProvider (Some "google") newModelName initialSetup env st in
  ok = true
  /\ conversation st' = conversation st
  /\ systemMessage st' = systemMessage st
  /\ llmProvider st' = Some "google"
  /\ seeded_from (conversation st) (systemMessage st) st'.
Proof.
  intros Hkey. unfold setLLMProvider.
  replace (provider_named (Text.toLowerCase <$> Some "google")) with (Some Google)
    by reflexivity.
  unfold activate.
  destruct (env "GOOGLE_GEMINI_API_KEY") as [key|]; [|discriminate].
  cbn in Hkey. rewrite Hkey.
  destruct initialSetup; cbn;
    (repeat split; try reflexivity);
    eexists; (repeat split; try reflexivity);
    cbn; rewrite google_formatConversation; reflexivity.
Qed.

Lemma format_text_result (id toolName text : string) :
  str_truthy id = true ->
  str_truthy toolName = true ->
  JSON_parse text = None ->
  GoogleProvider.format_message
    (toolMessage id toolName
       (Obj [("content", Arr [Obj [("type", Str "text"); ("text", Str text)]])]))
  = [Obj [("role", Str "function");
          ("parts",
           Arr [Obj [("functionResponse",
                      Obj [("name", Str toolName);
                           ("response",
                            Obj [("mcpToolCallResponseContentSummary",
                                  Str ("Processed " +:+ ToString (Num 1)
                                       +:+ " parts."))])])]])]].
Proof.
  intros Hid Hname Hparse. unfold GoogleProvider.format_message.
  cbn [role name tool_call_id content toolMessage ostr_truthy].
  rewrite Hid, Hname. cbn [andb].
  unfold GoogleProvider.convertToolResult, GoogleProvider.responseData.
  cbn [as_array get assoc String.eqb Ascii.eqb Bool.eqb].
  unfold GoogleProvider.content_response.
  cbn [GoogleProvider.first_parsed field_is get assoc String.eqb Ascii.eqb
       Bool.eqb as_string].
  rewrite Hparse. reflexivity.
Qed.

(** C2. The session of the Google adapter is started from a translation of
    the history that does not keep what a tool answered. A tool message
    whose result is one text part that is not a JSON document, the common
    shape of an MCP result, is translated to a [function] turn whose
    response says only how many parts were processed: the text is in no
    turn of the new session, both when the user switches to the provider
    and when [/setsystem] re-creates the session while it is active. The
    turn is written out member by member. *)
Theorem reseeded_session_loses_tool_text (env : Env) (st : Client)
    (before after : list Message) (id toolName text : string) :
  ostr_truthy (env "GOOGLE_GEMINI_API_KEY") = true ->
  str_truthy id = true ->
  str_truthy toolName = true ->
  JSON_parse text = None ->
  conversation st
  = before
    ++ toolMessage id toolName
         (Obj [("content", Arr [Obj [("type", Str "text"); ("text", Str text)]])])
    :: after ->
  let answered :=
    Obj [("role", Str "function");
         ("parts",
          Arr [Obj [("functionResponse",
                     Obj [("name", Str toolName);
                          ("response",
                           Obj [("mcpToolCallResponseContentSummary",
                                 Str ("Processed " +:+ ToString (Num 1)
                                      +:+ " parts."))])])]])] in
  let session :=
    GoogleProvider.formatConversation before
    ++ answered :: GoogleProvider.formatConversation after in
  (forall newModelName initialSetup,
     let '(ok, st') := setLLMProvider (Some "google") newModelName initialSetup env st in
     ok = true
     /\ conversation st' = conversation st
     /\ (chatSession <$> currentLlmProviderInstance st') = Some (Some session))
  /\ (forall input,
        provider_named (llmProvider st) = Some Google ->
        str_truthy (Text.trim (String.substring 11 (String.length input) input))
        = true ->
        let st' := setsystem_command input env st in
        conversation st' = conversation st
        /\ (chatSession <$> currentLlmProviderInstance st') = Some (Some session)).
Proof.
  intros Hkey Hid Hname Hparse Hconv answered session.
  assert (Hsession : forall system st',
             conversation st = conversation st ->
             seeded_from (conversation st) system st' ->
             (chatSession <$> currentLlmProviderInstance st')
             = Some (Some session)).
  { intros system st' _ (p & Hp & _ & _ & Hchat).
    rewrite Hp. cbn [fmap option_fmap option_map]. rewrite Hchat.
    rewrite Hconv, flat_map_app. cbn [flat_map].
    rewrite (format_text_result id toolName text Hid Hname Hparse).
    unfold session. rewrite !google_formatConversation. reflexivity. }
  split.
  - intros newModelName initialSetup.
    pose proof (switch_to_google newModelName initialSetup env st Hkey) as Hs.
    destruct (setLLMProvider _ _ _ _ _) as [ok st'].
    destruct Hs as (Hok & Hsame & _ & _ & Hseed).
    split; [exact Hok|]. split; [exact Hsame|].
    exact (Hsession _ st' eq_refl Hseed).
  - intros input Hgoogle Htruthy st'.
    subst st'. unfold setsystem_command. rewrite Htruthy.
    cbn [llmProvider emit with_systemMessage]. rewrite Hgoogle.
    match goal with
    | |- context [setLLMProvider (Some "google") ?m true env ?st0] =>
        pose proof (switch_to_google m true env st0 Hkey) as Hs;
        destruct (setLLMProvider (Some "google") m true env st0) as [ok st']
    end.
    destruct Hs as (-> & Hsame & _ & _ & Hseed).
    cbn in Hsame, Hseed. split; [exact Hsame|].
    exact (Hsession _ st' eq_refl Hseed).
Qed.

End Reseeding.

Lemma reseeded_session_loses_tool_text_witness :
  let st :=
    Sample.client None
      [userMessage (Str "How is the weather?");
       assistantMessage "" (Some [mkToolCall "toolu_1" "weather" (Obj [])]);
       toolMessage "toolu_1" "weather"
         (Obj [("content",
                Arr [Obj [("type", Str "text"); ("text", Str "Sunny, 21 C")]])]);
       assistantMessage "It is sunny." None] in
  let after := @MCPClient.setLLMProvider Sample.builtins (Some "google") None false
                 Sample.all_keys st in
  fst after = true
  /\ MCPClient.conversation (snd after) = MCPClient.conversation st
  /\ (chatSession <$> MCPClient.currentLlmProviderInstance (snd after))
     = Some (Some
         [Obj [("role", Str "user");
               ("parts", Arr [Obj [("text", Str "How is the weather?")]])];
          Obj [("role", Str "model");
               ("parts",
                Arr [Obj [("functionCall",
                           Obj [("name", Str "weather"); ("args", Obj [])])]])];
          Obj [("role", Str "function");
               ("parts",
                Arr [Obj [("functionResponse",
                           Obj [("name", Str "weather");
                                ("response",
                                 Obj [("mcpToolCallResponseContentSummary",
                                       Str "Processed <string> parts.")])])]])];
          Obj [("role", Str "model");
               ("parts", Arr [Obj [("text", Str "It is sunny.")]])]]).
Proof.
  intros st after.
  destruct (@reseeded_session_loses_tool_text Sample.builtins
              Sample.all_keys st
              [userMessage (Str "How is the weather?");
               assistantMessage "" (Some [mkToolCall "toolu_1" "weather" (Obj [])])]
              [assistantMessage "It is sunny." None]
              "toolu_1" "weather" "Sunny, 21 C"
              eq_refl eq_refl eq_refl eq_refl eq_refl) as [Hswitch _].
  specialize (Hswitch None false). fold after in Hswitch.
  destruct after as [ok st'].
  destruct Hswitch as (Hok & Hconv & Hsession).
  cbn [fst snd]. split; [exact Hok|]. split; [exact Hconv|].
  rewrite Hsession. reflexivity.
Defined.

(* ===================================================================== *)
(** * Properties: images across adapters                                   *)
(* ===================================================================== *)

(** The shapes in which a tool result carries an image (3): a direct
    [image] property with [base64Data] and [mimeType], or a content list
    whose first image block has [data] and [mimeType]; and the two ways the
    base64 text may be written: raw, or behind a data-URI prefix that ends
    at its first comma. *)
Module ImageShapes.


Fixpoint comma_free (s : string) : bool :=
  match s with
  | EmptyString => true
  | String a s' => (negb (Ascii.eqb a ",") && comma_free s')%bool
  end.


End ImageShapes.

Section Images.
Import MCPClient ImageShapes.
Context `{Builtins}.





End Images.


(* ===================================================================== *)
(** * Properties: the two-step image continuation                          *)
(* ===================================================================== *)

Section TwoStep.
Import MCPClient.
Context `{Builtins}.

(** The world after [handleLLMResponse] took an answer with the text
    [textContent] and no tool call. *)
Definition answered (textContent : string) (w : World) : World :=
  let w := push (assistantMessage textContent None) w in
  if str_truthy textContent then note (ConsoleLog textContent) w else w.

Lemma handle_plain_answer (fuel : nat) (response : LlmResponse) (w : World)
    (p : BaseProvider) (k : ProviderKind) (textContent : string) :
  provider_named (llmProvider (client w)) = Some k ->
  currentLlmProviderInstance (client w) = Some p ->
  extract_of p (now w) (Some response) = Returned (textContent, None) ->
  handleLLMResponse (S fuel) (Some response) w = Done (answered textContent w).
Proof.
  intros Hk Hp Hextract. cbn [handleLLMResponse]. unfold handle_with, known_provider.
  rewrite Hk, Hp. destruct k; rewrite Hextract; reflexivity.
Qed.

Lemma answered_fields (textContent : string) (w : World) :
  client (answered textContent w)
  = (if str_truthy textContent then emit (ConsoleLog textContent) else id)
      (with_conversation
         (conversation (client w) ++ [assistantMessage textContent None])
         (client w))
  /\ trace (answered textContent w)
     = trace w ++ [Appended (assistantMessage textContent None)]
  /\ llm (answered textContent w) = llm w
  /\ now (answered textContent w) = now w
  /\ env (answered textContent w) = env w.
Proof. unfold answered. destruct (str_truthy textContent); repeat split. Qed.

Lemma trim_fields (st : Client) :
  llmProvider (_trimConversationHistory st) = llmProvider st
  /\ currentLlmProviderInstance (_trimConversationHistory st)
     = currentLlmProviderInstance st
  /\ maxConversationHistoryLength (_trimConversationHistory st)
     = maxConversationHistoryLength st.
Proof.
  unfold _trimConversationHistory.
  destruct (maxConversationHistoryLength st) as [n|] eqn:E; [|repeat split; exact E].
  destruct (_ && _)%bool; repeat split; exact E.
Qed.

Lemma sendMessage_next (p : BaseProvider) (request : list value) (w : World)
    (response : LlmResponse) (rest : list (outcome LlmResponse)) :
  llm w = Returned response :: rest ->
  kind p = OpenAI \/ (kind p = Google /\ is_Some (chatSession p)) ->
  sendMessage p request w
  = (Returned response,
     mkWorld (client w) (env w) rest (callTool w) (now w)
       (trace w ++ [Sent request])).
Proof.
  intros Hllm Hkind. unfold sendMessage.
  destruct Hkind as [->|[-> [session ->]]]; cbn; rewrite Hllm; reflexivity.
Qed.

(** The Google branch, for a tool result in which the adapter finds an
    image, and two answers of the model without tool calls. *)
Lemma google_two_steps (fuel : nat) (w : World) (p : BaseProvider)
    (before : list Message) (lastMessage : Message)
    (base64ImageData : string) (mimeType : value)
    (ack final : GoogleProvider.Response) (rest : list (outcome LlmResponse)) :
  provider_named (llmProvider (client w)) = Some Google ->
  currentLlmProviderInstance (client w) = Some p ->
  kind p = Google ->
  is_Some (chatSession p) ->
  conversation (client w) = before ++ [lastMessage] ->
  role lastMessage = tool ->
  ToolResultText.found_image
    (GoogleProvider.extractImageFromToolResult (content lastMessage))
  = Some (base64ImageData, mimeType) ->
  llm w = Returned (FromGoogle ack) :: Returned (FromGoogle final) :: rest ->
  GoogleProvider.extractToolCalls (now w) ack = None ->
  GoogleProvider.extractToolCalls (now w) final = None ->
  let ackMessage := assistantMessage (GoogleProvider.extractTextContent ack) None in
  let finalMessage :=
    assistantMessage (GoogleProvider.extractTextContent final) None in
  exists w',
    continueConversation (S fuel) w = Done w'
    /\ trace w'
       = trace w
         ++ [Sent [GoogleProvider.convertToolResult (content lastMessage)
                     (name lastMessage)];
             Appended ackMessage;
             Sent [GoogleProvider.inline_data mimeType (Str base64ImageData);
                   GoogleProvider.text
                     (GoogleProvider.textForImagePrompt (name lastMessage)
                        (conversation (client w) ++ [ackMessage]))];
             Appended finalMessage]
    /\ conversation (client w')
       = conversation (client w) ++ [ackMessage; finalMessage].
Proof.
  intros Hname Hp Hkind Hsession Hconv Hrole Himage Hllm Hack Hfinal
    ackMessage finalMessage.
  unfold continueConversation, continue_with, continue_body.
  rewrite Hname. unfold ensure_instance. rewrite Hp.
  unfold google_steps. rewrite Hconv, last_snoc, Hrole.
  rewrite (sendMessage_next p _ w _ _ Hllm) by (right; split; assumption).
  assert (Hextract : forall r clock,
             GoogleProvider.extractToolCalls clock r = None ->
             extract_of p clock (Some (FromGoogle r))
             = Returned (GoogleProvider.extractTextContent r, None)).
  { intros r clock Hnone. unfold extract_of. rewrite Hkind, Hnone. reflexivity. }
  set (w0 := mkWorld (client w) (env w) (Returned (FromGoogle final) :: rest)
               (callTool w) (now w)
               (trace w ++ [Sent [convertToolResult_of p (content lastMessage)
                                    (name lastMessage)]])).
  rewrite (handle_plain_answer fuel (FromGoogle ack) w0 p Google _ Hname Hp
             (Hextract _ _ Hack)).
  fold ackMessage.
  destruct (answered_fields (GoogleProvider.extractTextContent ack) w0)
    as (Hclient1 & Htrace1 & Hllm1 & Hnow1 & _).
  set (w1 := answered _ w0) in *.
  cbn in Hclient1, Htrace1, Hllm1, Hnow1.
  assert (Hconv1 : conversation (client w1) = conversation (client w) ++ [ackMessage]).
  { rewrite Hclient1. destruct (str_truthy _); reflexivity. }
  assert (Hname1 : provider_named (llmProvider (client w1)) = Some Google).
  { rewrite Hclient1. destruct (str_truthy _); exact Hname. }
  assert (Hp1 : currentLlmProviderInstance (client w1) = Some p).
  { rewrite Hclient1. destruct (str_truthy _); exact Hp. }
  unfold extractImageFromToolResult_of, prepareImageMessageParts_of,
    convertToolResult_of.
  rewrite Hkind.
  destruct (GoogleProvider.extractImageFromToolResult (content lastMessage))
    as [data mime] eqn:Hfound.
  rewrite Himage. cbn [fst snd].
  assert (data = Some base64ImageData /\ mime = Some mimeType) as [-> ->].
  { revert Himage. unfold ToolResultText.found_image.
    destruct data as [d|], mime as [m|]; try discriminate.
    destruct (_ && _)%bool; [|discriminate]. intros [= -> ->]. split; reflexivity. }
  unfold GoogleProvider.prepareImageMessageParts. rewrite Himage.
  rewrite (sendMessage_next p _ w1 _ _ Hllm1) by (right; split; assumption).
  rewrite Hnow1 in *.
  match goal with
  | |- context [handleLLMResponse (S fuel) (Some ?r) ?wx] =>
      rewrite (handle_plain_answer fuel r wx p Google _ Hname1 Hp1
                 (Hextract _ _ Hfinal))
  end.
  fold finalMessage. eexists. split; [reflexivity|].
  match goal with
  | |- context [answered ?t ?w0] =>
      destruct (answered_fields t w0) as (Hclient2 & Htrace2 & _)
  end.
  unfold convertToolResult_of in Htrace1. rewrite Hkind in Htrace1.
  rewrite Htrace2, Hclient2. cbn [trace client]. rewrite Htrace1, Hconv1, Hconv.
  split.
  - rewrite <- !app_assoc. reflexivity.
  - destruct (str_truthy (GoogleProvider.extractTextContent final)); cbn;
      rewrite <- ?app_assoc; reflexivity.
Qed.

Lemma at_index_before_last (before : list Message) (x y : Message) :
  at_index (before ++ [x; y]) (Z.of_nat (length (before ++ [x; y])) - 2) = Some x.
Proof.
  unfold at_index. rewrite length_app. cbn [length].
  replace (Z.of_nat (length before + 2) - 2) with (Z.of_nat (length before)) by lia.
  assert ((Z.of_nat (length before) <? 0) = false) as -> by (apply Z.ltb_ge; lia).
  rewrite Nat2Z.id. apply list_lookup_middle. reflexivity.
Qed.

(** The OpenAI branch, for a tool result in which the adapter finds an
    image, an acknowledgement without [tool_calls] and a final answer
    without tool calls. *)
Lemma openai_two_steps (fuel : nat) (w : World) (p : BaseProvider)
    (before : list Message) (lastToolMessage : Message)
    (base64ImageData : string) (mimeType : value)
    (ack final : ChatCompletion.Response) (ackChoice : ChatMessage)
    (rest : list (outcome LlmResponse)) :
  provider_named (llmProvider (client w)) = Some OpenAI ->
  currentLlmProviderInstance (client w) = Some p ->
  kind p = OpenAI ->
  let st1 := _trimConversationHistory (client w) in
  conversation st1 = before ++ [lastToolMessage] ->
  role lastToolMessage = tool ->
  ToolResultText.found_image
    (OpenAIProvider.extractImageFromToolResult (content lastToolMessage))
  = Some (base64ImageData, mimeType) ->
  llm w = Returned (FromChat ack) :: Returned (FromChat final) :: rest ->
  first_message ack = Some ackChoice ->
  msg_tool_calls ackChoice = None ->
  OpenAIProvider.extractToolCalls final = None ->
  let ackMessage := assistantMessage (OpenAIProvider.extractTextContent ack) None in
  let imageMessage :=
    userMessage
      (Arr (OpenAIProvider.prepareImageMessageContent base64ImageData mimeType
              (imagePrompt (name lastToolMessage)
                 (originalUserQuery (conversation st1 ++ [ackMessage])
                    (Z.of_nat (length before) - 2))))) in
  let finalMessage :=
    assistantMessage (OpenAIProvider.extractTextContent final) None in
  exists w' st2,
    continueConversation (S fuel) w = Done w'
    /\ maxConversationHistoryLength st2 = maxConversationHistoryLength (client w)
    /\ conversation st2 = conversation st1 ++ [ackMessage; imageMessage]
    /\ trace w'
       = trace w
         ++ [Sent (OpenAIProvider.formatConversation p (conversation st1));
             Appended ackMessage;
             Appended imageMessage;
             Sent (OpenAIProvider.formatConversation p
                     (conversation (_trimConversationHistory st2)));
             Appended finalMessage]
    /\ conversation (client w')
       = conversation (_trimConversationHistory st2) ++ [finalMessage].
Proof.
  intros Hname Hp Hkind st1 Hconv Hrole Himage Hllm Hchoice Hnocalls Hfinal
    ackMessage imageMessage finalMessage.
  destruct (trim_fields (client w)) as (Hname_t & Hp_t & _).
  fold st1 in Hname_t, Hp_t. rewrite <- Hname_t in Hname. rewrite <- Hp_t in Hp.
  assert (Hextract : forall r clock calls,
             OpenAIProvider.extractToolCalls r = calls ->
             extract_of p clock (Some (FromChat r))
             = Returned (OpenAIProvider.extractTextContent r, calls)).
  { intros r clock calls <-. unfold extract_of. rewrite Hkind. reflexivity. }
  assert (Hack : OpenAIProvider.extractToolCalls ack = None).
  { unfold OpenAIProvider.extractToolCalls. rewrite Hchoice, Hnocalls. reflexivity. }
  unfold continueConversation, continue_with, continue_body.
  rewrite <- Hname_t, Hname. unfold stateless_steps, ensure_instance.
  rewrite <- Hp_t, Hp. unfold request. fold st1.
  set (wt := with_client st1 w).
  rewrite (sendMessage_next p _ wt _ _ Hllm) by (left; exact Hkind).
  unfold formatConversation_of at 1. rewrite Hkind. cbn [client with_client wt].
  match goal with
  | |- context [handleLLMResponse (S fuel) (Some ?r) ?wx] =>
      set (w0 := wx);
      rewrite (handle_plain_answer fuel r w0 p OpenAI _ Hname Hp
                 (Hextract _ _ _ Hack))
  end.
  fold ackMessage.
  destruct (answered_fields (OpenAIProvider.extractTextContent ack) w0)
    as (Hclient1 & Htrace1 & Hllm1 & _ & _).
  set (w1 := answered _ w0) in *.
  cbn in Hclient1, Htrace1, Hllm1. fold ackMessage in Hclient1, Htrace1.
  assert (Hconv1 : conversation (client w1) = before ++ [lastToolMessage; ackMessage]).
  { rewrite Hclient1. destruct (str_truthy _); cbn; rewrite Hconv, <- app_assoc;
      reflexivity. }
  assert (Hname1 : provider_named (llmProvider (client w1)) = Some OpenAI).
  { rewrite Hclient1. destruct (str_truthy _); exact Hname. }
  assert (Hp1 : currentLlmProviderInstance (client w1) = Some p).
  { rewrite Hclient1. destruct (str_truthy _); exact Hp. }
  assert (Hmax1 : maxConversationHistoryLength (client w1)
                  = maxConversationHistoryLength (client w)).
  { rewrite Hclient1. destruct (trim_fields (client w)) as (_ & _ & Hm).
    destruct (str_truthy _); exact Hm. }
  unfold openai_image_step.
  assert (tool_message_offset (FromChat ack) = 2) as ->.
  { cbn. rewrite Hchoice, Hnocalls. reflexivity. }
  rewrite Hconv1, at_index_before_last, Hrole, Hp1.
  unfold extractImageFromToolResult_of, prepareImageMessageContent_of.
  rewrite Hkind, Himage.
  replace (Z.of_nat (length (before ++ [lastToolMessage; ackMessage])) - 2 - 2)
    with (Z.of_nat (length before) - 2)
    by (rewrite length_app; cbn [length]; lia).
  replace (before ++ [lastToolMessage; ackMessage])
    with (conversation st1 ++ [ackMessage])
    by (rewrite Hconv, <- app_assoc; reflexivity).
  fold imageMessage.
  set (w2 := push imageMessage w1).
  assert (Hclient2 : client w2
                     = with_conversation
                         (conversation (client w1) ++ [imageMessage]) (client w1))
    by reflexivity.
  assert (Hp2 : currentLlmProviderInstance (client w2) = Some p)
    by (rewrite Hclient2; exact Hp1).
  rewrite Hp2. unfold request.
  destruct (trim_fields (client w2)) as (Hname_t2 & Hp_t2 & _).
  set (st2t := _trimConversationHistory (client w2)) in *.
  set (w2t := with_client st2t w2).
  assert (Hllm2 : llm w2t = Returned (FromChat final) :: rest) by exact Hllm1.
  rewrite (sendMessage_next p _ w2t _ _ Hllm2) by (left; exact Hkind).
  unfold formatConversation_of. rewrite Hkind. cbn [client with_client w2t].
  match goal with
  | |- context [handleLLMResponse (S fuel) (Some ?r) ?wx] =>
      set (w3 := wx);
      assert (Hname3 : provider_named (llmProvider (client w3)) = Some OpenAI)
        by (cbn [client w3]; rewrite Hname_t2, Hclient2; exact Hname1);
      assert (Hp3 : currentLlmProviderInstance (client w3) = Some p)
        by (cbn [client w3]; rewrite Hp_t2; exact Hp2);
      rewrite (handle_plain_answer fuel r w3 p OpenAI _ Hname3 Hp3
                 (Hextract _ _ _ Hfinal))
  end.
  fold finalMessage.
  destruct (answered_fields (OpenAIProvider.extractTextContent final) w3)
    as (Hclient4 & Htrace4 & _).
  exists (answered (OpenAIProvider.extractTextContent final) w3), (client w2).
  split; [reflexivity|].
  split; [rewrite Hclient2; exact Hmax1|].
  split.
  { rewrite Hclient2. cbn [conversation with_conversation].
    rewrite Hconv1, Hconv, <- !app_assoc. reflexivity. }
  rewrite Htrace4, Hclient4. fold finalMessage st2t. cbn [trace client w3 w2t w2 push
    record with_client]. rewrite Htrace1. cbn [trace w0 wt with_client].
  split.
  - rewrite <- !app_assoc. reflexivity.
  - destruct (str_truthy (OpenAIProvider.extractTextContent final)); reflexivity.
Qed.

(** A result in which the OpenAI adapter finds an image has the
    [hasImage] flag of [_convertToolResultForOpenAI]. *)
Lemma found_image_hasImage (toolResult : value) (base64ImageData : string)
    (mimeType : value) :
  ToolResultText.found_image
    (OpenAIProvider.extractImageFromToolResult toolResult)
  = Some (base64ImageData, mimeType) ->
  ToolResultText.hasImage toolResult = true.
Proof.
  unfold OpenAIProvider.extractImageFromToolResult, ToolResultText.find_image,
    ToolResultText.hasImage.
  destruct (truthy toolResult && is_object toolResult)%bool; [|discriminate].
  destruct (ToolResultText.has_direct_image toolResult); [reflexivity|].
  destruct (as_array (get "content" toolResult)) as [parts|]; [|discriminate].
  destruct (find ToolResultText.is_image_part parts) as [part|] eqn:E;
    [|discriminate].
  intros _. apply existsb_exists. exists part. apply find_some in E. exact E.
Qed.

(** The two turns the [tool] branch of [formatConversation] pushes for
    such a result. *)
Lemma tool_turns_with_image (p : BaseProvider) (lastToolMessage : Message)
    (id base64ImageData mime : string) :
  tool_call_id lastToolMessage = Some id ->
  ToolResultText.found_image
    (OpenAIProvider.extractImageFromToolResult (content lastToolMessage))
  = Some (base64ImageData, Str mime) ->
  OpenAIProvider.tool_turns p lastToolMessage
  = [Obj [("role", Str "tool");
          ("tool_call_id", Str id);
          ("content",
           Str "Tool execution was successful. Output includes image data, which will be processed separately if applicable by the client.")];
     Obj [("role", Str "user");
          ("content",
           Arr [Obj [("type", Str "text");
                     ("text", Str (OpenAIProvider.image_prompt p lastToolMessage))];
                Obj [("type", Str "image_url");
                     ("image_url",
                      Obj [("url",
                            Str ("data:" +:+ mime +:+ ";base64,"
                                 +:+ base64ImageData))])]])]].
Proof.
  intros Hid Himage. unfold OpenAIProvider.tool_turns.
  rewrite Hid, Himage. unfold OpenAIProvider._convertToolResultForOpenAI.
  rewrite (found_image_hasImage _ _ _ Himage). reflexivity.
Qed.

Lemma format_last_tool (p : BaseProvider) (before : list Message)
    (lastToolMessage : Message) :
  role lastToolMessage = tool ->
  OpenAIProvider.formatConversation p (before ++ [lastToolMessage])
  = OpenAIProvider.formatConversation p before
    ++ OpenAIProvider.tool_turns p lastToolMessage.
Proof.
  intros Hrole. unfold OpenAIProvider.formatConversation.
  rewrite flat_map_app. cbn [flat_map].
  unfold OpenAIProvider.format_message at 2. rewrite Hrole, app_nil_r, app_assoc.
  f_equal. f_equal. destruct before; [cbn; rewrite Hrole|]; reflexivity.
Qed.

(** A request of the OpenAI branch when no bound is configured. *)
Lemma request_unbounded (p : BaseProvider) (w : World) (response : LlmResponse)
    (rest : list (outcome LlmResponse)) :
  kind p = OpenAI ->
  maxConversationHistoryLength (client w) = None ->
  llm w = Returned response :: rest ->
  request p w
  = (Returned response,
     mkWorld (client w) (env w) rest (callTool w) (now w)
       (trace w
        ++ [Sent (OpenAIProvider.formatConversation p (conversation (client w)))])).
Proof.
  intros Hkind Hmax Hllm. unfold request. rewrite (trim_unbounded _ Hmax).
  replace (with_client (client w) w) with w by (destruct w; reflexivity).
  rewrite (sendMessage_next p _ w _ _ Hllm) by (left; exact Hkind).
  unfold formatConversation_of. rewrite Hkind. reflexivity.
Qed.

Lemma at_index_from_end (history : list Message) (x : Message)
    (later : list Message) (offset : Z) :
  offset = Z.of_nat (S (length later)) ->
  at_index (history ++ x :: later)
    (Z.of_nat (length (history ++ x :: later)) - offset)
  = Some x.
Proof.
  intros ->. unfold at_index. rewrite length_app. cbn [length].
  replace (Z.of_nat (length history + S (length later)) - Z.of_nat (S (length later)))
    with (Z.of_nat (length history)) by lia.
  assert ((Z.of_nat (length history) <? 0) = false) as -> by (apply Z.ltb_ge; lia).
  rewrite Nat2Z.id. apply list_lookup_middle. reflexivity.
Qed.

Lemma tool_message_offset_range (response : LlmResponse) :
  tool_message_offset response = 2 \/ tool_message_offset response = 3.
Proof.
  destruct response as [r|r|r]; cbn; auto.
  destruct (first_message r) as [message|]; auto.
  destruct (msg_tool_calls message); auto.
Qed.

(** The world after a request with the whole history was sent and its
    answer, which carries the text [textContent] and no tool call, was
    handled. *)
Definition sent_and_answered (p : BaseProvider) (textContent : string)
    (rest : list (outcome LlmResponse)) (w : World) : World :=
  answered textContent
    (mkWorld (client w) (env w) rest (callTool w) (now w)
       (trace w
        ++ [Sent (OpenAIProvider.formatConversation p (conversation (client w)))])).

(** [continueConversation] of the OpenAI branch after the result of a tool
    call that holds no image: one request, one answer, and no image step. *)
Lemma continue_after_plain_result (fuel : nat) (w : World) (p : BaseProvider)
    (sooner : list Message) (callMessage resultMessage : Message)
    (final : ChatCompletion.Response) (rest : list (outcome LlmResponse)) :
  provider_named (llmProvider (client w)) = Some OpenAI ->
  currentLlmProviderInstance (client w) = Some p ->
  kind p = OpenAI ->
  maxConversationHistoryLength (client w) = None ->
  conversation (client w) = sooner ++ [callMessage; resultMessage] ->
  role callMessage = assistant ->
  role resultMessage = tool ->
  ToolResultText.found_image
    (OpenAIProvider.extractImageFromToolResult (content resultMessage)) = None ->
  llm w = Returned (FromChat final) :: rest ->
  OpenAIProvider.extractToolCalls final = None ->
  continue_with (handleLLMResponse (S fuel)) w
  = Done (sent_and_answered p (OpenAIProvider.extractTextContent final) rest w).
Proof.
  intros Hname Hp Hkind Hmax Hconv Hcall Hresult Hnone Hllm Hfinal.
  unfold continue_with, continue_body. rewrite Hname.
  unfold stateless_steps, ensure_instance. rewrite Hp.
  rewrite (request_unbounded p w _ _ Hkind Hmax Hllm).
  match goal with
  | |- context [handleLLMResponse (S fuel) (Some ?r) ?wx] =>
      set (w0 := wx);
      rewrite (handle_plain_answer fuel r w0 p OpenAI
                 (OpenAIProvider.extractTextContent final) Hname Hp)
  end.
  2:{ unfold extract_of. rewrite Hkind, Hfinal. reflexivity. }
  destruct (answered_fields (OpenAIProvider.extractTextContent final) w0)
    as (Hclient1 & _).
  set (w1 := answered _ w0) in *.
  set (finalMessage := assistantMessage (OpenAIProvider.extractTextContent final) None)
    in *.
  assert (Hconv1 : conversation (client w1)
                   = sooner ++ [callMessage; resultMessage; finalMessage]).
  { rewrite Hclient1. destruct (str_truthy _); cbn; rewrite Hconv, <- app_assoc;
      reflexivity. }
  assert (Hp1 : currentLlmProviderInstance (client w1) = Some p).
  { rewrite Hclient1. destruct (str_truthy _); exact Hp. }
  unfold openai_image_step. rewrite Hconv1.
  destruct (tool_message_offset_range (FromChat final)) as [-> | ->].
  - replace (sooner ++ [callMessage; resultMessage; finalMessage])
      with ((sooner ++ [callMessage]) ++ resultMessage :: [finalMessage])
      by (rewrite <- app_assoc; reflexivity).
    rewrite (at_index_from_end (sooner ++ [callMessage]) resultMessage
               [finalMessage] 2 eq_refl).
    rewrite Hresult, Hp1. unfold extractImageFromToolResult_of.
    rewrite Hkind, Hnone. reflexivity.
  - rewrite (at_index_from_end sooner callMessage [resultMessage; finalMessage]
               3 eq_refl).
    rewrite Hcall. reflexivity.
Qed.

(** [handleLLMResponse] up to its loop over the tool calls. *)
Lemma handle_of_provider (continue : World -> result) (response : LlmResponse)
    (w : World) (p : BaseProvider) (k : ProviderKind) (textContent : string)
    (toolCalls : option (list ToolCall)) :
  provider_named (llmProvider (client w)) = Some k ->
  currentLlmProviderInstance (client w) = Some p ->
  extract_of p (now w) (Some response) = Returned (textContent, toolCalls) ->
  handle_with continue (Some response) w
  = run_tools continue (default [] toolCalls)
      (let w := push (assistantMessage textContent toolCalls) w in
       if str_truthy textContent then note (ConsoleLog textContent) w else w).
Proof.
  intros Hk Hp Hextract. unfold handle_with, known_provider.
  rewrite Hk, Hp. destruct k; rewrite Hextract; reflexivity.
Qed.

(** The OpenAI branch when the acknowledgement carries [tool_calls]: the
    call is run and answered inside [handleLLMResponse], and the index
    [length - 3] then points at the acknowledgement itself, so the client
    pushes no image message. *)
Lemma openai_second_call (fuel : nat) (w : World) (p : BaseProvider)
    (before : list Message) (lastToolMessage : Message)
    (ack final : ChatCompletion.Response) (ackChoice : ChatMessage)
    (raw : list RawToolCall) (toolCall : ToolCall) (toolResult : value)
    (rest : list (outcome LlmResponse)) :
  provider_named (llmProvider (client w)) = Some OpenAI ->
  currentLlmProviderInstance (client w) = Some p ->
  kind p = OpenAI ->
  maxConversationHistoryLength (client w) = None ->
  conversation (client w) = before ++ [lastToolMessage] ->
  llm w = Returned (FromChat ack) :: Returned (FromChat final) :: rest ->
  first_message ack = Some ackChoice ->
  msg_tool_calls ackChoice = Some raw ->
  OpenAIProvider.extractToolCalls ack = Some [toolCall] ->
  callTool w (tc_name toolCall) (tc_args toolCall) = Returned toolResult ->
  ToolResultText.found_image
    (OpenAIProvider.extractImageFromToolResult toolResult) = None ->
  _extractImageFromMcpToolResult toolResult = None ->
  OpenAIProvider.extractToolCalls final = None ->
  let ackMessage :=
    assistantMessage (OpenAIProvider.extractTextContent ack) (Some [toolCall]) in
  let resultMessage :=
    toolMessage (tc_id toolCall) (tc_name toolCall) toolResult in
  let finalMessage :=
    assistantMessage (OpenAIProvider.extractTextContent final) None in
  exists w',
    continueConversation (S (S fuel)) w = Done w'
    /\ trace w'
       = trace w
         ++ [Sent (OpenAIProvider.formatConversation p
                     (before ++ [lastToolMessage]));
             Appended ackMessage;
             Appended resultMessage;
             Sent (OpenAIProvider.formatConversation p
                     (before ++ [lastToolMessage; ackMessage; resultMessage]));
             Appended finalMessage]
    /\ conversation (client w')
       = before ++ [lastToolMessage; ackMessage; resultMessage; finalMessage].
Proof.
  intros Hname Hp Hkind Hmax Hconv Hllm Hchoice Hcalls Hack Hcall Hnone Hplain
    Hfinal ackMessage resultMessage finalMessage.
  unfold continueConversation, continue_with, continue_body. rewrite Hname.
  unfold stateless_steps, ensure_instance. rewrite Hp.
  rewrite (request_unbounded p w _ _ Hkind Hmax Hllm).
  set (w0 := mkWorld _ _ _ _ _ _).
  change (handleLLMResponse (S (S fuel)) (Some (FromChat ack)) w0)
    with (handle_with (continue_with (handleLLMResponse (S fuel)))
            (Some (FromChat ack)) w0).
  rewrite (handle_of_provider _ (FromChat ack) w0 p OpenAI
             (OpenAIProvider.extractTextContent ack) (Some [toolCall]) Hname Hp)
    by (unfold extract_of; rewrite Hkind, Hack; reflexivity).
  cbv zeta. fold ackMessage. cbn [default]. unfold id. cbn [run_tools].
  set (w1 := if str_truthy (OpenAIProvider.extractTextContent ack)
             then note (ConsoleLog (OpenAIProvider.extractTextContent ack))
                    (push ackMessage w0)
             else push ackMessage w0).
  assert (Hfields1 :
            conversation (client w1) = before ++ [lastToolMessage; ackMessage]
            /\ provider_named (llmProvider (client w1)) = Some OpenAI
            /\ currentLlmProviderInstance (client w1) = Some p
            /\ maxConversationHistoryLength (client w1) = None
            /\ llm w1 = Returned (FromChat final) :: rest
            /\ callTool w1 = callTool w
            /\ trace w1
               = trace w
                 ++ [Sent (OpenAIProvider.formatConversation p
                             (before ++ [lastToolMessage]));
                     Appended ackMessage]).
  { subst w1. destruct (str_truthy _); cbn; rewrite Hconv, <- !app_assoc;
      repeat split; assumption. }
  destruct Hfields1 as (Hconv1 & Hname1 & Hp1 & Hmax1 & Hllm1 & Htool1 & Htrace1).
  unfold run_tool. rewrite Htool1, Hcall. fold resultMessage.
  set (w2 := push resultMessage w1).
  assert (Hconv2 : conversation (client w2)
                   = (before ++ [lastToolMessage]) ++ [ackMessage; resultMessage]).
  { cbn. rewrite Hconv1, <- !app_assoc. reflexivity. }
  rewrite (continue_after_plain_result fuel w2 p (before ++ [lastToolMessage])
             ackMessage resultMessage final rest Hname1 Hp1 Hkind Hmax1 Hconv2
             eq_refl eq_refl Hnone Hllm1 Hfinal).
  unfold augment. rewrite Hplain.
  replace (if truthy toolResult then _ else _)
    with (sent_and_answered p (OpenAIProvider.extractTextContent final) rest w2)
    by (destruct (truthy toolResult); reflexivity).
  set (w3 := sent_and_answered _ _ _ _).
  destruct (answered_fields (OpenAIProvider.extractTextContent final)
              (mkWorld (client w2) (env w2) rest (callTool w2) (now w2)
                 (trace w2
                  ++ [Sent (OpenAIProvider.formatConversation p
                              (conversation (client w2)))])))
    as (Hclient3 & Htrace3 & _).
  fold (sent_and_answered p (OpenAIProvider.extractTextContent final) rest w2)
    in Hclient3, Htrace3.
  fold w3 finalMessage in Hclient3, Htrace3.
  assert (Hconv3 : conversation (client w3)
                   = before
                     ++ [lastToolMessage; ackMessage; resultMessage; finalMessage]).
  { rewrite Hclient3.
    destruct (str_truthy (OpenAIProvider.extractTextContent final));
      cbn [conversation client emit with_conversation id];
      rewrite Hconv2, <- !app_assoc; reflexivity. }
  unfold openai_image_step. rewrite Hconv3.
  assert (tool_message_offset (FromChat ack) = 3) as ->.
  { cbn. rewrite Hchoice, Hcalls. reflexivity. }
  replace (before ++ [lastToolMessage; ackMessage; resultMessage; finalMessage])
    with ((before ++ [lastToolMessage])
          ++ ackMessage :: [resultMessage; finalMessage])
    by (rewrite <- app_assoc; reflexivity).
  rewrite (at_index_from_end (before ++ [lastToolMessage]) ackMessage
             [resultMessage; finalMessage] 3 eq_refl).
  cbn [role ackMessage assistantMessage].
  exists w3. split; [reflexivity|]. split.
  - rewrite Htrace3. cbn [trace client w2 push record with_client].
    rewrite Htrace1, Hconv1, <- !app_assoc. reflexivity.
  - rewrite Hconv3, <- app_assoc. reflexivity.
Qed.

(** C4. The OpenAI branch does not keep the order of the two steps. The
    history ends with a tool result in which the adapter finds an image,
    and no bound on the history is configured.

    [formatConversation] puts a user turn with the image directly after the
    tool turn whose text announces that the image will be processed
    separately, so the first request already carries the image: it is sent
    before any acknowledgement exists, in the same request as the tool
    result.

    When the acknowledgement has no [tool_calls], the client then pushes
    its own image message and sends the image a second time.

    When the acknowledgement carries a tool call, the call is answered
    inside [handleLLMResponse], the index [length - 3] points at the
    acknowledgement instead of the tool result, and the client pushes no
    image message at all. *)
Theorem image_turn_is_sent_with_tool_result (fuel : nat) (w : World)
    (p : BaseProvider) (before : list Message) (lastToolMessage : Message)
    (id base64ImageData mime : string) (rest : list (outcome LlmResponse)) :
  provider_named (llmProvider (client w)) = Some OpenAI ->
  currentLlmProviderInstance (client w) = Some p ->
  kind p = OpenAI ->
  maxConversationHistoryLength (client w) = None ->
  conversation (client w) = before ++ [lastToolMessage] ->
  role lastToolMessage = tool ->
  tool_call_id lastToolMessage = Some id ->
  ToolResultText.found_image
    (OpenAIProvider.extractImageFromToolResult (content lastToolMessage))
  = Some (base64ImageData, Str mime) ->
  let imagePart :=
    Obj [("type", Str "image_url");
         ("image_url",
          Obj [("url", Str ("data:" +:+ mime +:+ ";base64," +:+ base64ImageData))])] in
  let request1 :=
    OpenAIProvider.formatConversation p before
    ++ [Obj [("role", Str "tool");
             ("tool_call_id", Str id);
             ("content",
              Str "Tool execution was successful. Output includes image data, which will be processed separately if applicable by the client.")];
        Obj [("role", Str "user");
             ("content",
              Arr [Obj [("type", Str "text");
                        ("text",
                         Str (OpenAIProvider.image_prompt p lastToolMessage))];
                   imagePart])]] in
  (forall (ack final : ChatCompletion.Response) (ackChoice : ChatMessage),
     llm w = Returned (FromChat ack) :: Returned (FromChat final) :: rest ->
     first_message ack = Some ackChoice ->
     msg_tool_calls ackChoice = None ->
     OpenAIProvider.extractToolCalls final = None ->
     let ackMessage :=
       assistantMessage (OpenAIProvider.extractTextContent ack) None in
     let imageMessage :=
       userMessage
         (Arr [Obj [("type", Str "text");
                    ("text",
                     Str (imagePrompt (name lastToolMessage)
                            (originalUserQuery
                               (before ++ [lastToolMessage; ackMessage])
                               (Z.of_nat (length before) - 2))))];
               imagePart]) in
     let finalMessage :=
       assistantMessage (OpenAIProvider.extractTextContent final) None in
     exists w',
       continueConversation (S fuel) w = Done w'
       /\ trace w'
          = trace w
            ++ [Sent request1;
                Appended ackMessage;
                Appended imageMessage;
                Sent (OpenAIProvider.formatConversation p
                        (before ++ [lastToolMessage; ackMessage; imageMessage]));
                Appended finalMessage]
       /\ conversation (client w')
          = before ++ [lastToolMessage; ackMessage; imageMessage; finalMessage])
  /\ (forall (ack final : ChatCompletion.Response) (ackChoice : ChatMessage)
        (raw : list RawToolCall) (toolCall : ToolCall) (toolResult : value),
     llm w = Returned (FromChat ack) :: Returned (FromChat final) :: rest ->
     first_message ack = Some ackChoice ->
     msg_tool_calls ackChoice = Some raw ->
     OpenAIProvider.extractToolCalls ack = Some [toolCall] ->
     callTool w (tc_name toolCall) (tc_args toolCall) = Returned toolResult ->
     ToolResultText.found_image
       (OpenAIProvider.extractImageFromToolResult toolResult) = None ->
     _extractImageFromMcpToolResult toolResult = None ->
     OpenAIProvider.extractToolCalls final = None ->
     let ackMessage :=
       assistantMessage (OpenAIProvider.extractTextContent ack)
         (Some [toolCall]) in
     let resultMessage :=
       toolMessage (tc_id toolCall) (tc_name toolCall) toolResult in
     let finalMessage :=
       assistantMessage (OpenAIProvider.extractTextContent final) None in
     exists w',
       continueConversation (S (S fuel)) w = Done w'
       /\ trace w'
          = trace w
            ++ [Sent request1;
                Appended ackMessage;
                Appended resultMessage;
                Sent (OpenAIProvider.formatConversation p
                        (before ++ [lastToolMessage; ackMessage; resultMessage]));
                Appended finalMessage]
       /\ conversation (client w')
          = before
            ++ [lastToolMessage; ackMessage; resultMessage; finalMessage]).
Proof.
  intros Hname Hp Hkind Hmax Hconv Hrole Hid Himage imagePart request1.
  assert (Hrequest1 : OpenAIProvider.formatConversation p
                        (before ++ [lastToolMessage]) = request1).
  { rewrite (format_last_tool p before lastToolMessage Hrole).
    rewrite (tool_turns_with_image p lastToolMessage id base64ImageData mime
               Hid Himage).
    reflexivity. }
  split.
  - intros ack final ackChoice Hllm Hchoice Hnocalls Hfinal
      ackMessage imageMessage finalMessage.
    pose proof (trim_unbounded _ Hmax) as Htrim.
    destruct (openai_two_steps fuel w p before lastToolMessage base64ImageData
                (Str mime) ack final ackChoice rest Hname Hp Hkind
                ltac:(rewrite Htrim; exact Hconv) Hrole Himage Hllm Hchoice
                Hnocalls Hfinal)
      as (w' & st2 & Hrun & Hmax2 & Hconv2 & Htrace & Hlast).
    rewrite Hmax in Hmax2. rewrite (trim_unbounded _ Hmax2) in Htrace, Hlast.
    exists w'. split; [exact Hrun|]. split.
    + rewrite Htrace, Hconv2, Htrim, Hconv, Hrequest1, <- !app_assoc. reflexivity.
    + rewrite Hlast, Hconv2, Htrim, Hconv, <- !app_assoc. reflexivity.
  - intros ack final ackChoice raw toolCall toolResult Hllm Hchoice Hcalls Hack
      Hcall Hnone Hplain Hfinal ackMessage resultMessage finalMessage.
    destruct (openai_second_call fuel w p before lastToolMessage ack final
                ackChoice raw toolCall toolResult rest Hname Hp Hkind Hmax Hconv
                Hllm Hchoice Hcalls Hack Hcall Hnone Hplain Hfinal)
      as (w' & Hrun & Htrace & Hlast).
    rewrite Hrequest1 in Htrace.
    exists w'. repeat split; assumption.
Qed.

End TwoStep.

Lemma image_turn_is_sent_with_tool_result_witness :
  let url := "data:image/png;base64,iVBORw0KGgo=" in
  (exists w' sooner prompt later,
     @MCPClient.continueConversation Sample.builtins 1 Sample.openai_world
     = MCPClient.Done w'
     /\ MCPClient.trace w'
        = MCPClient.Sent
            (sooner
             ++ [Obj [("role", Str "tool");
                      ("tool_call_id", Str "call_7");
                      ("content",
                       Str "Tool execution was successful. Output includes image data, which will be processed separately if applicable by the client.")];
                 Obj [("role", Str "user");
                      ("content",
                       Arr [Obj [("type", Str "text"); ("text", Str prompt)];
                            Obj [("type", Str "image_url");
                                 ("image_url", Obj [("url", Str url)])]])]])
          :: MCPClient.Appended (assistantMessage "Screenshot taken." None)
          :: later)
  /\ (exists w',
     @MCPClient.continueConversation Sample.builtins 2
       Sample.openai_world_with_second_call
     = MCPClient.Done w'
     /\ existsb Sample.appends_user (MCPClient.trace w') = false
     /\ MCPClient.conversation (MCPClient.client w')
        = Sample.history_with_screenshot
          ++ [assistantMessage "One more step."
                (Some [mkToolCall "call_1" "add" (Obj [])]);
              toolMessage "call_1" "add" (Str "done");
              assistantMessage "All done." None]).
Proof.
  pose (before := [userMessage (Str "What is on my screen?");
                   assistantMessage EmptyString (Some [Sample.shot_call])]).
  pose (lastToolMessage := toolMessage "call_7" "screenshot" Sample.screenshot).
  intros url. split.
  - destruct (@image_turn_is_sent_with_tool_result Sample.builtins 0
                Sample.openai_world Sample.openai_instance before lastToolMessage
                "call_7" "iVBORw0KGgo=" "image/png" []
                eq_refl eq_refl eq_refl eq_refl eq_refl eq_refl eq_refl eq_refl)
      as [Hplain _].
    destruct (Hplain (Sample.says "Screenshot taken.")
                (Sample.says "I see a terminal.")
                (mkChatMessage (Some "Screenshot taken.") None)
                eq_refl eq_refl eq_refl eq_refl)
      as (w' & Hrun & Htrace & _).
    exists w'. do 3 eexists. split; [exact Hrun|]. rewrite Htrace. reflexivity.
  - destruct (@image_turn_is_sent_with_tool_result Sample.builtins 0
                Sample.openai_world_with_second_call Sample.openai_instance
                before lastToolMessage
                "call_7" "iVBORw0KGgo=" "image/png" []
                eq_refl eq_refl eq_refl eq_refl eq_refl eq_refl eq_refl eq_refl)
      as [_ Hcalls].
    destruct (Hcalls (Sample.says_and_calls "One more step." [Sample.good_call])
                (Sample.says "All done.")
                (mkChatMessage (Some "One more step.") (Some [Sample.good_call]))
                [Sample.good_call] (mkToolCall "call_1" "add" (Obj []))
                (Str "done")
                eq_refl eq_refl eq_refl eq_refl eq_refl eq_refl eq_refl eq_refl)
      as (w' & Hrun & Htrace & Hlast).
    exists w'. split; [exact Hrun|]. split; [rewrite Htrace; reflexivity|].
    rewrite Hlast. reflexivity.
Defined.

(* ===================================================================== *)
(** * Properties of the logger                                             *)
(* ===================================================================== *)

Section LogLevels.
Import Logger.

(** The logger after a series of [setLevel] calls on a new instance. *)
Definition after_levels (requested : list string) : Logger :=
  fold_left (fun this level => fst (setLevel level this)) requested new.

Lemma levels_range (level : string) (n : Z) :
  levels level = Number n -> 0 <= n.
Proof.
  unfold levels.
  repeat (destruct (String.eqb level _); [intros [= <-]; lia|]).
  destruct (inherited level); discriminate.
Qed.

Lemma levels_inherited (level name : string) :
  levels level = Inherited name -> inherited level = true.
Proof.
  unfold levels.
  repeat (destruct (String.eqb level _); [discriminate|]).
  destruct (inherited level); [reflexivity|discriminate].
Qed.

Lemma setLevel_numbered (level : string) (this : Logger) :
  inherited level = false ->
  exists n, levels (logLevel (fst (setLevel level this))) = Number n.
Proof.
  intros Hown. unfold setLevel.
  destruct (levels level) as [n|name|] eqn:E; cbn.
  - exists n. exact E.
  - apply levels_inherited in E. congruence.
  - exists 2. reflexivity.
Qed.

Lemma after_levels_numbered (requested : list string) (start : Logger) :
  Forall (fun level => inherited level = false) requested ->
  (exists n, levels (logLevel start) = Number n) ->
  exists n,
    levels (logLevel
              (fold_left (fun this level => fst (setLevel level this))
                 requested start))
    = Number n.
Proof.
  intros Hown. revert start.
  induction Hown as [|level rest Hlevel _ IH]; intros start Hstart; [exact Hstart|].
  cbn. apply IH. apply setLevel_numbered. exact Hlevel.
Qed.

(** X1. Whatever levels were requested, none of them the name of a property
    of [Object.prototype], the logger still prints every error, and the
    enabled levels are closed under severity: when a level is enabled so
    is every level that is at least as severe. *)
Theorem errors_are_always_logged (requested : list string)
    (timestamp message : string) :
  Forall (fun level => inherited level = false) requested ->
  let this := after_levels requested in
  error timestamp message this
  = [console_error (formatMessage timestamp "error" message)]
  /\ (forall enabled severe,
        isLevelEnabled this enabled = true ->
        le (levels severe) (levels enabled) = true ->
        isLevelEnabled this severe = true).
Proof.
  intros Hown this.
  destruct (after_levels_numbered requested new Hown) as [n Hn];
    [exists 4; reflexivity|].
  fold (after_levels requested) in Hn. fold this in Hn.
  split.
  - unfold error, isLevelEnabled. rewrite Hn. cbn.
    apply levels_range in Hn.
    destruct (0 <=? n) eqn:E; [reflexivity|]. apply Z.leb_gt in E. lia.
  - intros enabled severe. unfold isLevelEnabled. rewrite Hn.
    destruct (levels enabled) as [a| |]; try discriminate.
    destruct (levels severe) as [b| |]; try discriminate.
    cbn. intros Ha Hb. apply Z.leb_le in Ha, Hb. apply Z.leb_le. lia.
Qed.


End LogLevels.

Lemma errors_are_always_logged_witness :
  Logger.error "2025-01-01T00:00:00.000Z" "disk full"
    (after_levels ["silent"; "warn"])
  = [Logger.console_error "[2025-01-01T00:00:00.000Z] [ERROR] disk full"].
Proof.
  destruct (errors_are_always_logged ["silent"; "warn"]
              "2025-01-01T00:00:00.000Z" "disk full") as [Herror _].
  - repeat constructor.
  - exact Herror.
Defined.


(* ===================================================================== *)
(** * Properties of the server set-up                                      *)
(* ===================================================================== *)

Section Servers.
Import MCPClient.

(** What an entry of [env] in the configuration stands for: the value of
    the variable it refers to, or itself. *)
Definition resolved (env : Env) (v : value) : option EnvValue :=
  match reference v with
  | Some envVar => process_env env envVar
  | None => Some (FromConfig v)
  end.

(** A reference that the loop steps over: [${LOG_LEVEL}] when the variable
    is not set. *)
Definition skipped (env : Env) (v : value) : bool :=
  match reference v with
  | Some envVar =>
      (negb (env_truthy (process_env env envVar)) && String.eqb envVar "LOG_LEVEL")%bool
  | None => false
  end.

Lemma assign_lookup (key k : string) (v : EnvValue) (m : gmap string EnvValue) :
  assign key v m !! k
  = if (String.eqb k key && negb (String.eqb key "__proto__"))%bool
    then Some v else m !! k.
Proof.
  unfold assign. destruct (String.eqb_spec key "__proto__") as [->|Hproto].
  - rewrite andb_false_r. reflexivity.
  - rewrite andb_true_r. destruct (String.eqb_spec k key) as [->|Hne].
    + apply lookup_insert_eq.
    + apply lookup_insert_ne. congruence.
Qed.

(** One step of the loop, when it does not throw. *)
Lemma process_entries_step (env : Env) (serverName key : string) (v : value)
    (rest : list (string * value)) (acc m : gmap string EnvValue) :
  process_entries env serverName ((key, v) :: rest) acc = Returned m ->
  (skipped env v = true \/ env_truthy (resolved env v) = true
   \/ reference v = None)
  /\ process_entries env serverName rest
       (if skipped env v then acc
        else assign key (default undefined (resolved env v)) acc)
     = Returned m.
Proof.
  cbn [process_entries]. unfold skipped, resolved.
  destruct (reference v) as [envVar|]; [|intros Hrun; split; [auto|exact Hrun]].
  destruct (process_env env envVar) as [found|] eqn:Hfound.
  - destruct (env_truthy (Some found)) eqn:Htruthy; cbn [negb andb].
    + intros Hrun. split; [auto|exact Hrun].
    + destruct (String.eqb envVar "LOG_LEVEL"); [|discriminate].
      intros Hrun. split; [auto|exact Hrun].
  - cbn [env_truthy negb andb].
    destruct (String.eqb envVar "LOG_LEVEL"); [|discriminate].
    intros Hrun. split; [auto|exact Hrun].
Qed.

Lemma process_entries_lookup (env : Env) (serverName : string)
    (entries : list (string * value)) (acc m : gmap string EnvValue) :
  NoDup (fst <$> entries) ->
  process_entries env serverName entries acc = Returned m ->
  (forall k, k ∉ (fst <$> entries) -> m !! k = acc !! k)
  /\ (forall key v,
        (key, v) ∈ entries ->
        (skipped env v = true \/ env_truthy (resolved env v) = true
         \/ reference v = None)
        /\ m !! key
           = if (skipped env v || String.eqb key "__proto__")%bool
             then acc !! key else resolved env v).
Proof.
  revert acc. induction entries as [|[key v] rest IH]; intros acc Hnodup Hrun.
  - cbn in Hrun. injection Hrun as <-. split; [reflexivity|].
    intros key v Hin. inversion Hin.
  - apply process_entries_step in Hrun. destruct Hrun as [Hcase Hrun].
    cbn [fmap list_fmap fst] in Hnodup. apply NoDup_cons in Hnodup.
    destruct Hnodup as [Hfresh Hnodup].
    destruct (IH _ Hnodup Hrun) as [Hout Hin]. clear IH. split.
    + intros k Hk. cbn [fmap list_fmap fst] in Hk. apply not_elem_of_cons in Hk.
      destruct Hk as [Hne Hk]. rewrite (Hout k Hk).
      destruct (skipped env v); [reflexivity|].
      rewrite assign_lookup. destruct (String.eqb_spec k key); [congruence|].
      reflexivity.
    + intros key' v' Hin'. apply elem_of_cons in Hin'.
      destruct Hin' as [[= -> ->]|Hin'].
      * split; [exact Hcase|]. rewrite (Hout key Hfresh).
        destruct (skipped env v) eqn:Hskip; [reflexivity|]. cbn [orb].
        rewrite assign_lookup, String.eqb_refl. cbn [andb].
        destruct (String.eqb key "__proto__"); cbn [negb]; [reflexivity|].
        destruct Hcase as [Hcase|[Hcase|Hcase]]; [congruence| |].
        -- destruct (resolved env v); [reflexivity|discriminate].
        -- unfold resolved. rewrite Hcase. reflexivity.
      * destruct (Hin key' v' Hin') as [Hcase' Hlookup]. split; [exact Hcase'|].
        rewrite Hlookup.
        destruct (skipped env v' || String.eqb key' "__proto__")%bool eqn:E;
          [|reflexivity].
        destruct (skipped env v); [reflexivity|].
        rewrite assign_lookup.
        destruct (String.eqb_spec key' key) as [->|Hne]; [|reflexivity].
        exfalso. apply Hfresh.
        exact (list_elem_of_fmap_2 fst rest (key, v') Hin').
Qed.

Lemma createClient_stdio (URL_error : string -> option string) (env : Env)
    (logger : Logger.Logger) (serverName : string) (serverDetails : ServerDetails)
    (cmd : string) (arguments : list string) (childEnv : string -> option EnvValue) :
  createClient URL_error env logger serverName serverDetails
  = Returned (StdioClientTransport cmd arguments childEnv) ->
  exists processedEnv,
    process_entries env (server_name serverName serverDetails)
      (default [] (details_env serverDetails)) ∅
    = Returned processedEnv
    /\ childEnv = finalChildEnv env processedEnv logger.
Proof.
  unfold createClient.
  destruct (bool_decide _).
  { destruct (or_else _ _); [|discriminate]. destruct (URL_error _); discriminate. }
  destruct (_ || _)%bool; [|discriminate].
  destruct (or_else _ _); [|discriminate].
  destruct (process_entries _ _ _ _) as [processedEnv|]; [|discriminate].
  intros [= <- <- <-]. exists processedEnv. split; reflexivity.
Qed.

(** X3. Whatever the configuration and the parent environment say about
    [LOG_LEVEL], the environment that [createClient] hands to a stdio
    server holds [LOG_LEVEL] with the value [undefined]: it is read from
    [logger.level], a property the logger does not have. *)
Theorem child_log_level_is_undefined (URL_error : string -> option string)
    (env : Env) (logger : Logger.Logger) (serverName : string)
    (serverDetails : ServerDetails) (cmd : string) (arguments : list string)
    (childEnv : string -> option EnvValue) :
  createClient URL_error env logger serverName serverDetails
  = Returned (StdioClientTransport cmd arguments childEnv) ->
  childEnv "LOG_LEVEL" = Some undefined.
Proof.
  intros Hcreated. apply createClient_stdio in Hcreated.
  destruct Hcreated as (processedEnv & _ & ->). reflexivity.
Qed.

(** X4. When [createClient] returns a stdio transport, every entry of the
    configured [env] (other than [LOG_LEVEL] and [__proto__]) is in the
    child's environment with the value it stands for: the parent's value of
    the variable a [${VAR}] entry refers to, the configured value itself
    for any other entry; an entry [${LOG_LEVEL}] with the variable unset
    leaves the name as the parent has it. Every variable referred to,
    except [LOG_LEVEL], is set to a non-empty value in the parent. A name
    the configuration does not mention is inherited from the parent. *)
Theorem child_environment_resolves_references
    (URL_error : string -> option string) (env : Env) (logger : Logger.Logger)
    (serverName : string) (serverDetails : ServerDetails) (cmd : string)
    (arguments : list string) (childEnv : string -> option EnvValue) :
  let entries := default [] (details_env serverDetails) in
  NoDup (fst <$> entries) ->
  createClient URL_error env logger serverName serverDetails
  = Returned (StdioClientTransport cmd arguments childEnv) ->
  (forall key v,
     (key, v) ∈ entries -> key <> "LOG_LEVEL" -> key <> "__proto__" ->
     childEnv key
     = if skipped env v then FromParent <$> env key else resolved env v)
  /\ (forall key v envVar,
        (key, v) ∈ entries -> reference v = Some envVar ->
        envVar <> "LOG_LEVEL" ->
        env_truthy (process_env env envVar) = true)
  /\ (forall key,
        key ∉ (fst <$> entries) -> key <> "LOG_LEVEL" ->
        childEnv key = FromParent <$> env key).
Proof.
  intros entries Hnodup Hcreated. apply createClient_stdio in Hcreated.
  destruct Hcreated as (processedEnv & Hrun & ->).
  destruct (process_entries_lookup _ _ _ _ _ Hnodup Hrun) as [Hout Hin].
  fold entries in Hout, Hin.
  repeat split.
  - intros key v Hentry Hlog Hproto. destruct (Hin key v Hentry) as [Hcase Hlookup].
    unfold finalChildEnv.
    apply String.eqb_neq in Hlog, Hproto. rewrite Hlog, Hlookup, Hproto.
    rewrite orb_false_r, lookup_empty.
    destruct (skipped env v); [reflexivity|].
    destruct Hcase as [Hcase|[Hcase|Hcase]]; [discriminate| |].
    + destruct (resolved env v); [reflexivity|discriminate].
    + unfold resolved. rewrite Hcase. reflexivity.
  - intros key v envVar Hentry Href Hlog. destruct (Hin key v Hentry) as [Hcase _].
    apply String.eqb_neq in Hlog.
    unfold skipped, resolved in Hcase. rewrite Href, Hlog, andb_false_r in Hcase.
    destruct Hcase as [Hcase|[Hcase|Hcase]]; [discriminate|exact Hcase|discriminate].
  - intros key Hfresh Hlog. unfold finalChildEnv.
    apply String.eqb_neq in Hlog. rewrite Hlog, (Hout key Hfresh), lookup_empty.
    reflexivity.
Qed.

Lemma connect_servers_throws (URL_error : string -> option string)
    (connect : string -> Transport -> option string) (env : Env)
    (logger : Logger.Logger) (mcpServers : list (string * ServerDetails))
    (serverName : string) (serverDetails : ServerDetails) (error : string)
    (mcpClients : list (string * Transport)) (out : list Event) :
  (serverName, serverDetails) ∈ mcpServers ->
  createClient URL_error env logger serverName serverDetails = Thrown error ->
  exists error' out',
    connect_servers URL_error connect env logger mcpServers mcpClients out
    = (Thrown error', out').
Proof.
  intros Hin Hthrown. revert mcpClients out.
  induction mcpServers as [|[n d] rest IH]; intros mcpClients out;
    [inversion Hin|].
  cbn [connect_servers].
  destruct (createClient URL_error env logger n d) as [transport|e] eqn:Hcreate;
    [|do 2 eexists; reflexivity].
  apply elem_of_cons in Hin. destruct Hin as [[= <- <-]|Hin]; [congruence|].
  destruct (connect _ transport); apply (IH Hin).
Qed.

(** X5. One server entry that [createClient] rejects, anywhere in
    [config.mcpServers], makes [start] fail: no server set is returned,
    however many of the other servers could be reached. *)
Theorem misconfigured_server_stops_startup
    (URL_error : string -> option string)
    (connect : string -> Transport -> option string) (env : Env)
    (logger : Logger.Logger) (mcpServers : list (string * ServerDetails))
    (serverName : string) (serverDetails : ServerDetails) (error : string) :
  (serverName, serverDetails) ∈ mcpServers ->
  createClient URL_error env logger serverName serverDetails = Thrown error ->
  exists error',
    start_servers URL_error connect env logger mcpServers
    = (None,
       snd (connect_servers URL_error connect env logger mcpServers [] [])
       ++ [LogError ("Failed to start client: " +:+ error');
           ConsoleError (Text.newline +:+ "ERROR: " +:+ error')]).
Proof.
  intros Hin Hthrown. unfold start_servers.
  destruct (connect_servers_throws URL_error connect env logger mcpServers
              serverName serverDetails error [] [] Hin Hthrown)
    as (error' & out' & ->).
  exists error'. reflexivity.
Qed.

(** A server of the configuration that could be reached. *)
Definition connected (URL_error : string -> option string)
    (connect : string -> Transport -> option string) (env : Env)
    (logger : Logger.Logger) (mcpServers : list (string * ServerDetails))
    (name : string) : Prop :=
  exists serverName serverDetails transport,
    (serverName, serverDetails) ∈ mcpServers
    /\ server_name serverName serverDetails = name
    /\ createClient URL_error env logger serverName serverDetails
       = Returned transport
    /\ connect name transport = None.

Lemma set_server_names (name name' : string) (transport : Transport)
    (mcpClients : list (string * Transport)) :
  name' ∈ (fst <$> set_server name transport mcpClients)
  <-> name' = name \/ name' ∈ (fst <$> mcpClients).
Proof.
  induction mcpClients as [|[n t] rest IH]; cbn.
  - rewrite list_elem_of_singleton. split; [auto|].
    intros [->|Hin]; [reflexivity|inversion Hin].
  - destruct (String.eqb_spec n name) as [->|Hne]; cbn.
    + rewrite !elem_of_cons. tauto.
    + rewrite !elem_of_cons, IH. tauto.
Qed.

Lemma connect_servers_names (URL_error : string -> option string)
    (connect : string -> Transport -> option string) (env : Env)
    (logger : Logger.Logger) (mcpServers : list (string * ServerDetails))
    (mcpClients : list (string * Transport)) (out : list Event) :
  (forall serverName serverDetails,
     (serverName, serverDetails) ∈ mcpServers ->
     exists transport,
       createClient URL_error env logger serverName serverDetails
       = Returned transport) ->
  exists reached out',
    connect_servers URL_error connect env logger mcpServers mcpClients out
    = (Returned reached, out')
    /\ forall name,
         name ∈ (fst <$> reached)
         <-> name ∈ (fst <$> mcpClients)
             \/ connected URL_error connect env logger mcpServers name.
Proof.
  revert mcpClients out.
  induction mcpServers as [|[n d] rest IH]; intros mcpClients out Hall.
  - exists mcpClients, out. split; [reflexivity|]. intros name. split; [auto|].
    intros [Hin|(? & ? & ? & Hin & _)]; [exact Hin|inversion Hin].
  - cbn [connect_servers].
    destruct (Hall n d) as [transport Hcreate]; [left|]. rewrite Hcreate.
    assert (Hrest : forall serverName serverDetails,
               (serverName, serverDetails) ∈ rest ->
               exists transport,
                 createClient URL_error env logger serverName serverDetails
                 = Returned transport).
    { intros ? ? Hin. apply Hall. right. exact Hin. }
    assert (Hsplit : forall name,
               connected URL_error connect env logger ((n, d) :: rest) name
               <-> (server_name n d = name /\ connect name transport = None)
                   \/ connected URL_error connect env logger rest name).
    { intros name. split.
      - intros (sn & sd & t & Hin & Hname & Hc & Hok).
        apply elem_of_cons in Hin. destruct Hin as [[= -> ->]|Hin].
        + left. rewrite Hcreate in Hc. injection Hc as <-. auto.
        + right. exists sn, sd, t. auto.
      - intros [[Hname Hok]|(sn & sd & t & Hin & Hname & Hc & Hok)].
        + exists n, d, transport. repeat split; [left|..]; assumption.
        + exists sn, sd, t. repeat split; [right|..]; assumption. }
    destruct (connect (server_name n d) transport) as [message|] eqn:Hconnect.
    + destruct (IH mcpClients
                  (out ++ [LogError ("Failed to connect to server "
                                     +:+ server_name n d +:+ ": " +:+ message);
                           ConsoleError ("ERROR: Failed to connect to server "
                                         +:+ server_name n d +:+ ": "
                                         +:+ message)]) Hrest)
        as (reached & out' & Hrun & Hnames).
      exists reached, out'. split; [exact Hrun|]. intros name.
      rewrite Hnames, Hsplit. split; [tauto|].
      intros [Hin|[[<- Hok]|Hc]]; [auto|congruence|auto].
    + destruct (IH (set_server (server_name n d) transport mcpClients) out Hrest)
        as (reached & out' & Hrun & Hnames).
      exists reached, out'. split; [exact Hrun|]. intros name.
      rewrite Hnames, set_server_names, Hsplit. split.
      * intros [[->|Hin]|Hc]; auto.
      * intros [Hin|[[<- Hok]|Hc]]; auto.
Qed.

(** X6. When every entry of [config.mcpServers] passes [createClient], a
    server that cannot be reached does not stop [start]: the servers it
    returns are exactly those that could be connected, and it fails only
    when none could. *)
Theorem connection_failures_are_tolerated
    (URL_error : string -> option string)
    (connect : string -> Transport -> option string) (env : Env)
    (logger : Logger.Logger) (mcpServers : list (string * ServerDetails)) :
  (forall serverName serverDetails,
     (serverName, serverDetails) ∈ mcpServers ->
     exists transport,
       createClient URL_error env logger serverName serverDetails
       = Returned transport) ->
  match fst (start_servers URL_error connect env logger mcpServers) with
  | Some mcpClients =>
      forall name,
        name ∈ (fst <$> mcpClients)
        <-> connected URL_error connect env logger mcpServers name
  | None =>
      forall name, ~ connected URL_error connect env logger mcpServers name
  end.
Proof.
  intros Hall. unfold start_servers.
  destruct (connect_servers_names URL_error connect env logger mcpServers [] []
              Hall) as (reached & out' & -> & Hnames).
  destruct reached as [|first rest]; cbn [fst].
  - intros name Hc. assert (Hin : name ∈ (fst <$> @nil (string * Transport))).
    { apply Hnames. right. exact Hc. }
    inversion Hin.
  - intros name. rewrite Hnames. split; [|auto].
    intros [Hin|Hc]; [inversion Hin|exact Hc].
Qed.

End Servers.

(** Two servers as [config.json] declares them, and a parent environment. *)
Module ServerSample.
Import MCPClient.

Definition parent : Env := fun k =>
  if String.eqb k "SLACK_BOT_TOKEN" then Some "xoxb-1"
  else if String.eqb k "LOG_LEVEL" then Some "info"
  else if String.eqb k "HOME" then Some "/root"
  else None.

Definition slack : ServerDetails :=
  mkServerDetails None (Some "stdio") None None (Some "npx")
    (Some ["-y"; "@modelcontextprotocol/server-slack"])
    (Some [("SLACK_BOT_TOKEN", Str "${SLACK_BOT_TOKEN}");
           ("LOG_LEVEL", Str "${LOG_LEVEL}");
           ("MODE", Str "fast")]).

Definition verbwire : ServerDetails :=
  mkServerDetails None None None None (Some "npx")
    (Some ["-y"; "@verbwire/verbwire-mcp-server"])
    (Some [("VERBWIRE_API_KEY", Str "${VERBWIRE_API_KEY}")]).

Definition files : ServerDetails :=
  mkServerDetails None None None None (Some "node") (Some ["files.js"]) None.

Definition any_URL : string -> option string := fun _ => None.

Definition all_reachable : string -> Transport -> option string :=
  fun _ _ => None.

Definition slack_is_down : string -> Transport -> option string :=
  fun name _ => if String.eqb name "slack" then Some "ECONNREFUSED" else None.

End ServerSample.

Lemma child_log_level_is_undefined_witness :
  exists cmd arguments childEnv,
    MCPClient.createClient ServerSample.any_URL ServerSample.parent Logger.new
      "slack" ServerSample.slack
    = Returned (MCPClient.StdioClientTransport cmd arguments childEnv)
    /\ childEnv "LOG_LEVEL" = Some MCPClient.undefined.
Proof.
  destruct (MCPClient.createClient ServerSample.any_URL ServerSample.parent
              Logger.new "slack" ServerSample.slack)
    as [[url headers|cmd arguments childEnv]|error] eqn:Hcreated;
    [vm_compute in Hcreated; discriminate| |vm_compute in Hcreated; discriminate].
  exists cmd, arguments, childEnv. split; [reflexivity|].
  exact (child_log_level_is_undefined _ _ _ _ _ _ _ _ Hcreated).
Defined.

Lemma child_environment_resolves_references_witness :
  exists cmd arguments childEnv,
    MCPClient.createClient ServerSample.any_URL ServerSample.parent Logger.new
      "slack" ServerSample.slack
    = Returned (MCPClient.StdioClientTransport cmd arguments childEnv)
    /\ childEnv "SLACK_BOT_TOKEN" = Some (MCPClient.FromParent "xoxb-1")
    /\ childEnv "MODE" = Some (MCPClient.FromConfig (Str "fast"))
    /\ childEnv "HOME" = Some (MCPClient.FromParent "/root").
Proof.
  destruct (MCPClient.createClient ServerSample.any_URL ServerSample.parent
              Logger.new "slack" ServerSample.slack)
    as [[url headers|cmd arguments childEnv]|error] eqn:Hcreated;
    [vm_compute in Hcreated; discriminate| |vm_compute in Hcreated; discriminate].
  exists cmd, arguments, childEnv. split; [reflexivity|].
  assert (Hnodup : NoDup (fst <$> default [] (MCPClient.details_env
                                                 ServerSample.slack))).
  { apply (bool_decide_unpack _). vm_compute. exact I. }
  destruct (child_environment_resolves_references _ _ _ _ _ _ _ _ Hnodup Hcreated)
    as (Hentries & _ & Hother).
  repeat split.
  - rewrite (Hentries "SLACK_BOT_TOKEN" (Str "${SLACK_BOT_TOKEN}"));
      [reflexivity|left|discriminate|discriminate].
  - rewrite (Hentries "MODE" (Str "fast"));
      [reflexivity|right; right; left|discriminate|discriminate].
  - rewrite (Hother "HOME"); [reflexivity| |discriminate].
    cbn. rewrite !not_elem_of_cons. repeat split; try discriminate.
    apply not_elem_of_nil.
Defined.

Lemma misconfigured_server_stops_startup_witness :
  fst (MCPClient.start_servers ServerSample.any_URL ServerSample.all_reachable
         ServerSample.parent Logger.new
         [("files", ServerSample.files); ("verbwire", ServerSample.verbwire)])
  = None.
Proof.
  edestruct (misconfigured_server_stops_startup ServerSample.any_URL
               ServerSample.all_reachable ServerSample.parent Logger.new
               [("files", ServerSample.files); ("verbwire", ServerSample.verbwire)]
               "verbwire" ServerSample.verbwire) as [error' Hstart].
  - right. left.
  - reflexivity.
  - rewrite Hstart. reflexivity.
Defined.

Lemma connection_failures_are_tolerated_witness :
  exists mcpClients,
    fst (MCPClient.start_servers ServerSample.any_URL ServerSample.slack_is_down
           ServerSample.parent Logger.new
           [("slack", ServerSample.slack); ("files", ServerSample.files)])
    = Some mcpClients
    /\ "files" ∈ (fst <$> mcpClients)
    /\ "slack" ∉ (fst <$> mcpClients).
Proof.
  pose proof (connection_failures_are_tolerated ServerSample.any_URL
                ServerSample.slack_is_down ServerSample.parent Logger.new
                [("slack", ServerSample.slack); ("files", ServerSample.files)])
    as Hstart.
  assert (Hfiles : connected ServerSample.any_URL ServerSample.slack_is_down
                     ServerSample.parent Logger.new
                     [("slack", ServerSample.slack); ("files", ServerSample.files)]
                     "files").
  { exists "files", ServerSample.files. eexists.
    split; [right; left|]. split; [reflexivity|]. split; reflexivity. }
  destruct (fst (MCPClient.start_servers _ _ _ _ _)) as [mcpClients|].
  - exists mcpClients. split; [reflexivity|].
    assert (Hiff := Hstart ltac:(intros n d Hin;
                                 apply elem_of_cons in Hin;
                                 destruct Hin as [[= -> ->]|Hin];
                                 [eexists; reflexivity|];
                                 apply elem_of_cons in Hin;
                                 destruct Hin as [[= -> ->]|Hin];
                                 [eexists; reflexivity|inversion Hin])).
    split; [apply Hiff; exact Hfiles|].
    intros Hin. apply Hiff in Hin.
    destruct Hin as (n & d & t & Hin & Hname & Hcreate & Hok).
    subst. discriminate Hok.
  - exfalso.
    refine (Hstart _ "files" Hfiles).
    intros n d Hin. apply elem_of_cons in Hin.
    destruct Hin as [[= -> ->]|Hin]; [eexists; reflexivity|].
    apply elem_of_cons in Hin.
    destruct Hin as [[= -> ->]|Hin]; [eexists; reflexivity|inversion Hin].
Defined.

(* ===================================================================== *)
(** * Properties of provider switching and of the prompt                   *)
(* ===================================================================== *)

Section Switching.
Import MCPClient.
Context `{Builtins}.

(** The name [setLLMProvider] stores in [config.llmProvider], the variable
    it reads the default model from, and the model it keeps for display. *)
Definition provider_name (k : ProviderKind) : string :=
  match k with
  | Anthropic => "anthropic"
  | OpenAI => "openai"
  | Google => "google"
  | DeepSeek => "deepseek"
  end.

Definition model_variable (k : ProviderKind) : string :=
  match k with
  | Anthropic => "ANTHROPIC_MODEL"
  | OpenAI => "OPENAI_MODEL"
  | Google => "GOOGLE_GEMINI_MODEL"
  | DeepSeek => "DEEPSEEK_MODEL"
  end.

Definition displayed_model (k : ProviderKind) (st : Client) : option string :=
  match k with
  | Anthropic => model st
  | OpenAI => openaiModel st
  | Google => geminiModel st
  | DeepSeek => deepseekModel st
  end.

Lemma setLLMProvider_keeps (newProvider newModelName : option string)
    (initialSetup : bool) (env : Env) (st : Client) :
  let st' := snd (setLLMProvider newProvider newModelName initialSetup env st) in
  conversation st' = conversation st
  /\ systemMessage st' = systemMessage st
  /\ maxConversationHistoryLength st' = maxConversationHistoryLength st
  /\ tools st' = tools st.
Proof.
  unfold setLLMProvider.
  destruct (provider_named (Text.toLowerCase <$> newProvider)) as [[]|];
    unfold activate, report;
    repeat match goal with
           | |- context [match env ?k with _ => _ end] => destruct (env k)
           | |- context [if str_truthy ?k then _ else _] => destruct (str_truthy k)
           | |- context [if ostr_truthy ?k then _ else _] => destruct (ostr_truthy k)
           | |- context [if initialSetup then _ else _] => destruct initialSetup
           end; repeat split.
Qed.

Lemma setLLMProvider_success (newProvider newModelName : option string)
    (initialSetup : bool) (env : Env) (st st' : Client) :
  setLLMProvider newProvider newModelName initialSetup env st = (true, st') ->
  exists k p,
    provider_named (Text.toLowerCase <$> newProvider) = Some k
    /\ llmProvider st' = Some (provider_name k)
    /\ currentLlmProviderInstance st' = Some p
    /\ kind p = k
    /\ modelName p
       = default (default_model k)
           (or_else newModelName (env (model_variable k)))
    /\ displayed_model k st' = Some (modelName p).
Proof.
  unfold setLLMProvider.
  destruct (provider_named (Text.toLowerCase <$> newProvider)) as [k|] eqn:Hk;
    [|intros [=]].
  destruct k; unfold activate, report;
    match goal with
    | |- context [match env ?k with _ => _ end] => destruct (env k) as [key|]
    end;
    try (intros [=]; fail);
    (destruct (str_truthy key); [|intros [=]; fail]);
    destruct initialSetup; intros [= <-];
    eexists _, _; repeat split; reflexivity.
Qed.

Lemma setLLMProvider_failure (newProvider newModelName : option string)
    (initialSetup : bool) (env : Env) (st st' : Client) :
  setLLMProvider newProvider newModelName initialSetup env st = (false, st') ->
  llmProvider st' = llmProvider st /\ currentLlmProviderInstance st' = None.
Proof.
  unfold setLLMProvider.
  destruct (provider_named (Text.toLowerCase <$> newProvider)) as [[]|];
    unfold activate, report;
    repeat match goal with
           | |- context [match env ?k with _ => _ end] => destruct (env k)
           | |- context [if str_truthy ?k then _ else _] => destruct (str_truthy k)
           | |- context [if ostr_truthy ?k then _ else _] => destruct (ostr_truthy k)
           | |- context [if initialSetup then _ else _] => destruct initialSetup
           end; intros [= <-]; split; reflexivity.
Qed.

Lemma provider_named_name (k : ProviderKind) :
  provider_named (Some (provider_name k)) = Some k.
Proof. destruct k; reflexivity. Qed.

(** [split] and [join] undo each other, and no piece holds the
    separator. *)
Fixpoint free_of (c : ascii) (s : string) : bool :=
  match s with
  | EmptyString => true
  | String a s' => (negb (Ascii.eqb a c) && free_of c s')%bool
  end.

Lemma split_not_nil (c : ascii) (s : string) : Text.split c s <> [].
Proof.
  destruct s as [|a s']; cbn; [discriminate|].
  destruct (Ascii.eqb a c); [discriminate|].
  destruct (Text.split c s'); discriminate.
Qed.

Lemma join_split (c : ascii) (s : string) :
  Text.join (String c EmptyString) (Text.split c s) = s.
Proof.
  induction s as [|a s' IH]; [reflexivity|]. cbn [Text.split].
  pose proof (split_not_nil c s') as Hne.
  destruct (Ascii.eqb_spec a c) as [->|Hac].
  - destruct (Text.split c s') as [|piece rest]; [congruence|].
    cbn [Text.join] in *. rewrite IH. reflexivity.
  - destruct (Text.split c s') as [|piece rest]; [congruence|].
    cbn [Text.join] in *. destruct rest; cbn; rewrite <- IH; reflexivity.
Qed.

Lemma split_free (c : ascii) (s : string) :
  Forall (fun piece => free_of c piece = true) (Text.split c s).
Proof.
  induction s as [|a s' IH]; cbn [Text.split]; [repeat constructor|].
  destruct (Ascii.eqb a c) eqn:Hac; [constructor; [reflexivity|exact IH]|].
  destruct (Text.split c s') as [|piece rest]; [repeat constructor; cbn; rewrite Hac; reflexivity|].
  inversion IH as [|? ? Hpiece Hrest]; subst.
  constructor; [cbn; rewrite Hac, Hpiece; reflexivity|exact Hrest].
Qed.

Lemma split_last (c : ascii) (s : string) :
  exists pieces segment,
    Text.split c s = pieces ++ [segment]
    /\ last (Text.split c s) = Some segment
    /\ free_of c segment = true.
Proof.
  destruct (exists_last (split_not_nil c s)) as (pieces & segment & E).
  exists pieces, segment. rewrite E. split; [reflexivity|].
  split; [apply last_snoc|].
  pose proof (split_free c s) as Hfree. rewrite E in Hfree.
  apply Forall_app in Hfree. destruct Hfree as [_ Hx].
  inversion Hx; assumption.
Qed.

Lemma provider_named_inv (providerName : option string) (k : ProviderKind) :
  provider_named providerName = Some k -> providerName = Some (provider_name k).
Proof.
  unfold provider_named. destruct providerName as [s|]; [|discriminate].
  repeat match goal with
         | |- context [String.eqb s ?x] =>
             destruct (String.eqb_spec s x) as [->|_];
             [cbn; intros [= <-]; reflexivity|]
         end.
  discriminate.
Qed.

(** X7. After a successful switch with an explicit model name, the prompt of
    the command line is the provider name in lower case, then in
    parentheses the part of the model name that follows its last slash
    (the whole name when it has none), then [> ]. *)
Theorem prompt_shows_provider_and_model (newProvider : option string)
    (m : string) (initialSetup : bool) (env : Env) (st st' : Client) :
  str_truthy m = true ->
  setLLMProvider newProvider (Some m) initialSetup env st = (true, st') ->
  exists providerName pieces segment,
    (Text.toLowerCase <$> newProvider) = Some providerName
    /\ llmProvider st' = Some providerName
    /\ Text.split "/" m = pieces ++ [segment]
    /\ Text.join "/" (pieces ++ [segment]) = m
    /\ free_of "/" segment = true
    /\ _getDynamicPrompt st'
       = providerName +:+ (" (" +:+ segment +:+ ")") +:+ "> ".
Proof.
  intros Hm Hswitch.
  destruct (setLLMProvider_success _ _ _ _ _ _ Hswitch)
    as (k & p & Hk & Hname & _ & _ & Hmodel & Hshown).
  assert (Hdetermined : modelName p = m).
  { rewrite Hmodel. unfold or_else. cbn [ostr_truthy]. rewrite Hm. reflexivity. }
  rewrite Hdetermined in Hshown.
  destruct (split_last "/" m) as (pieces & segment & Hsplit & Hlast & Hfree).
  exists (provider_name k), pieces, segment.
  split; [exact (provider_named_inv _ _ Hk)|].
  split; [exact Hname|]. split; [exact Hsplit|].
  split; [rewrite <- Hsplit; apply (join_split "/" m)|].
  split; [exact Hfree|].
  unfold _getDynamicPrompt. rewrite Hname, provider_named_name.
  assert (Hor : or_else (displayed_model k st') None = Some m).
  { rewrite Hshown. unfold or_else. cbn [ostr_truthy]. rewrite Hm. reflexivity. }
  destruct k; cbn [displayed_model] in Hor; rewrite Hor, Hlast; reflexivity.
Qed.

End Switching.

Lemma prompt_shows_provider_and_model_witness :
  MCPClient._getDynamicPrompt
    (snd (@MCPClient.setLLMProvider Sample.builtins (Some "OpenAI")
            (Some "openrouter/openai/gpt-4o") false Sample.all_keys
            (Sample.client None [])))
  = "openai (gpt-4o)> ".
Proof.
  destruct (@MCPClient.setLLMProvider Sample.builtins (Some "OpenAI")
              (Some "openrouter/openai/gpt-4o") false Sample.all_keys
              (Sample.client None [])) as [ok st'] eqn:Hswitch.
  assert (Hok : true = ok) by exact (f_equal fst Hswitch).
  subst ok.
  destruct (@prompt_shows_provider_and_model Sample.builtins (Some "OpenAI")
              "openrouter/openai/gpt-4o" false Sample.all_keys
              (Sample.client None []) st' eq_refl Hswitch)
    as (providerName & pieces & segment & Hlower & _ & Hsplit & _ & _ & Hprompt).
  cbn [snd]. rewrite Hprompt.
  injection Hlower as <-.
  assert (Hsegment : last (Text.split "/" "openrouter/openai/gpt-4o") = Some segment)
    by (rewrite Hsplit; apply last_snoc).
  injection Hsegment as <-. reflexivity.
Defined.

(* ===================================================================== *)
(** * Properties of the tool loop                                          *)
(* ===================================================================== *)

Section Loop.
Import MCPClient.
Context `{Builtins}.

(** A client whose history is never cut: no bound is stored, or the
    provider is Google, whose branches send increments and do not trim. *)
Definition untrimmed (st : Client) : Prop :=
  maxConversationHistoryLength st = None
  \/ provider_named (llmProvider st) = Some Google.

(** [w'] is a later state of [w]: the trace was extended, answers of the
    back-end were consumed from the front, the environment is the same,
    and the history of an untrimmed client was extended. *)
Definition grows (w w' : World) : Prop :=
  (untrimmed (client w) ->
   exists more, conversation (client w') = conversation (client w) ++ more)
  /\ (exists steps, trace w' = trace w ++ steps)
  /\ (exists used, llm w = used ++ llm w')
  /\ callTool w' = callTool w
  /\ env w' = env w
  /\ now w' = now w
  /\ maxConversationHistoryLength (client w')
     = maxConversationHistoryLength (client w)
  /\ provider_named (llmProvider (client w'))
     = provider_named (llmProvider (client w)).

Lemma grows_refl (w : World) : grows w w.
Proof.
  unfold grows. repeat split; try reflexivity;
    intros; exists []; rewrite ?app_nil_r; reflexivity.
Qed.

Lemma grows_trans (w1 w2 w3 : World) :
  grows w1 w2 -> grows w2 w3 -> grows w1 w3.
Proof.
  intros (Hh1 & [s1 Ht1] & [u1 Hl1] & Hc1 & He1 & Hn1 & Hb1 & Hp1)
         (Hh2 & [s2 Ht2] & [u2 Hl2] & Hc2 & He2 & Hn2 & Hb2 & Hp2).
  unfold grows. repeat split; try congruence.
  - intros Hun. destruct (Hh1 Hun) as [m1 Hm1].
    destruct Hh2 as [m2 Hm2].
    { unfold untrimmed in *. rewrite Hb1, Hp1. exact Hun. }
    exists (m1 ++ m2). rewrite Hm2, Hm1, app_assoc. reflexivity.
  - exists (s1 ++ s2). rewrite Ht2, Ht1, app_assoc. reflexivity.
  - exists (u1 ++ u2). rewrite Hl1, Hl2, app_assoc. reflexivity.
Qed.

Lemma grows_llm_length (w w' : World) :
  grows w w' -> (length (llm w') <= length (llm w))%nat.
Proof.
  intros (_ & _ & [used Hused] & _). rewrite Hused, length_app. lia.
Qed.

Lemma grows_known (w w' : World) :
  grows w w' ->
  provider_named (llmProvider (client w)) <> None ->
  provider_named (llmProvider (client w')) <> None.
Proof. intros (_ & _ & _ & _ & _ & _ & _ & Hp). rewrite Hp. auto. Qed.

Lemma grows_push (message : Message) (w : World) : grows w (push message w).
Proof.
  unfold grows. repeat split; try reflexivity.
  - intros _. exists [message]. reflexivity.
  - exists [Appended message]. reflexivity.
  - exists []. reflexivity.
Qed.

Lemma grows_note (e : Event) (w : World) : grows w (note e w).
Proof.
  unfold grows. repeat split; try reflexivity;
    intros; exists []; rewrite ?app_nil_r; reflexivity.
Qed.

Lemma grows_augment (toolCall : ToolCall) (toolResult : value) (w : World) :
  grows w (augment toolCall toolResult w).
Proof.
  unfold augment. destruct (truthy toolResult); [|apply grows_refl].
  destruct (_extractImageFromMcpToolResult toolResult) as [[data mime]|];
    [|apply grows_refl].
  destruct (_ && _)%bool; [apply grows_push|apply grows_refl].
Qed.

(** How a call ends when it returns: normally or with an exception, in a
    later state; and the same without the exception. *)
Definition returns (w : World) (r : result) : Prop :=
  match r with
  | Done w' | Raised _ w' => grows w w'
  | OutOfFuel => False
  end.

Definition returns_done (w : World) (r : result) : Prop :=
  match r with
  | Done w' => grows w w'
  | _ => False
  end.

Lemma returns_done_returns (w : World) (r : result) :
  returns_done w r -> returns w r.
Proof. destruct r; cbn; tauto. Qed.

Lemma returns_after (w w1 : World) (r : result) :
  grows w w1 -> returns w1 r -> returns w r.
Proof. destruct r; cbn; intros; try tauto; eauto using grows_trans. Qed.

Lemma returns_done_after (w w1 : World) (r : result) :
  grows w w1 -> returns_done w1 r -> returns_done w r.
Proof. destruct r; cbn; intros; try tauto; eauto using grows_trans. Qed.

Lemma sendMessage_cases (p : BaseProvider) (request : list value) (w w' : World)
    (o : outcome LlmResponse) :
  sendMessage p request w = (o, w') ->
  (w' = w /\ forall response, o <> Returned response)
  \/ (w' = record (Sent request) w /\ llm w = []
      /\ forall response, o <> Returned response)
  \/ (exists answer rest,
        llm w = answer :: rest
        /\ w' = mkWorld (client w) (env w) rest (callTool w) (now w)
                  (trace w ++ [Sent request])).
Proof.
  unfold sendMessage.
  destruct (kind p), (chatSession p); cbn [record llm client env callTool now trace];
    try (intros [= <- <-]; left; split; [reflexivity|discriminate]);
    (destruct (llm w) as [|answer rest];
     [intros [= <- <-]; right; left; repeat split; discriminate|]);
    repeat match goal with
           | |- context [match ?x with _ => _ end] => destruct x
           end;
    intros [= <- <-]; right; right; eexists _, _; split; reflexivity.
Qed.

Lemma sendMessage_grows (p : BaseProvider) (request : list value) (w w' : World)
    (o : outcome LlmResponse) :
  sendMessage p request w = (o, w') ->
  grows w w'
  /\ client w' = client w
  /\ (forall response, o = Returned response ->
      length (llm w) = S (length (llm w'))).
Proof.
  intros Hsend. apply sendMessage_cases in Hsend.
  destruct Hsend as [[-> Hno]|[(-> & Hllm & Hno)|(answer & rest & Hllm & ->)]].
  - split; [apply grows_refl|]. split; [reflexivity|].
    intros response ->. destruct (Hno response eq_refl).
  - split; [|split; [reflexivity|intros response ->; destruct (Hno response eq_refl)]].
    unfold grows. cbn. repeat split; try reflexivity.
    + intros _. exists []. rewrite app_nil_r. reflexivity.
    + eexists. reflexivity.
    + exists []. reflexivity.
  - split; [|split; [reflexivity|intros; rewrite Hllm; reflexivity]].
    unfold grows. cbn. repeat split; try reflexivity.
    + intros _. exists []. rewrite app_nil_r. reflexivity.
    + eexists. reflexivity.
    + exists [answer]. exact Hllm.
Qed.

(** What the induction over the nesting depth assumes of
    [handleLLMResponse] and of [continueConversation]: they return when the
    back-end has fewer answers left than the depth allows. *)
Definition handles (n : nat) (handle : option LlmResponse -> World -> result)
  : Prop :=
  forall r w, (length (llm w) < n)%nat -> returns w (handle r w).

Definition continues (n : nat) (continue : World -> result) : Prop :=
  forall w,
    provider_named (llmProvider (client w)) <> None ->
    (length (llm w) <= n)%nat ->
    returns_done w (continue w).

Lemma grows_trimmed (w : World) :
  provider_named (llmProvider (client w)) <> Some Google ->
  grows w (with_client (_trimConversationHistory (client w)) w).
Proof.
  intros Hstateless. destruct (trim_fields (client w)) as (Hname & _ & Hbound).
  unfold grows. cbn [client with_client trace llm callTool env now].
  repeat split; try reflexivity; try assumption.
  - intros [Hnone|Hgoogle]; [|contradiction].
    unfold _trimConversationHistory. rewrite Hnone. exists [].
    rewrite app_nil_r. reflexivity.
  - exists []. rewrite app_nil_r. reflexivity.
  - exists []. reflexivity.
  - rewrite Hname. reflexivity.
Qed.

Lemma request_grows (p : BaseProvider) (w w' : World) (o : outcome LlmResponse) :
  provider_named (llmProvider (client w)) <> Some Google ->
  request p w = (o, w') ->
  grows w w'
  /\ (forall response, o = Returned response ->
      length (llm w) = S (length (llm w'))).
Proof.
  intros Hstateless. unfold request. intros Hsend.
  apply sendMessage_grows in Hsend. destruct Hsend as (Hgrows & _ & Hused).
  split; [exact (grows_trans _ _ _ (grows_trimmed w Hstateless) Hgrows)|].
  exact Hused.
Qed.

Lemma grows_with_client (st : Client) (w : World) :
  conversation st = conversation (client w) ->
  maxConversationHistoryLength st = maxConversationHistoryLength (client w) ->
  provider_named (llmProvider st) = provider_named (llmProvider (client w)) ->
  grows w (with_client st w).
Proof.
  intros Hconv Hbound Hname. unfold grows.
  cbn [client with_client trace llm callTool env now].
  repeat split; try reflexivity; try assumption.
  - intros _. exists []. rewrite app_nil_r. exact Hconv.
  - exists []. rewrite app_nil_r. reflexivity.
  - exists []. reflexivity.
Qed.

Lemma ensure_instance_grows (providerName error : string)
    (displayModel : option string) (modelVar defaultModel : string)
    (w w' : World) (o : outcome BaseProvider) :
  provider_named (llmProvider (client w))
  = provider_named (Some (Text.toLowerCase providerName)) ->
  provider_named (llmProvider (client w)) <> None ->
  ensure_instance providerName error displayModel modelVar defaultModel w
  = (o, w') ->
  grows w w'.
Proof.
  intros Hname Hknown. unfold ensure_instance.
  destruct (currentLlmProviderInstance (client w));
    [intros [= <- <-]; apply grows_refl|].
  match goal with
  | |- context [setLLMProvider ?a ?b ?c ?d ?e] =>
      pose proof (setLLMProvider_keeps a b c d e) as (Hconv & _ & Hbound & _);
      pose proof (setLLMProvider_success a b c d e) as Hsuccess;
      pose proof (setLLMProvider_failure a b c d e) as Hfailure;
      destruct (setLLMProvider a b c d e) as [[] st]
  end; cbn [snd] in *.
  - destruct (Hsuccess st eq_refl) as (k & p & Hk & Hstored & _).
    assert (Hgrows : grows w (with_client st w)).
    { apply grows_with_client; [exact Hconv|exact Hbound|].
      rewrite Hstored, provider_named_name, Hname. symmetry. exact Hk. }
    destruct (currentLlmProviderInstance st); intros [= <- <-]; exact Hgrows.
  - destruct (Hfailure st eq_refl) as [Hstored _].
    intros [= <- <-]. apply grows_with_client; [exact Hconv|exact Hbound|].
    rewrite Hstored. reflexivity.
Qed.

Lemma stateless_steps_returns (n : nat)
    (handle : option LlmResponse -> World -> result)
    (providerName error : string) (displayModel : option string)
    (modelVar defaultModel : string) (w : World) :
  handles n handle ->
  provider_named (llmProvider (client w))
  = provider_named (Some (Text.toLowerCase providerName)) ->
  provider_named (llmProvider (client w)) <> None ->
  provider_named (llmProvider (client w)) <> Some Google ->
  (length (llm w) <= n)%nat ->
  let '(r, o) :=
    stateless_steps handle providerName error displayModel modelVar
      defaultModel w in
  returns w r
  /\ (forall w1 response,
        r = Done w1 -> o = Some response ->
        (length (llm w1) < length (llm w))%nat).
Proof.
  intros Hhandle Hname Hknown Hstateless Hlen. unfold stateless_steps.
  destruct (ensure_instance _ _ _ _ _ w) as [[p|e] w0] eqn:Hensure;
    apply ensure_instance_grows in Hensure; try assumption;
    [|split; [exact Hensure|discriminate]].
  assert (Hstateless0 : provider_named (llmProvider (client w0)) <> Some Google).
  { destruct Hensure as (_ & _ & _ & _ & _ & _ & _ & ->). exact Hstateless. }
  destruct (request p w0) as [[response|e] w1] eqn:Hrequest;
    apply request_grows in Hrequest; try assumption;
    destruct Hrequest as [Hgrows1 Hused];
    [|split; [exact (grows_trans _ _ _ Hensure Hgrows1)|discriminate]].
  specialize (Hused response eq_refl).
  pose proof (grows_llm_length _ _ Hensure) as Hlen0.
  assert (Hreturns : returns w1 (handle (Some response) w1))
    by (apply Hhandle; lia).
  split.
  - exact (returns_after _ _ _ (grows_trans _ _ _ Hensure Hgrows1) Hreturns).
  - intros w2 response' Hdone _. rewrite Hdone in Hreturns. cbn in Hreturns.
    apply grows_llm_length in Hreturns. lia.
Qed.

Lemma openai_image_step_returns (n : nat)
    (handle : option LlmResponse -> World -> result) (response : LlmResponse)
    (w : World) :
  handles n handle ->
  provider_named (llmProvider (client w)) = Some OpenAI ->
  (length (llm w) <= n)%nat ->
  returns w (openai_image_step handle response w).
Proof.
  intros Hhandle Hname Hlen. unfold openai_image_step.
  repeat match goal with
         | |- returns _ (Done _) => apply grows_refl
         | |- returns _ (Raised _ _) => apply grows_refl
         | |- returns w (match ?x with _ => _ end) =>
             lazymatch x with
             | request _ _ => fail
             | currentLlmProviderInstance (client (push _ _)) => fail
             | _ => destruct x
             end
         end.
  match goal with
  | |- context [push ?m w] => set (w1 := push m w)
  end.
  assert (Hgrows1 : grows w w1) by apply grows_push.
  destruct (currentLlmProviderInstance (client w1)) as [p1|];
    [|exact Hgrows1].
  assert (Hname1 : provider_named (llmProvider (client w1)) <> Some Google).
  { change (llmProvider (client w1)) with (llmProvider (client w)).
    rewrite Hname. discriminate. }
  destruct (request p1 w1) as [[response2|e] w2] eqn:Hrequest;
    apply request_grows in Hrequest; try assumption;
    destruct Hrequest as [Hgrows2 Hused];
    [|exact (grows_trans _ _ _ Hgrows1 Hgrows2)].
  specialize (Hused response2 eq_refl).
  apply (returns_after _ _ _ (grows_trans _ _ _ Hgrows1 Hgrows2)).
  apply Hhandle. change (llm w1) with (llm w) in Hused. lia.
Qed.

Lemma google_steps_returns (n : nat)
    (handle : option LlmResponse -> World -> result) (googleProvider : BaseProvider)
    (w : World) :
  handles n handle ->
  (length (llm w) <= n)%nat ->
  returns w (google_steps handle googleProvider w).
Proof.
  intros Hhandle Hlen. unfold google_steps.
  destruct (last (conversation (client w))) as [lastMessage|]; [|apply grows_refl].
  destruct (role lastMessage); try apply grows_refl.
  destruct (sendMessage googleProvider _ w) as [[response1|e] w1] eqn:Hsend1;
    apply sendMessage_grows in Hsend1; destruct Hsend1 as (Hgrows1 & _ & Hused1);
    [|exact Hgrows1].
  specialize (Hused1 response1 eq_refl).
  assert (Hreturns1 : returns w1 (handle (Some response1) w1))
    by (apply Hhandle; lia).
  destruct (handle (Some response1) w1) as [w2|e w2|] eqn:Hhandled; cbn in Hreturns1;
    [|exact (grows_trans _ _ _ Hgrows1 Hreturns1)|destruct Hreturns1].
  pose proof (grows_trans _ _ _ Hgrows1 Hreturns1) as Hgrows2.
  pose proof (grows_llm_length _ _ Hreturns1) as Hlen2.
  destruct (extractImageFromToolResult_of googleProvider (content lastMessage))
    as [imageDetails|e]; [|exact Hgrows2].
  destruct (ToolResultText.found_image imageDetails); [|exact Hgrows2].
  destruct (prepareImageMessageParts_of _ _ _ _ _) as [imageMessageParts|e];
    [|exact Hgrows2].
  destruct (sendMessage googleProvider imageMessageParts w2)
    as [[response2|e] w3] eqn:Hsend2;
    apply sendMessage_grows in Hsend2; destruct Hsend2 as (Hgrows3 & _ & Hused3);
    [|exact (grows_trans _ _ _ Hgrows2 Hgrows3)].
  specialize (Hused3 response2 eq_refl).
  apply (returns_after _ _ _ (grows_trans _ _ _ Hgrows2 Hgrows3)).
  apply Hhandle. lia.
Qed.

Lemma continue_body_returns (n : nat)
    (handle : option LlmResponse -> World -> result) (w : World) :
  handles n handle ->
  (provider_named (llmProvider (client w)) <> None ->
   (length (llm w) <= n)%nat) ->
  (provider_named (llmProvider (client w)) = None ->
   (length (llm w) < n)%nat) ->
  returns w (continue_body handle w).
Proof.
  intros Hhandle Hknown Hunknown. unfold continue_body.
  destruct (provider_named (llmProvider (client w))) as [k|] eqn:Hname;
    [|apply Hhandle, Hunknown; reflexivity].
  assert (Hlen : (length (llm w) <= n)%nat) by (apply Hknown; discriminate).
  destruct k.
  - match goal with
    | |- context [stateless_steps handle ?a ?b ?c ?d ?e w] =>
        pose proof (stateless_steps_returns n handle a b c d e w Hhandle) as Hsteps;
        destruct (stateless_steps handle a b c d e w) as [r o]
    end.
    apply Hsteps; rewrite ?Hname; try discriminate; [reflexivity|exact Hlen].
  - match goal with
    | |- context [stateless_steps handle ?a ?b ?c ?d ?e w] =>
        pose proof (stateless_steps_returns n handle a b c d e w Hhandle) as Hsteps;
        destruct (stateless_steps handle a b c d e w) as [r o]
    end.
    destruct Hsteps as [Hreturns Hshorter];
      rewrite ?Hname; try discriminate; [reflexivity|exact Hlen|].
    destruct r as [w1|e w1|]; [|exact Hreturns|exact Hreturns].
    destruct o as [response|]; [|exact Hreturns].
    cbn in Hreturns. apply (returns_after _ _ _ Hreturns).
    specialize (Hshorter w1 response eq_refl eq_refl).
    apply (openai_image_step_returns n); [exact Hhandle| |lia].
    destruct Hreturns as (_ & _ & _ & _ & _ & _ & _ & ->). exact Hname.
  - destruct (ensure_instance _ _ _ _ _ w) as [[p|e] w0] eqn:Hensure;
      apply ensure_instance_grows in Hensure;
      rewrite ?Hname; try discriminate; try reflexivity; [|exact Hensure].
    apply (returns_after _ _ _ Hensure).
    apply (google_steps_returns n); [exact Hhandle|].
    apply grows_llm_length in Hensure. lia.
  - match goal with
    | |- context [stateless_steps handle ?a ?b ?c ?d ?e w] =>
        pose proof (stateless_steps_returns n handle a b c d e w Hhandle) as Hsteps;
        destruct (stateless_steps handle a b c d e w) as [r o]
    end.
    apply Hsteps; rewrite ?Hname; try discriminate; [reflexivity|exact Hlen].
Qed.

Lemma continue_with_returns (n : nat)
    (handle : option LlmResponse -> World -> result) (w : World) :
  handles n handle ->
  (provider_named (llmProvider (client w)) <> None ->
   (length (llm w) <= n)%nat) ->
  (provider_named (llmProvider (client w)) = None ->
   (length (llm w) < n)%nat) ->
  returns_done w (continue_with handle w).
Proof.
  intros Hhandle Hknown Hunknown. unfold continue_with.
  pose proof (continue_body_returns n handle w Hhandle Hknown Hunknown) as Hbody.
  destruct (continue_body handle w) as [w1|e w1|]; cbn in *;
    [exact Hbody| |exact Hbody].
  exact (grows_trans _ _ _ Hbody
           (grows_trans _ _ _ (grows_note _ _) (grows_push _ _))).
Qed.

Lemma run_tool_returns (n : nat) (continue : World -> result)
    (toolCall : ToolCall) (w : World) :
  continues n continue ->
  provider_named (llmProvider (client w)) <> None ->
  (length (llm w) <= n)%nat ->
  returns_done w (run_tool continue toolCall w).
Proof.
  intros Hcontinue Hknown Hlen. unfold run_tool.
  destruct (callTool w (tc_name toolCall) (tc_args toolCall)) as [toolResult|e].
  - match goal with
    | |- context [continue ?w1] =>
        pose proof (Hcontinue w1 Hknown Hlen) as Hreturns;
        destruct (continue w1) as [w2|e w2|]; cbn in *;
        [|exact Hreturns|exact Hreturns]
    end.
    exact (grows_trans _ _ _ (grows_push _ _)
             (grows_trans _ _ _ Hreturns (grows_augment _ _ _))).
  - match goal with
    | |- context [continue ?w1] =>
        pose proof (Hcontinue w1 Hknown Hlen) as Hreturns
    end.
    apply (returns_done_after _ _ _
             (grows_trans _ _ _ (grows_note _ w) (grows_push _ _)) Hreturns).
Qed.

Lemma run_tools_returns (n : nat) (continue : World -> result)
    (toolCalls : list ToolCall) (w : World) :
  continues n continue ->
  provider_named (llmProvider (client w)) <> None ->
  (length (llm w) <= n)%nat ->
  returns_done w (run_tools continue toolCalls w).
Proof.
  intros Hcontinue. revert w.
  induction toolCalls as [|toolCall rest IH]; intros w Hknown Hlen;
    [apply grows_refl|].
  cbn [run_tools].
  pose proof (run_tool_returns n continue toolCall w Hcontinue Hknown Hlen)
    as Hfirst.
  destruct (run_tool continue toolCall w) as [w1|e w1|]; cbn in Hfirst;
    [|destruct Hfirst|destruct Hfirst].
  apply (returns_done_after _ _ _ Hfirst). apply IH.
  - exact (grows_known _ _ Hfirst Hknown).
  - apply grows_llm_length in Hfirst. lia.
Qed.

Lemma handle_with_returns (n : nat) (continue : World -> result)
    (response : option LlmResponse) (w : World) :
  continues n continue ->
  (length (llm w) <= n)%nat ->
  returns w (handle_with continue response w).
Proof.
  intros Hcontinue Hlen. unfold handle_with.
  match goal with
  | |- context [match ?x with Returned _ => _ | Thrown _ => _ end] =>
      destruct x as [[textContent toolCalls]|e] eqn:Hextracted
  end; [|apply grows_refl].
  match goal with
  | |- context [run_tools continue _ ?w1] => set (w2 := w1)
  end.
  assert (Hgrows : grows w w2).
  { subst w2. destruct (str_truthy textContent);
      [exact (grows_trans _ _ _ (grows_push _ _) (grows_note _ _))
      |apply grows_push]. }
  apply (returns_after _ _ _ Hgrows).
  destruct toolCalls as [[|toolCall rest]|]; try apply grows_refl.
  apply returns_done_returns. apply (run_tools_returns n); [exact Hcontinue| |].
  - apply (grows_known _ _ Hgrows).
    unfold known_provider in Hextracted.
    destruct (provider_named (llmProvider (client w))); [discriminate|].
    discriminate Hextracted.
  - apply grows_llm_length in Hgrows. lia.
Qed.

(** With more fuel than the back-end has answers left, the model of
    [handleLLMResponse] returns. *)
Lemma handleLLMResponse_returns (fuel : nat) : handles fuel (handleLLMResponse fuel).
Proof.
  induction fuel as [|fuel IH]; intros r w Hlen; [lia|].
  cbn [handleLLMResponse]. apply (handle_with_returns fuel); [|lia].
  intros w0 Hknown Hlen0. apply (continue_with_returns fuel); [exact IH|auto|].
  intros Hunknown. contradiction.
Qed.

Lemma continueConversation_returns (fuel : nat) (w : World) :
  (length (llm w) < fuel)%nat ->
  returns_done w (continueConversation fuel w).
Proof.
  intros Hlen. unfold continueConversation.
  apply (continue_with_returns fuel); [apply handleLLMResponse_returns|lia|auto].
Qed.

Lemma query_body_returns (n : nat)
    (handle : option LlmResponse -> World -> result) (w : World) :
  handles n handle ->
  (provider_named (llmProvider (client w)) <> None ->
   (length (llm w) <= n)%nat) ->
  (provider_named (llmProvider (client w)) = None ->
   (length (llm w) < n)%nat) ->
  returns w (query_body handle w).
Proof.
  intros Hhandle Hknown Hunknown. unfold query_body.
  destruct (provider_named (llmProvider (client w))) as [k|] eqn:Hname;
    [|apply Hhandle, Hunknown; reflexivity].
  assert (Hlen : (length (llm w) <= n)%nat) by (apply Hknown; discriminate).
  destruct k;
    try (match goal with
         | |- context [stateless_steps handle ?a ?b ?c ?d ?e w] =>
             pose proof (stateless_steps_returns n handle a b c d e w Hhandle)
               as Hsteps;
             destruct (stateless_steps handle a b c d e w) as [r o]
         end;
         apply Hsteps; rewrite ?Hname; try discriminate;
         [reflexivity|exact Hlen]).
  destruct (ensure_instance _ _ _ _ _ w) as [[p|e] w0] eqn:Hensure;
    apply ensure_instance_grows in Hensure;
    rewrite ?Hname; try discriminate; try reflexivity; [|exact Hensure].
  apply (returns_after _ _ _ Hensure).
  match goal with
  | |- context [match ?x with Some parts => _ | None => _ end] =>
      destruct x as [parts|]
  end; [|apply grows_refl].
  destruct (sendMessage p parts w0) as [[response|e] w1] eqn:Hsend;
    apply sendMessage_grows in Hsend; destruct Hsend as (Hgrows1 & _ & Hused);
    [|exact Hgrows1].
  specialize (Hused response eq_refl).
  apply (returns_after _ _ _ Hgrows1). apply Hhandle.
  apply grows_llm_length in Hensure. lia.
Qed.

Lemma processQuery_returns (fuel : nat) (query : string) (w : World) :
  (length (llm w) < fuel)%nat ->
  exists w',
    processQuery fuel query w = Done w'
    /\ grows (push (userMessage (Str query)) w) w'.
Proof.
  intros Hlen. unfold processQuery.
  match goal with
  | |- context [query_body _ ?w1] => set (w0 := w1)
  end.
  assert (Hgrows0 : grows (push (userMessage (Str query)) w) w0)
    by apply grows_note.
  pose proof (query_body_returns fuel (handleLLMResponse fuel) w0
                (handleLLMResponse_returns fuel)) as Hbody.
  assert (Hlen0 : (length (llm w0) < fuel)%nat) by exact Hlen.
  specialize (Hbody ltac:(lia) ltac:(lia)).
  destruct (query_body (handleLLMResponse fuel) w0) as [w1|e w1|]; cbn in Hbody;
    [| |destruct Hbody]; eexists; (split; [reflexivity|]).
  - exact (grows_trans _ _ _ Hgrows0 Hbody).
  - exact (grows_trans _ _ _ Hgrows0
             (grows_trans _ _ _ Hbody
                (grows_trans _ _ _ (grows_note _ _)
                   (grows_trans _ _ _ (grows_note _ _) (grows_push _ _))))).
Qed.

(** X8. [processQuery] returns normally whatever the provider and the back-end
    do: a missing instance, a failed request and an exception of an
    extractor all end in an assistant message. The query is the first
    message it appends, and the answers of the back-end are consumed in
    order. (The model needs more fuel than there are answers left.) *)
Theorem processQuery_never_throws (fuel : nat) (query : string) (w : World) :
  (length (llm w) < fuel)%nat ->
  exists w' steps used,
    processQuery fuel query w = Done w'
    /\ trace w' = trace w ++ Appended (userMessage (Str query)) :: steps
    /\ llm w = used ++ llm w'.
Proof.
  intros Hlen.
  destruct (processQuery_returns fuel query w Hlen)
    as (w' & Hdone & _ & [steps Hsteps] & [used Hused] & _).
  exists w', steps, used. split; [exact Hdone|]. split; [|exact Hused].
  rewrite Hsteps. cbn. rewrite <- app_assoc. reflexivity.
Qed.

(** X9. A client without a history bound never drops or rewrites a message:
    after [processQuery] the history is the old one, the query, and what
    the exchange added; after [continueConversation] it is the old one and
    what the continuation added. *)
Theorem history_is_extended_without_bound (fuel : nat) (query : string)
    (w : World) :
  maxConversationHistoryLength (client w) = None ->
  (length (llm w) < fuel)%nat ->
  (exists w' more,
     processQuery fuel query w = Done w'
     /\ conversation (client w')
        = conversation (client w) ++ userMessage (Str query) :: more)
  /\ (exists w' more,
        continueConversation fuel w = Done w'
        /\ conversation (client w') = conversation (client w) ++ more).
Proof.
  intros Hbound Hlen. split.
  - destruct (processQuery_returns fuel query w Hlen)
      as (w' & Hdone & Hhistory & _).
    destruct Hhistory as [more Hmore]; [left; exact Hbound|].
    exists w', more. split; [exact Hdone|].
    rewrite Hmore. cbn. rewrite <- app_assoc. reflexivity.
  - pose proof (continueConversation_returns fuel w Hlen) as Hreturns.
    destruct (continueConversation fuel w) as [w'|e w'|]; cbn in Hreturns;
      [|destruct Hreturns|destruct Hreturns].
    destruct Hreturns as (Hhistory & _).
    destruct Hhistory as [more Hmore]; [left; exact Hbound|].
    exists w', more. split; [reflexivity|exact Hmore].
Qed.

(** X10. Under the Google provider the history bound is never applied: neither
    [processQuery] nor [continueConversation] nor [handleLLMResponse] trims
    on that branch. After [processQuery] the history is the old one, the
    query and what the exchange added, the bound is still stored, and a
    history that had reached the bound is now longer than it. *)
Theorem google_history_exceeds_bound (fuel : nat) (query : string) (w : World)
    (bound : Z) :
  provider_named (llmProvider (client w)) = Some Google ->
  maxConversationHistoryLength (client w) = Some bound ->
  (length (llm w) < fuel)%nat ->
  exists w' more,
    processQuery fuel query w = Done w'
    /\ conversation (client w')
       = conversation (client w) ++ userMessage (Str query) :: more
    /\ maxConversationHistoryLength (client w') = Some bound
    /\ (bound <= Z.of_nat (length (conversation (client w))) ->
        bound < Z.of_nat (length (conversation (client w')))).
Proof.
  intros Hgoogle Hbound Hlen.
  destruct (processQuery_returns fuel query w Hlen)
    as (w' & Hdone & Hhistory & _ & _ & _ & _ & _ & Hkept & _).
  destruct Hhistory as [more Hmore]; [right; exact Hgoogle|].
  exists w', more. split; [exact Hdone|].
  assert (Hconv : conversation (client w')
                  = conversation (client w) ++ userMessage (Str query) :: more).
  { rewrite Hmore. cbn. rewrite <- app_assoc. reflexivity. }
  split; [exact Hconv|]. split; [rewrite Hkept; exact Hbound|].
  rewrite Hconv, length_app. cbn [length]. lia.
Qed.













End Loop.

(** Worlds for the loop: a back-end that fails, a Google client with a
    history bound that its history has reached, and an answer of the
    OpenAI back-end that calls a tool. *)
Module LoopSample.

Definition failing_world : MCPClient.World :=
  Sample.world (Sample.client_of "openai" Sample.openai_instance)
    [Thrown "503 overloaded"].

Definition bounded_google_world : MCPClient.World :=
  Sample.world
    (MCPClient.mkClient (Some "google") Sample.history_with_screenshot
       "be brief" (Some 3) (Some Sample.google_instance)
       None None (Some "gemini") None [] [])
    [Returned (MCPClient.FromGoogle (Sample.gemini_says "Hello."))].






End LoopSample.

Lemma processQuery_never_throws_witness :
  exists w' steps used,
    @MCPClient.processQuery Sample.builtins 2 "hello" LoopSample.failing_world
    = MCPClient.Done w'
    /\ MCPClient.trace w'
       = MCPClient.Appended (userMessage (Str "hello")) :: steps
    /\ MCPClient.llm LoopSample.failing_world = used ++ MCPClient.llm w'.
Proof.
  apply (@processQuery_never_throws Sample.builtins 2 "hello"
           LoopSample.failing_world).
  cbn. lia.
Defined.

Lemma history_is_extended_without_bound_witness :
  exists w' more,
    @MCPClient.processQuery Sample.builtins 3 "And now?" Sample.openai_world
    = MCPClient.Done w'
    /\ MCPClient.conversation (MCPClient.client w')
       = Sample.history_with_screenshot
         ++ userMessage (Str "And now?") :: more.
Proof.
  apply (@history_is_extended_without_bound Sample.builtins 3 "And now?"
           Sample.openai_world eq_refl).
  cbn. lia.
Defined.

Lemma google_history_exceeds_bound_witness :
  exists w',
    @MCPClient.processQuery Sample.builtins 2 "hello"
      LoopSample.bounded_google_world
    = MCPClient.Done w'
    /\ MCPClient.maxConversationHistoryLength (MCPClient.client w') = Some 3
    /\ 3 < Z.of_nat (length (MCPClient.conversation (MCPClient.client w'))).
Proof.
  destruct (@google_history_exceeds_bound Sample.builtins 2 "hello"
              LoopSample.bounded_google_world 3 eq_refl eq_refl)
    as (w' & more & Hdone & _ & Hbound & Hlonger).
  - cbn. lia.
  - exists w'. split; [exact Hdone|]. split; [exact Hbound|].
    apply Hlonger. cbn. lia.
Defined.



(* ===================================================================== *)
(** * Properties of the command line                                       *)
(* ===================================================================== *)

Section Commands.
Import MCPClient.
Context `{Builtins}.

Lemma trim_end_blank (s : string) : Text.blank s = true -> Text.trim_end s = "".
Proof.
  induction s as [|a s' IH]; [reflexivity|]. cbn.
  intros Hblank. apply andb_true_iff in Hblank. destruct Hblank as [Ha Hs'].
  rewrite (IH Hs'), Ha. reflexivity.
Qed.

Lemma trim_end_empty (s : string) : Text.trim_end s = "" -> Text.blank s = true.
Proof.
  induction s as [|a s' IH]; [reflexivity|]. cbn.
  destruct (Text.trim_end s') as [|b t]; [|discriminate].
  destruct (Text.is_space a); [|discriminate]. intros _. exact (IH eq_refl).
Qed.

Lemma trim_end_idempotent (s : string) :
  Text.trim_end (Text.trim_end s) = Text.trim_end s.
Proof.
  induction s as [|a s' IH]; [reflexivity|]. cbn [Text.trim_end].
  destruct (Text.trim_end s') as [|b t] eqn:E.
  - destruct (Text.is_space a) eqn:Ha; [reflexivity|]. cbn. rewrite Ha. reflexivity.
  - cbn [Text.trim_end] in *. rewrite IH. reflexivity.
Qed.

Lemma trim_end_blank_suffix (s t : string) :
  Text.blank t = true -> Text.trim_end (s +:+ t) = Text.trim_end s.
Proof.
  intros Hblank. induction s as [|a s' IH]; [exact (trim_end_blank t Hblank)|].
  change (String a s' +:+ t) with (String a (s' +:+ t)).
  cbn [Text.trim_end]. rewrite IH. reflexivity.
Qed.

Lemma skip_space_blank (s : string) :
  Text.blank (Text.skip_space s) = true -> Text.blank s = true.
Proof.
  induction s as [|a s' IH]; [reflexivity|]. cbn.
  destruct (Text.is_space a) eqn:Ha; [exact IH|].
  cbn. rewrite Ha. discriminate.
Qed.

Lemma trim_empty (s : string) : Text.trim s = "" -> Text.blank s = true.
Proof. intros Htrim. apply skip_space_blank, trim_end_empty. exact Htrim. Qed.

Lemma strip_prefix_app (p s rest : string) :
  Text.strip_prefix p s = Some rest -> s = p +:+ rest.
Proof.
  revert s. induction p as [|a p' IH]; intros s; cbn.
  - intros [= ->]. reflexivity.
  - destruct s as [|b s']; [discriminate|].
    destruct (Ascii.eqb_spec a b) as [->|]; [|discriminate].
    intros Hrest. rewrite (IH _ Hrest). reflexivity.
Qed.

Lemma substring_all (s : string) (m : nat) :
  (String.length s <= m)%nat -> String.substring 0 m s = s.
Proof.
  revert m. induction s as [|a s' IH]; intros m Hm; [destruct m; reflexivity|].
  destruct m as [|m']; [cbn in Hm; lia|]. cbn. rewrite IH; [reflexivity|].
  cbn in Hm. lia.
Qed.

(** The text after [/setsystem ] in a trimmed line is never blank. *)
Lemma setsystem_argument (line rest : string) :
  Text.trim line = "/setsystem " +:+ rest ->
  str_truthy (Text.trim rest) = true.
Proof.
  intros Hinput. destruct (Text.trim rest) eqn:Hrest; [|reflexivity].
  exfalso. apply trim_empty in Hrest.
  pose proof (trim_end_idempotent (Text.skip_space line)) as Hidem.
  fold (Text.trim line) in Hidem. rewrite Hinput in Hidem.
  rewrite (trim_end_blank_suffix _ _ Hrest) in Hidem.
  vm_compute in Hidem. discriminate Hidem.
Qed.

Lemma setsystem_command_updates (input : string) (env : Env) (st : Client) :
  let newSystemMessage :=
    Text.trim (String.substring 11 (String.length input) input) in
  str_truthy newSystemMessage = true ->
  systemMessage (setsystem_command input env st) = newSystemMessage
  /\ conversation (setsystem_command input env st) = conversation st.
Proof.
  intros newSystemMessage Htruthy. unfold setsystem_command.
  fold newSystemMessage. rewrite Htruthy.
  match goal with
  | |- context [provider_named (llmProvider ?st1)] =>
      destruct (provider_named (llmProvider st1)) as [[]|]
  end; try (split; reflexivity).
  match goal with
  | |- context [setLLMProvider ?a ?b ?c ?d ?e] =>
      pose proof (setLLMProvider_keeps a b c d e) as (Hconv & Hsystem & _);
      destruct (setLLMProvider a b c d e) as [[] st']
  end; cbn [snd] in *; split; cbn; try rewrite Hsystem; try rewrite Hconv;
    reflexivity.
Qed.

Lemma setsystem_rest (rest : string) :
  String.substring 11 (String.length ("/setsystem " +:+ rest))
    ("/setsystem " +:+ rest)
  = rest.
Proof.
  change (String.substring 0 (11 + String.length rest) rest = rest).
  apply substring_all. lia.
Qed.

(** X13. The usage text of [/setsystem] is never printed. A line is trimmed
    before it is matched against [/setsystem ], so what follows the command
    is never blank: the system message is replaced, nothing is sent and the
    history is unchanged. The command alone, [/setsystem], matches no
    command: it is sent to the provider as a query. *)
Theorem setsystem_usage_is_unreachable (fuel : nat) (line : string) (w : World) :
  (forall rest,
     Text.trim line = "/setsystem " +:+ rest ->
     exists w',
       on_line fuel line w = Prompted w'
       /\ str_truthy (Text.trim rest) = true
       /\ systemMessage (client w') = Text.trim rest
       /\ conversation (client w') = conversation (client w)
       /\ trace w' = trace w
       /\ llm w' = llm w)
  /\ (Text.trim line = "/setsystem" ->
      (length (llm w) < fuel)%nat ->
      exists w' steps,
        on_line fuel line w = Prompted w'
        /\ trace w'
           = trace w ++ Appended (userMessage (Str "/setsystem")) :: steps).
Proof.
  split.
  - intros rest Hinput.
    pose proof (setsystem_argument line rest Hinput) as Htruthy.
    eexists. split.
    { unfold on_line. rewrite Hinput. reflexivity. }
    split; [exact Htruthy|].
    pose proof (setsystem_command_updates ("/setsystem " +:+ rest) (env w)
                  (client w)) as Hupdates.
    cbv zeta in Hupdates. rewrite setsystem_rest in Hupdates.
    destruct (Hupdates Htruthy) as [Hsystem Hconv].
    repeat split; assumption.
  - intros Hinput Hlen. unfold on_line. rewrite Hinput.
    change (exists w' steps,
               match processQuery fuel "/setsystem"
                       (note (ConsoleLog "Processing your request...") w) with
               | Done w0 => Prompted w0
               | Raised error w0 =>
                   Prompted (note (ConsoleError ("Error: " +:+ error))
                               (note (LogError ("Error processing query: "
                                                +:+ error)) w0))
               | OutOfFuel => NoFuel
               end = Prompted w'
               /\ trace w'
                  = trace w ++ Appended (userMessage (Str "/setsystem")) :: steps).
    destruct (processQuery_returns fuel "/setsystem"
                (note (ConsoleLog "Processing your request...") w) Hlen)
      as (w' & -> & _ & [steps Hsteps] & _).
    exists w', steps. split; [reflexivity|].
    rewrite Hsteps. cbn. rewrite <- app_assoc. reflexivity.
Qed.

(** A word: no white space in it. *)
Fixpoint nospace (s : string) : bool :=
  match s with
  | EmptyString => true
  | String a s' => (negb (Text.is_space a) && nospace s')%bool
  end.

Lemma trim_end_nospace (m : string) : nospace m = true -> Text.trim_end m = m.
Proof.
  induction m as [|a m' IH]; [reflexivity|]. cbn.
  intros Hm. apply andb_true_iff in Hm. destruct Hm as [Ha Hm'].
  rewrite (IH Hm'). destruct m'; [|reflexivity].
  apply negb_true_iff in Ha. rewrite Ha. reflexivity.
Qed.

Lemma trim_end_keeps_prefix (s x : string) :
  Text.trim_end x = x -> x <> "" -> Text.trim_end (s +:+ x) = s +:+ x.
Proof.
  intros Hx Hne. induction s as [|a s' IH]; [exact Hx|].
  change (String a s' +:+ x) with (String a (s' +:+ x)).
  cbn [Text.trim_end]. rewrite IH.
  destruct (s' +:+ x) eqn:E; [|reflexivity].
  destruct s'; [|discriminate E]. contradiction.
Qed.

Lemma nospace_free (s : string) : nospace s = true -> free_of " " s = true.
Proof.
  induction s as [|a s' IH]; [reflexivity|]. cbn.
  intros Hs. apply andb_true_iff in Hs. destruct Hs as [Ha Hs'].
  rewrite (IH Hs'), andb_true_r.
  destruct (Ascii.eqb_spec a " ") as [->|]; [discriminate Ha|reflexivity].
Qed.

Lemma split_single (c : ascii) (a : string) :
  free_of c a = true -> Text.split c a = [a].
Proof.
  induction a as [|x a' IH]; [reflexivity|]. cbn.
  intros Ha. apply andb_true_iff in Ha. destruct Ha as [Hx Ha'].
  apply negb_true_iff in Hx. rewrite Hx, (IH Ha'). reflexivity.
Qed.

Lemma split_piece (c : ascii) (a b : string) :
  free_of c a = true ->
  Text.split c (a +:+ String c b) = a :: Text.split c b.
Proof.
  induction a as [|x a' IH].
  - intros _. change (EmptyString +:+ String c b) with (String c b).
    cbn. rewrite Ascii.eqb_refl. reflexivity.
  - cbn [free_of]. intros Ha. apply andb_true_iff in Ha. destruct Ha as [Hx Ha'].
    apply negb_true_iff in Hx.
    change (String x a' +:+ String c b) with (String x (a' +:+ String c b)).
    cbn [Text.split]. rewrite Hx, (IH Ha'). reflexivity.
Qed.

(** X14. [/setprovider NAME MODEL], with single spaces and two words, switches
    to the provider [NAME] in lower case with the model [MODEL]. *)
Theorem setprovider_command_is_parsed (fuel : nat)
    (providerName modelName : string) (w : World) :
  nospace providerName = true -> providerName <> "" ->
  nospace modelName = true -> modelName <> "" ->
  on_line fuel ("/setprovider " +:+ providerName +:+ " " +:+ modelName) w
  = Prompted
      (with_client
         (snd (setLLMProvider (Some (Text.toLowerCase providerName))
                 (Some modelName) false (env w) (client w)))
         w).
Proof.
  intros Hname Hname_ne Hmodel Hmodel_ne.
  set (line := "/setprovider " +:+ providerName +:+ " " +:+ modelName).
  assert (Htrim : Text.trim line = line).
  { unfold Text.trim.
    change (Text.skip_space line) with line.
    subst line. apply trim_end_keeps_prefix; [|destruct providerName; [contradiction|discriminate]].
    apply trim_end_keeps_prefix; [|discriminate].
    apply (trim_end_keeps_prefix " ");
      [apply trim_end_nospace; exact Hmodel|exact Hmodel_ne]. }
  assert (Hsplit : Text.split " " line = ["/setprovider"; providerName; modelName]).
  { subst line.
    change ("/setprovider " +:+ providerName +:+ " " +:+ modelName)
      with ("/setprovider" +:+ String " " (providerName +:+ String " " modelName)).
    rewrite split_piece by reflexivity.
    rewrite split_piece by (apply nospace_free; exact Hname).
    rewrite split_single by (apply nospace_free; exact Hmodel). reflexivity. }
  unfold on_line. rewrite Htrim, Hsplit.
  assert (Hprovider : ostr_truthy (Text.toLowerCase <$> head [providerName; modelName])
                      = true).
  { destruct providerName; [contradiction|reflexivity]. }
  cbn [tail]. rewrite Hprovider. reflexivity.
Qed.

End Commands.

Lemma setsystem_usage_is_unreachable_witness :
  (exists w',
     @MCPClient.on_line Sample.builtins 1 "  /setsystem Be terse.  "
       Sample.openai_world
     = MCPClient.Prompted w'
     /\ MCPClient.systemMessage (MCPClient.client w') = "Be terse.")
  /\ (exists w' steps,
        @MCPClient.on_line Sample.builtins 3 "/setsystem " Sample.openai_world
        = MCPClient.Prompted w'
        /\ MCPClient.trace w'
           = MCPClient.Appended (userMessage (Str "/setsystem")) :: steps).
Proof.
  split.
  - destruct (@setsystem_usage_is_unreachable Sample.builtins 1
                "  /setsystem Be terse.  " Sample.openai_world) as [Hset _].
    destruct (Hset "Be terse." eq_refl) as (w' & Hline & _ & Hsystem & _).
    exists w'. split; [exact Hline|exact Hsystem].
  - destruct (@setsystem_usage_is_unreachable Sample.builtins 3
                "/setsystem " Sample.openai_world) as [_ Hbare].
    destruct (Hbare eq_refl) as (w' & steps & Hline & Htrace); [cbn; lia|].
    exists w', steps. split; [exact Hline|exact Htrace].
Defined.

Lemma setprovider_command_is_parsed_witness :
  exists w',
    @MCPClient.on_line Sample.builtins 1 "/setprovider Google gemini-pro"
      Sample.openai_world
    = MCPClient.Prompted w'
    /\ MCPClient.llmProvider (MCPClient.client w') = Some "google"
    /\ MCPClient.geminiModel (MCPClient.client w') = Some "gemini-pro".
Proof.
  pose proof (@setprovider_command_is_parsed Sample.builtins 1 "Google"
                "gemini-pro" Sample.openai_world eq_refl ltac:(discriminate)
                eq_refl ltac:(discriminate)) as Hparsed.
  eexists. split; [exact Hparsed|]. split; reflexivity.
Defined.

(* ===================================================================== *)
(** * Properties of the requests the adapters build                        *)
(* ===================================================================== *)

Section Requests.
Context `{Builtins}.

(** A turn of the Anthropic request as the API wants it: role [user] or
    [assistant], and a list of blocks that is not empty. *)
Definition well_formed_turn (t : value) : Prop :=
  exists r blocks,
    t = Wire.turn r (Arr blocks)
    /\ blocks <> []
    /\ (r = "user" \/ r = "assistant").

Lemma pairing_turns_well_formed (results : ObjectLiteral.object) (m : Message) :
  Forall well_formed_turn (PerMessage.turns results m).
Proof.
  unfold PerMessage.turns. destruct (role m); try constructor.
  - unfold AnthropicProvider.user_message_turns.
    destruct (AnthropicProvider._convertUserContentForAnthropic (content m))
      as [|b bs] eqn:E.
    + destruct (content m); try (constructor; fail); discriminate E.
    + repeat constructor. exists "user", (b :: bs).
      split; [reflexivity|]. split; [discriminate|left; reflexivity].
  - apply Forall_app. split.
    + destruct (PerMessage.assistant_blocks m) as [|b bs]; repeat constructor.
      exists "assistant", (b :: bs).
      split; [reflexivity|]. split; [discriminate|right; reflexivity].
    + destruct (omap (AnthropicProvider.result_block results) (calls_of m))
        as [|b bs]; repeat constructor.
      exists "user", (b :: bs).
      split; [reflexivity|]. split; [discriminate|left; reflexivity].
Qed.

(** X15. Whatever the history holds (system messages, tool messages without a
    call, assistant messages without text, user messages whose parts are
    all dropped), every turn of the Anthropic request has the role [user]
    or [assistant] and a list of blocks that is not empty. *)
Theorem anthropic_turns_are_well_formed (history : list Message) :
  Forall well_formed_turn (AnthropicProvider.formatConversation history).
Proof.
  unfold AnthropicProvider.formatConversation.
  rewrite format_loop_turns by (left; reflexivity). cbn [app flushed].
  generalize (AnthropicProvider.toolResultsMap history).
  intros results.
  induction history as [|m rest IH]; [constructor|].
  cbn [flat_map]. apply Forall_app. split; [|exact IH].
  apply pairing_turns_well_formed.
Qed.









End Requests.

Module RequestSample.




End RequestSample.


(* ===================================================================== *)
(** * Properties: image messages written by the OpenAI two-step            *)
(* ===================================================================== *)

Section ImageUrls.
Context `{Builtins}.

Fixpoint all_chars (cls : ascii -> bool) (s : string) : bool :=
  match s with
  | EmptyString => true
  | String a s' => (cls a && all_chars cls s')%bool
  end.


Lemma span_run (cls : ascii -> bool) (run : string) (a : ascii) (rest : string) :
  all_chars cls run = true ->
  cls a = false ->
  Text.span cls (run +:+ String a rest) = (run, String a rest).
Proof.
  intros Hrun Ha. induction run as [|b run IH].
  - change (EmptyString +:+ String a rest) with (String a rest).
    cbn [Text.span]. rewrite Ha. reflexivity.
  - cbn [all_chars] in Hrun. apply andb_prop in Hrun as [Hb Hrun].
    change (String b run +:+ String a rest)
      with (String b (run +:+ String a rest)).
    cbn [Text.span]. rewrite Hb, (IH Hrun). reflexivity.
Qed.







End ImageUrls.



(* ===================================================================== *)
(** * Properties: the system turn of the chat-completion adapters          *)
(* ===================================================================== *)

Section SystemTurn.
Context `{Builtins}.

(** [turn.role === 'system'] *)
Definition is_system_turn (t : value) : bool := field_is "role" "system" t.

Lemma assistant_turns_not_system (m : Message) :
  Forall (fun t => is_system_turn t = false) (OpenAIProvider.assistant_turns m).
Proof.
  unfold OpenAIProvider.assistant_turns.
  destruct (nonblank_text m), (calls_of m); repeat constructor.
Qed.

Lemma openai_message_not_system (this : BaseProvider) (m : Message) :
  Forall (fun t => is_system_turn t = false) (OpenAIProvider.format_message this m).
Proof.
  unfold OpenAIProvider.format_message. destruct (role m).
  - unfold OpenAIProvider.user_turns.
    destruct (content m); try (repeat constructor; fail).
    destruct (flat_map OpenAIProvider.convert_user_part xs); repeat constructor.
  - apply assistant_turns_not_system.
  - unfold OpenAIProvider.tool_turns.
    constructor; [reflexivity|].
    destruct (ToolResultText.found_image _) as [[data mime]|]; repeat constructor.
  - constructor.
Qed.

Lemma deepseek_message_not_system (m : Message) :
  Forall (fun t => is_system_turn t = false) (DeepSeekProvider.format_message m).
Proof.
  unfold DeepSeekProvider.format_message. destruct (role m).
  - repeat constructor.
  - apply assistant_turns_not_system.
  - repeat constructor.
  - constructor.
Qed.

Lemma flat_map_Forall {A B : Type} (P : B -> Prop) (f : A -> list B) (l : list A) :
  (forall x, Forall P (f x)) -> Forall P (flat_map f l).
Proof.
  intros Hf. induction l as [|a l IH]; [constructor|].
  cbn [flat_map]. apply Forall_app. split; [apply Hf|exact IH].
Qed.

(** [conversationHistory.length === 0 || conversationHistory[0].role !==
    'system'] *)
Definition starts_without_system (history : list Message) : bool :=
  match history with
  | [] => true
  | first :: _ => negb (Role_eqb (role first) system)
  end.

Lemma system_turn_of_request (systemMessage : string) (history : list Message)
    (turns : list value) (t : value) :
  Forall (fun t => is_system_turn t = false) turns ->
  t ∈ (if (str_truthy systemMessage && starts_without_system history)%bool
       then [Wire.turn "system" (Str systemMessage)] else []) ++ turns ->
  is_system_turn t = true ->
  t = Wire.turn "system" (Str systemMessage)
  /\ str_truthy systemMessage = true
  /\ starts_without_system history = true.
Proof.
  intros Hturns Hin Hsystem. apply elem_of_app in Hin as [Hin|Hin].
  - destruct (str_truthy systemMessage), (starts_without_system history);
      cbn in Hin; try (inversion Hin; fail).
    apply list_elem_of_singleton in Hin. repeat split. exact Hin.
  - rewrite Forall_forall in Hturns. rewrite (Hturns _ Hin) in Hsystem.
    discriminate Hsystem.
Qed.

(** X19. A turn with the role [system] in a request of the OpenAI or of the
    DeepSeek adapter is always the adapter's own system message, never a
    message of the history; and there is none at all when the history
    starts with a system message, although the adapter has one. *)
Theorem system_turn_comes_from_the_adapter
    (this : BaseProvider) (history : list Message) (t : value) :
  t ∈ OpenAIProvider.formatConversation this history
  \/ t ∈ DeepSeekProvider.formatConversation this history ->
  is_system_turn t = true ->
  t = Wire.turn "system" (Str (providerSystemMessage this))
  /\ str_truthy (providerSystemMessage this) = true
  /\ starts_without_system history = true.
Proof.
  intros [Hin|Hin] Hsystem.
  - apply (system_turn_of_request _ history
             (flat_map (OpenAIProvider.format_message this) history));
      [|exact Hin|exact Hsystem].
    apply flat_map_Forall. apply openai_message_not_system.
  - apply (system_turn_of_request _ history
             (flat_map DeepSeekProvider.format_message history));
      [|exact Hin|exact Hsystem].
    apply flat_map_Forall. apply deepseek_message_not_system.
Qed.

End SystemTurn.

Lemma system_turn_comes_from_the_adapter_witness :
  Wire.turn "system" (Str "be brief")
  = Wire.turn "system" (Str (providerSystemMessage Sample.openai_instance))
  /\ str_truthy (providerSystemMessage Sample.openai_instance) = true
  /\ starts_without_system Sample.history_with_screenshot = true.
Proof.
  apply (@system_turn_comes_from_the_adapter Sample.builtins
           Sample.openai_instance Sample.history_with_screenshot
           (Wire.turn "system" (Str "be brief"))).
  - left. left.
  - reflexivity.
Defined.

(* ===================================================================== *)
(** * Properties: the server a tool call is sent to                        *)
(* ===================================================================== *)

Section Routing.
Import Registry.

Variable listTools : string -> outcome (option (list (list (string * value)))).

(** Whether the listing of a server holds a tool of the given name. *)
Definition lists (serverName toolName : string) : bool :=
  match listTools serverName with
  | Returned (Some toolsList) =>
      existsb (fun tool => field_is "name" toolName (Obj tool)) toolsList
  | _ => false
  end.

(** The tools recorded for a server. *)
Definition recorded (serverName : string) : list value :=
  match listTools serverName with
  | Returned (Some toolsList) => with_server serverName <$> toolsList
  | _ => []
  end.

Lemma Map_set_fresh (key : string) (v : list value) (map : Tools) :
  key ∉ map.*1 -> Map_set key v map = map ++ [(key, v)].
Proof.
  induction map as [|[k v'] rest IH]; intros Hfresh; [reflexivity|].
  cbn [Map_set]. cbn in Hfresh. apply not_elem_of_cons in Hfresh as [Hne Hrest].
  destruct (String.eqb_spec key k) as [->|_]; [contradiction|].
  rewrite (IH Hrest). reflexivity.
Qed.

Lemma load_server_recorded (tools : Tools) (serverName : string) :
  load_server listTools tools serverName
  = Map_set serverName (recorded serverName) tools.
Proof.
  unfold load_server, recorded.
  destruct (listTools serverName) as [[toolsList|]|]; reflexivity.
Qed.

Lemma loadTools_fresh (mcpClients : list string) (tools : Tools) :
  NoDup mcpClients ->
  (forall s, s ∈ mcpClients -> s ∉ tools.*1) ->
  loadTools listTools mcpClients tools
  = tools ++ ((fun s => (s, recorded s)) <$> mcpClients).
Proof.
  unfold loadTools.
  revert tools. induction mcpClients as [|s rest IH]; intros tools Hnodup Hfresh.
  - cbn. rewrite app_nil_r. reflexivity.
  - apply NoDup_cons in Hnodup as [Hs Hnodup].
    cbn [fold_left].
    rewrite load_server_recorded, Map_set_fresh by (apply Hfresh; left).
    rewrite IH; [rewrite <- app_assoc; reflexivity|exact Hnodup|].
    intros s' Hs'. rewrite fmap_app. cbn. intros Hin.
    apply elem_of_app in Hin as [Hin|Hin].
    + apply (Hfresh s'); [right; exact Hs'|exact Hin].
    + apply list_elem_of_singleton in Hin. subst s'. exact (Hs Hs').
Qed.

Lemma set_field_other (k k' : string) (v : value) (fields : list (string * value)) :
  k' <> k -> assoc k' (GoogleProvider.set_field k v fields) = assoc k' fields.
Proof.
  intros Hne. induction fields as [|[k0 v0] rest IH]; cbn.
  - destruct (String.eqb_spec k' k) as [->|_]; [contradiction|reflexivity].
  - destruct (String.eqb_spec k k0) as [<-|Hk0]; cbn.
    + destruct (String.eqb_spec k' k) as [->|_]; [contradiction|reflexivity].
    + rewrite IH. reflexivity.
Qed.

Lemma recorded_lists (serverName toolName : string) :
  existsb (field_is "name" toolName) (recorded serverName)
  = lists serverName toolName.
Proof.
  unfold recorded, lists.
  destruct (listTools serverName) as [[toolsList|]|]; try reflexivity.
  induction toolsList as [|tool rest IH]; [reflexivity|].
  cbn [fmap list_fmap existsb]. rewrite <- IH. f_equal.
  unfold with_server, field_is, get.
  rewrite set_field_other by discriminate. reflexivity.
Qed.

(** X20. After [loadTools] on the connected servers, [getAllTools] holds the
    tools of every server, in the order of connection, and a tool call is
    sent to the first of those servers whose listing holds a tool of that
    name: a tool of the same name on a later server is declared to the
    model and never called. Without such a server, and also when the
    server found has the empty name, the call fails with the error that
    no server was found. *)
Theorem tool_call_goes_to_first_server
    (mcpClients : list string) (toolName : string) :
  NoDup mcpClients ->
  let tools := loadTools listTools mcpClients [] in
  getAllTools tools = flat_map recorded mcpClients
  /\ server_for tools toolName
     = match find (fun s => lists s toolName) mcpClients with
       | Some serverName =>
           if str_truthy serverName then Some serverName else None
       | None => None
       end.
Proof.
  intros Hnodup tools. unfold tools.
  rewrite (loadTools_fresh mcpClients [] Hnodup)
    by (intros s _ Hin; inversion Hin).
  cbn [app]. clear. split.
  - unfold getAllTools.
    induction mcpClients as [|s rest IH]; [reflexivity|].
    cbn. rewrite IH. reflexivity.
  - unfold server_for.
    induction mcpClients as [|s rest IH]; [reflexivity|].
    cbn [fmap list_fmap find snd]. rewrite recorded_lists.
    destruct (lists s toolName); [reflexivity|exact IH].
Qed.

End Routing.

Module RoutingSample.

(** Two servers that both list a tool named [search]; a third one whose
    listing fails. *)
Definition listTools (serverName : string)
  : outcome (option (list (list (string * value)))) :=
  if String.eqb serverName "files" then
    Returned (Some [[("name", Str "read")]; [("name", Str "search")]])
  else if String.eqb serverName "web" then
    Returned (Some [[("name", Str "search")]; [("name", Str "fetch")]])
  else Thrown "Connection closed".

End RoutingSample.

Lemma tool_call_goes_to_first_server_witness :
  let tools :=
    Registry.loadTools RoutingSample.listTools ["mail"; "files"; "web"] [] in
  Registry.getAllTools tools
  = flat_map (recorded RoutingSample.listTools) ["mail"; "files"; "web"]
  /\ Registry.server_for tools "search" = Some "files".
Proof.
  apply (tool_call_goes_to_first_server RoutingSample.listTools
           ["mail"; "files"; "web"] "search").
  apply (bool_decide_unpack _). vm_compute. exact I.
Defined.

(* ===================================================================== *)
(** * Properties: the data-URI prefix of an image in a tool result         *)
(* ===================================================================== *)

Section Prefixes.
Context `{Builtins}.

(** A tool result whose content list holds one image part. *)
Definition image_result (data mimeType : string) : value :=
  Obj [("content",
        Arr [Obj [("type", Str "image");
                  ("data", Str data);
                  ("mimeType", Str mimeType)]])].

Lemma strip_data_uri_kept (cls : ascii -> bool) (pre rest : string) (a : ascii) :
  all_chars cls pre = true ->
  cls a = false ->
  a <> ";"%char ->
  Wire.strip_data_uri cls ("data:" +:+ pre +:+ String a rest)
  = "data:" +:+ pre +:+ String a rest.
Proof.
  intros Hpre Ha Hsemi. unfold Wire.strip_data_uri.
  replace (Text.strip_prefix "data:" ("data:" +:+ pre +:+ String a rest))
    with (Some (pre +:+ String a rest)) by reflexivity.
  rewrite (span_run cls pre a rest Hpre Ha).
  destruct pre as [|b pre]; [reflexivity|].
  cbn [Text.strip_prefix].
  destruct (Ascii.eqb_spec ";" a) as [<-|_]; [contradiction|reflexivity].
Qed.

Lemma after_first_comma_base64 (meta payload : string) :
  ImageShapes.comma_free meta = true ->
  Text.after_first "," (meta +:+ ";base64," +:+ payload) = Some payload.
Proof.
  induction meta as [|b meta IH]; intros Hfree; [reflexivity|].
  cbn [ImageShapes.comma_free] in Hfree.
  apply andb_prop in Hfree as [Hb Hfree]. apply negb_true_iff in Hb.
  change (String b meta +:+ ";base64," +:+ payload)
    with (String b (meta +:+ ";base64," +:+ payload)).
  cbn [Text.after_first]. rewrite Hb. exact (IH Hfree).
Qed.

Lemma append_String (pre post rest : string) (a : ascii) :
  (pre +:+ String a post) +:+ rest = pre +:+ String a (post +:+ rest).
Proof.
  induction pre as [|b pre IH]; [reflexivity|].
  change ((String b pre +:+ String a post) +:+ rest)
    with (String b ((pre +:+ String a post) +:+ rest)).
  rewrite IH. reflexivity.
Qed.

(** X21. The pattern with which the OpenAI adapter strips a data-URI prefix
    allows letters, digits, backslashes, slashes and plus signs in the media
    type. With another character there (the dash of [image/x-icon], the dot
    of [image/vnd.microsoft.icon]) [extractImageFromToolResult] returns the
    data with its prefix, and the image message of the two-step carries a
    URL with two prefixes; the client's own extraction, which cuts at the
    first comma, returns the payload alone. *)
Theorem prefix_outside_class_is_not_stripped
    (pre post payload mimeType prompt : string) (a : ascii) :
  all_chars OpenAIProvider.prefix_class pre = true ->
  OpenAIProvider.prefix_class a = false ->
  a <> ";"%char ->
  ImageShapes.comma_free (pre +:+ String a post) = true ->
  str_truthy mimeType = true ->
  let data := "data:" +:+ (pre +:+ String a post) +:+ ";base64," +:+ payload in
  OpenAIProvider.extractImageFromToolResult (image_result data mimeType)
  = (Some data, Some (Str mimeType))
  /\ OpenAIProvider.prepareImageMessageContent data (Str mimeType) prompt
     = [Wire.text_part prompt;
        Wire.image_url_part
          ("data:" +:+ mimeType +:+ ";base64,"
           +:+ "data:" +:+ (pre +:+ String a post) +:+ ";base64," +:+ payload)]
  /\ MCPClient._extractImageFromMcpToolResult (image_result data mimeType)
     = Some (payload, mimeType).
Proof.
  intros Hpre Ha Hsemi Hfree Hmime data.
  assert (Hdata : data
                  = "data:" +:+ pre +:+ String a (post +:+ ";base64," +:+ payload)).
  { unfold data. rewrite append_String. reflexivity. }
  split; [|split].
  - unfold OpenAIProvider.extractImageFromToolResult, image_result.
    destruct mimeType as [|c mimeType]; [discriminate Hmime|].
    replace (ToolResultText.find_image _)
      with (Some data, Some (Str (String c mimeType))) by reflexivity.
    replace (ToolResultText.strip_found OpenAIProvider.prefix_class
               (Some data, Some (Str (String c mimeType))))
      with (Some (Wire.strip_data_uri OpenAIProvider.prefix_class data),
            Some (Str (String c mimeType))) by reflexivity.
    rewrite Hdata, (strip_data_uri_kept _ _ _ _ Hpre Ha Hsemi). reflexivity.
  - reflexivity.
  - unfold MCPClient._extractImageFromMcpToolResult, image_result.
    cbn. unfold MCPClient.raw_base64.
    replace (Text.startsWith "data:" data) with true by reflexivity.
    unfold Text.substring_after_indexOf.
    replace (Text.after_first "," data)
      with (Text.after_first ","
              ((pre +:+ String a post) +:+ ";base64," +:+ payload))
      by reflexivity.
    rewrite (after_first_comma_base64 _ _ Hfree). reflexivity.
Qed.

End Prefixes.

Lemma prefix_outside_class_is_not_stripped_witness :
  let data := "data:image/x-icon;base64,AAABAAEA" in
  @OpenAIProvider.extractImageFromToolResult (image_result data "image/x-icon")
  = (Some data, Some (Str "image/x-icon"))
  /\ @OpenAIProvider.prepareImageMessageContent Sample.builtins data
       (Str "image/x-icon") "Describe the image."
     = [Wire.text_part "Describe the image.";
        Wire.image_url_part
          "data:image/x-icon;base64,data:image/x-icon;base64,AAABAAEA"]
  /\ MCPClient._extractImageFromMcpToolResult (image_result data "image/x-icon")
     = Some ("AAABAAEA", "image/x-icon").
Proof.
  apply (@prefix_outside_class_is_not_stripped Sample.builtins
           "image/x" "icon" "AAABAAEA" "image/x-icon" "Describe the image."
           "-"%char).
  - reflexivity.
  - reflexivity.
  - discriminate.
  - reflexivity.
  - reflexivity.
Defined.

(* ===================================================================== *)
(** * Properties: what the DeepSeek adapter leaves out                     *)
(* ===================================================================== *)

Section TextOnly.
Context `{Builtins}.

(** [Array.isArray(turn.content)] *)
Definition has_content_parts (t : value) : bool :=
  match get "content" t with
  | Some (Arr _) => true
  | _ => false
  end.

Lemma deepseek_message_text_only (m : Message) :
  Forall (fun t => has_content_parts t = false) (DeepSeekProvider.format_message m).
Proof.
  unfold DeepSeekProvider.format_message. destruct (role m).
  - constructor; [|constructor].
    unfold DeepSeekProvider.userContent. destruct (content m); reflexivity.
  - unfold OpenAIProvider.assistant_turns.
    destruct (nonblank_text m), (calls_of m); repeat constructor.
  - constructor; [|constructor].
    destruct (tool_call_id m); reflexivity.
  - constructor.
Qed.

(** X22. No turn of a DeepSeek request has a list of parts as its content,
    whatever the history holds: a user message made of parts (text, images
    of any of the three shapes) is sent as one text, so no image data of a
    user message reaches this provider. *)
Theorem deepseek_request_has_no_content_parts
    (this : BaseProvider) (history : list Message) (t : value) :
  t ∈ DeepSeekProvider.formatConversation this history ->
  has_content_parts t = false.
Proof.
  unfold DeepSeekProvider.formatConversation. intros Hin.
  apply elem_of_app in Hin as [Hin|Hin].
  - destruct (_ && _)%bool; [|inversion Hin].
    apply list_elem_of_singleton in Hin. subst t. reflexivity.
  - pose proof (flat_map_Forall _ _ history deepseek_message_text_only) as Hall.
    rewrite Forall_forall in Hall. exact (Hall _ Hin).
Qed.

End TextOnly.

Lemma deepseek_request_has_no_content_parts_witness :
  has_content_parts
    (Wire.turn "user"
       (Str "Look.
[Image data was present in history but not sent to DeepSeek provider]"))
  = false.
Proof.
  apply (@deepseek_request_has_no_content_parts Sample.builtins
           Sample.openai_instance
           [userMessage
              (Arr [Wire.text_part "Look.";
                    Wire.image_mcp_part "image/png" "iVBORw0KGgo="])]).
  right. left.
Defined.
